(** * Wii Balance Board sessions: calibration store, mass calculator, feed

    A shallow embedding of [mass.py]: the receive loop of a
    [BalanceBoard] (one frame per step), its calibration store, the
    four-sensor mass calculator, [disconnect], and one tick of the
    websocket feed [mass_server].

    Conventions of the embedding.
    - Frames and calibration bytes are [list byte]; Python integers are [Z].
    - A Python exception leaving a method is an explicit outcome that
      still carries the object's fields as they were when it was raised:
      the assignments made before the exception stay made.
    - Python's numbers are a two-level tower, [Int] and [Float]; the
      float operations are a parameter (class [PyFloat]) with two
      instances: exact rationals [Q], used for the algebraic
      statements, and IEEE binary64 ([SpecFloat], precision 53), which
      is what CPython computes, used to evaluate the concrete examples.
    - Socket traffic ([send], [recv]) and [print] are not part of the
      state; the frames delivered by [recv] are the input of the model.
    - [constants.py] is not among the sources: the packet-type codes,
      [CALIBRATION_ADDR] and [CALIBRATION_LENGTH] are section variables. *)

From Stdlib Require Import ZArith QArith Qpower Qabs SpecFloat String Lia Lqa
  OrderedTypeEx.
From Stdlib.Strings Require Import Byte.
From stdpp Require Import base list sorting strings.

#[local] Open Scope Z_scope.

(** ** Exceptions and outcomes *)

Inductive exn : Set := IndexError | StructError | ZeroDivisionError.

(** The value of an expression, or the exception it raises. *)
Inductive result (A : Type) : Type :=
| Ok (a : A)
| Err (e : exn).
Arguments Ok {A} a.
Arguments Err {A} e.

#[export] Instance result_bind : MBind result := fun A B k r =>
  match r with
  | Ok a => k a
  | Err e => Err e
  end.

(** The effect of a statement on an object [S]: it completes, or an
    exception leaves it; either way the fields are those in [S]. *)
Inductive outcome (S : Type) : Type :=
| Continue (s : S)
| Raised (e : exn) (s : S).
Arguments Continue {S} s.
Arguments Raised {S} e s.

Definition state_of {S} (o : outcome S) : S :=
  match o with
  | Continue s => s
  | Raised _ s => s
  end.

Definition raised {S} (o : outcome S) : option exn :=
  match o with
  | Continue _ => None
  | Raised e _ => Some e
  end.

(** ** Bytes, slices and [struct.unpack] *)

Module Codec.

Definition byte_val (b : byte) : Z := Z.of_N (Byte.to_N b).

(** [l[a:b]] for [0 <= a <= b]. *)
Definition slice {A} (a b : nat) (l : list A) : list A :=
  take (b - a) (drop a l).

(** [l[-2:]] *)
Definition last_two {A} (l : list A) : list A :=
  drop (length l - 2) l.

(** [struct.unpack(">H", bs)[0]]: exactly two bytes, big-endian. *)
Definition unpack_H (bs : list byte) : result Z :=
  match bs with
  | [hi; lo] => Ok (byte_val hi * 256 + byte_val lo)
  | _ => Err StructError
  end.

(** [struct.unpack(">HHHH", bs)]: exactly eight bytes. *)
Definition unpack_HHHH (bs : list byte) : result (list Z) :=
  match bs with
  | [a1; a0; b1; b0; c1; c0; d1; d0] =>
      Ok [byte_val a1 * 256 + byte_val a0; byte_val b1 * 256 + byte_val b0;
          byte_val c1 * 256 + byte_val c0; byte_val d1 * 256 + byte_val d0]
  | _ => Err StructError
  end.

(** [any(l)] on a list of integers. *)
Definition any (l : list Z) : bool := existsb (fun x => negb (x =? 0)) l.

End Codec.
Import Codec.

(** ** Python numbers *)

Class PyFloat (F : Type) : Type := {
  float_of_int : Z -> F;
  float_add : F -> F -> F;
  float_mul : F -> F -> F;
  float_div : F -> F -> F
}.

Inductive num (F : Type) : Type :=
| Int (n : Z)
| Float (x : F).
Arguments Int {F} n.
Arguments Float {F} x.

Section Numbers.
Context {F : Type} `{PyFloat F}.

Definition to_float (a : num F) : F :=
  match a with
  | Int n => float_of_int n
  | Float x => x
  end.

(** [a + b] *)
Definition num_add (a b : num F) : num F :=
  match a, b with
  | Int m, Int n => Int (m + n)
  | _, _ => Float (float_add (to_float a) (to_float b))
  end.

(** [a * b] *)
Definition num_mul (a b : num F) : num F :=
  match a, b with
  | Int m, Int n => Int (m * n)
  | _, _ => Float (float_mul (to_float a) (to_float b))
  end.

(** [a / b] on two integers: true division. *)
Definition int_truediv (a b : Z) : result (num F) :=
  if b =? 0 then Err ZeroDivisionError
  else Ok (Float (float_div (float_of_int a) (float_of_int b))).

(** [sum(l)]: starts from the integer [0] and adds from the left. *)
Definition py_sum (l : list (num F)) : num F :=
  fold_left num_add l (Int 0).

(** *** The per-axis formulas of [calculate_mass] *)

(** [(point - zero) * (17 / (half - zero))] *)
Definition mass_low (zero half point : Z) : result (num F) :=
  c ← int_truediv 17 (half - zero);
  Ok (num_mul (Int (point - zero)) c).

(** [((point - half) * (17 / (full - half))) + 17] *)
Definition mass_high (half full point : Z) : result (num F) :=
  c ← int_truediv 17 (full - half);
  Ok (num_add (num_mul (Int (point - half)) c) (Int 17)).

(** The [if]/[elif]/[else] of one loop iteration. *)
Definition axis_mass (zero half full point : Z) : result (num F) :=
  if point <? zero then Ok (Int 0)
  else if (zero <=? point) && (point <? half) then mass_low zero half point
  else mass_high half full point.

(** The three calibration points of axis [i]. *)
Definition axis_calibration (cal : list byte) (i : nat)
  : result (Z * Z * Z) :=
  zero ← unpack_H (slice (i * 2) (i * 2 + 2) cal);
  half ← unpack_H (slice (i * 2 + 8) (i * 2 + 10) cal);
  full ← unpack_H (slice (i * 2 + 16) (i * 2 + 18) cal);
  Ok (zero, half, full).

(** The [for i, point in enumerate(self.sensor_data)] loop, from index
    [i] on; [mass] is updated in place, one axis per iteration. *)
Fixpoint mass_loop (cal : list byte) (i : nat) (points : list Z)
    (mass : list (num F)) : outcome (list (num F)) :=
  match points with
  | [] => Continue mass
  | point :: rest =>
      match axis_calibration cal i with
      | Err e => Raised e mass
      | Ok (zero, half, full) =>
          match axis_mass zero half full point with
          | Err e => Raised e mass
          | Ok m =>
              if decide (i < length mass)%nat
              then mass_loop cal (S i) rest (<[i := m]> mass)
              else Raised IndexError mass
          end
      end
  end.

End Numbers.

(** ** The session object *)

Inductive status_t : Set := Connected | Disconnected.

Definition status_eqb (a b : status_t) : bool :=
  match a, b with
  | Connected, Connected | Disconnected, Disconnected => true
  | _, _ => false
  end.

Record BalanceBoard (F : Type) : Type := mkBoard {
  address : string;
  status : status_t;
  calibration_data : list byte;
  calibration_mask : list Z;
  sensor_data : list Z;
  mass : list (num F);
  total_mass : num F
}.
Arguments mkBoard {F}.
Arguments address {F} _.
Arguments status {F} _.
Arguments calibration_data {F} _.
Arguments calibration_mask {F} _.
Arguments sensor_data {F} _.
Arguments mass {F} _.
Arguments total_mass {F} _.

Section Setters.
Context {F : Type}.
Implicit Type s : BalanceBoard F.

Definition set_status (v : status_t) s : BalanceBoard F :=
  mkBoard (address s) v (calibration_data s) (calibration_mask s)
          (sensor_data s) (mass s) (total_mass s).

Definition set_calibration_data (v : list byte) s : BalanceBoard F :=
  mkBoard (address s) (status s) v (calibration_mask s)
          (sensor_data s) (mass s) (total_mass s).

Definition set_calibration_mask (v : list Z) s : BalanceBoard F :=
  mkBoard (address s) (status s) (calibration_data s) v
          (sensor_data s) (mass s) (total_mass s).

Definition set_sensor_data (v : list Z) s : BalanceBoard F :=
  mkBoard (address s) (status s) (calibration_data s) (calibration_mask s)
          v (mass s) (total_mass s).

Definition set_mass (v : list (num F)) s : BalanceBoard F :=
  mkBoard (address s) (status s) (calibration_data s) (calibration_mask s)
          (sensor_data s) v (total_mass s).

Definition set_total_mass (v : num F) s : BalanceBoard F :=
  mkBoard (address s) (status s) (calibration_data s) (calibration_mask s)
          (sensor_data s) (mass s) v.
End Setters.

(** The packet kinds the receive loop tells apart. *)
Inductive packet : Set :=
| StatusPacket | ButtonPacket | ReadReturnPacket | ReportPacket | UnknownPacket.

#[export] Instance packet_eq_dec : EqDecision packet.
Proof. solve_decision. Defined.

Section Session.
Context {F : Type} `{PyFloat F}.

(** [STATUS[0]], [REPORT_CB[0]], [READ_RTN[0]], [REPORT_CB8E[0]],
    [CALIBRATION_ADDR] and [CALIBRATION_LENGTH] of [constants.py]. *)
Variables STATUS_0 REPORT_CB_0 READ_RTN_0 REPORT_CB8E_0 : byte.
Variable CALIBRATION_ADDR : list byte.
Variable CALIBRATION_LENGTH : nat.

Implicit Type s : BalanceBoard F.

(** The fields as [__init__] assigns them before it connects. *)
Definition new_board (addr : string) : BalanceBoard F :=
  {| address := addr;
     status := Disconnected;
     calibration_data := replicate CALIBRATION_LENGTH Byte.x00;
     calibration_mask := replicate CALIBRATION_LENGTH 1;
     sensor_data := replicate 8 0;
     mass := replicate 4 (Int 0);
     total_mass := Int 0 |}.

(** [__init__] after both sockets connected. *)
Definition connect (addr : string) : BalanceBoard F :=
  set_status Connected (new_board addr).

(** [calculate_mass] *)
Definition calculate_mass s : outcome (BalanceBoard F) :=
  match mass_loop (calibration_data s) 0 (sensor_data s) (mass s) with
  | Raised e m => Raised e (set_mass m s)
  | Continue m => Continue (set_total_mass (py_sum m) (set_mass m s))
  end.

(** The [for i in range(length)] loop of the read-return branch, with
    [i] the current index and [n] the iterations left. *)
Fixpoint store_chunk (data : list byte) (offset i n : nat) s
  : outcome (BalanceBoard F) :=
  match n with
  | O => Continue s
  | S n' =>
      match data !! (7 + i)%nat with
      | None => Raised IndexError s
      | Some b =>
          if decide (offset + i < length (calibration_data s))%nat then
            let s1 :=
              set_calibration_data (<[(offset + i)%nat := b]> (calibration_data s)) s in
            if decide (offset + i < length (calibration_mask s1))%nat then
              store_chunk data offset (S i) n'
                (set_calibration_mask
                   (<[(offset + i)%nat := 0]> (calibration_mask s1)) s1)
            else Raised IndexError s1
          else Raised IndexError s
      end
  end.

(** [length = (data[4] >> 4) + 1] *)
Definition chunk_length (data : list byte) : result nat :=
  match data !! 4%nat with
  | None => Err IndexError
  | Some b4 => Ok (Z.to_nat (Z.shiftr (byte_val b4) 4) + 1)%nat
  end.

(** [addr = struct.unpack(">H", data[5:7])[0]] *)
Definition chunk_addr (data : list byte) : result Z :=
  unpack_H (slice 5 7 data).

(** [start_LSB = struct.unpack(">H", CALIBRATION_ADDR[-2:])[0]] *)
Definition start_LSB : result Z :=
  unpack_H (last_two CALIBRATION_ADDR).

(** The [elif packet_type == READ_RTN[0]] branch. *)
Definition read_return (data : list byte) s : outcome (BalanceBoard F) :=
  match (length ← chunk_length data;
         addr ← chunk_addr data;
         start ← start_LSB;
         Ok (length, addr, start)) with
  | Err e => Raised e s
  | Ok (length, addr, start) =>
      if (start <=? addr) && (addr <? start + Z.of_nat CALIBRATION_LENGTH)
      then store_chunk data (Z.to_nat (addr - start)) 0 length s
      else Continue s
  end.

(** The [elif packet_type == REPORT_CB8E[0]] branch. *)
Definition report (data : list byte) s : outcome (BalanceBoard F) :=
  match unpack_HHHH (slice 4 12 data) with
  | Err e => Raised e s
  | Ok sensors =>
      let s1 := set_sensor_data sensors s in
      if any (calibration_mask s1) then Continue s1 else calculate_mass s1
  end.

(** The [if]/[elif] chain on [packet_type]. *)
Definition classify (packet_type : byte) : packet :=
  if Byte.eqb packet_type STATUS_0 then StatusPacket
  else if Byte.eqb packet_type REPORT_CB_0 then ButtonPacket
  else if Byte.eqb packet_type READ_RTN_0 then ReadReturnPacket
  else if Byte.eqb packet_type REPORT_CB8E_0 then ReportPacket
  else UnknownPacket.

(** One iteration of the [while] loop of [run] on the frame [data]. *)
Definition step (data : list byte) s : outcome (BalanceBoard F) :=
  match data !! 1%nat with
  | None => Raised IndexError s
  | Some packet_type =>
      match classify packet_type with
      | StatusPacket =>
          (* prints data[3] and data[4], then resends the report mode *)
          match data !! 4%nat with
          | None => Raised IndexError s
          | Some _ => Continue s
          end
      | ButtonPacket =>
          match data !! 3%nat with
          | None => Raised IndexError s
          | Some _ => Continue s
          end
      | ReadReturnPacket => read_return data s
      | ReportPacket => report data s
      | UnknownPacket => Continue s
      end
  end.

(** [run] on the frames that [recv] delivers, in order. The loop goes
    on while [status] is [Connected]; an exception ends it. *)
Fixpoint run (frames : list (list byte)) s : outcome (BalanceBoard F) :=
  match status s with
  | Disconnected => Continue s
  | Connected =>
      match frames with
      | [] => Continue s
      | data :: rest =>
          match step data s with
          | Continue s' => run rest s'
          | Raised e s' => Raised e s'
          end
      end
  end.

(** [disconnect]: line 106 compares [status] with ["Disconnected"] and
    drops the result; no field is assigned. *)
Definition disconnect s : BalanceBoard F :=
  let _ := status_eqb (status s) Disconnected in
  s.

End Session.

(** ** The feed *)

(** Ascending order on addresses: code points, left to right. *)
Definition addr_le (a b : string) : Prop := String.leb a b = true.

#[export] Instance addr_le_dec (a b : string) : Decision (addr_le a b) :=
  decide (String.leb a b = true).

(** What one tick hands to [json.dumps]. *)
Record feed (F : Type) : Type := mkFeed {
  total : num F;
  boards : list (string * num F)
}.
Arguments mkFeed {F}.
Arguments total {F} _.
Arguments boards {F} _.

Section Feed.
Context {F : Type} `{PyFloat F}.

(** The global [boards]: a dict, in insertion order. *)
Definition registry : Type := list (string * BalanceBoard F).

(** [d[k]] *)
Fixpoint dict_get (k : string) (d : registry) : option (BalanceBoard F) :=
  match d with
  | [] => None
  | (k', b) :: d' => if String.eqb k' k then Some b else dict_get k d'
  end.

(** [keys = list(boards.keys()); keys.sort()] *)
Definition sorted_keys (d : registry) : list string :=
  merge_sort addr_le (d.*1).

(** The body of the [while True] loop of [mass_server], up to the
    dict given to [json.dumps]; [None] stands for a [KeyError].

    The loop takes no lock, and the receive and discovery threads write
    [boards] and every [total_mass] while it runs. It reads every
    session twice: [seen_sum] is the registry as the first loop reads
    it, each session with the [total_mass] it has when
    [sum += i.total_mass] runs; [seen_list] is the registry as
    [boards.keys()] and the lookups [boards[i].total_mass] of the
    second loop read it. *)
Definition mass_server_tick (seen_sum seen_list : registry) : option (feed F) :=
  let sum :=
    fold_left (fun acc kv => num_add acc (total_mass kv.2)) seen_sum (Int 0) in
  board_masses ← mapM (fun i => b ← dict_get i seen_list; Some (i, total_mass b))
                      (sorted_keys seen_list);
  Some {| total := sum; boards := board_masses |}.

End Feed.

(** ** Arithmetic *)

(** Exact rational arithmetic: the algebraic reading of the formulas.
    Python computes in [binary64] below; what holds here holds there up
    to rounding only. *)
#[export] Instance exact : PyFloat Q := {|
  float_of_int := inject_Z;
  float_add := Qplus;
  float_mul := Qmult;
  float_div := Qdiv
|}.

(** [float(n)] in binary64. *)
Definition b64_of_int (n : Z) : spec_float := binary_normalize 53 1024 n 0 false.

(** IEEE 754 binary64, round to nearest even: CPython's [float]. *)
#[export] Instance binary64 : PyFloat spec_float := {|
  float_of_int := b64_of_int;
  float_add := SFadd 53 1024;
  float_mul := SFmul 53 1024;
  float_div := SFdiv 53 1024
|}.


(** ** Vocabulary of the specification *)

(** The spec's 16-bit big-endian integer at bytes [off] and [off + 1]. *)
Definition be16_at (l : list byte) (off : nat) : option Z :=
  hi ← l !! off; lo ← l !! S off; Some (byte_val hi * 256 + byte_val lo).

(** An unsigned 16-bit reading. *)
Definition u16 (x : Z) : Prop := 0 <= x < 65536.

(** [m'] is [m] with some entries overwritten by [0]. *)
Definition mask_cleared (m m' : list Z) : Prop :=
  length m' = length m /\
  forall (i : nat) (x : Z), m' !! i = Some x -> x = 0 \/ m !! i = Some x.

(** [l] with the entries from index [k] on replaced by those of [chunk]. *)
Definition splice {A} (k : nat) (chunk l : list A) : list A :=
  take k l ++ chunk ++ drop (k + length chunk) l.

(** What [sensor_data] can hold: the eight zeros of [__init__], or four
    unsigned 16-bit readings. *)
Definition readings_shape (l : list Z) : Prop :=
  l = replicate 8 0 \/ (length l = 4%nat /\ Forall u16 l).

(** The entry of a session in the feed. *)
Definition entry {F} (kv : string * BalanceBoard F) : string * num F :=
  (kv.1, total_mass kv.2).

(** The calibration word at [off], [0] where the block is too short. *)
Definition word_at (cal : list byte) (off : nat) : Z :=
  default 0 (be16_at cal off).

(** The spec's per-axis formula, over the rationals. *)
Definition spec_axis_mass (zero half full point : Z) : Q :=
  if point <? zero then 0
  else if (zero <=? point) && (point <? half)
       then inject_Z (point - zero) * 17 / inject_Z (half - zero)
       else inject_Z (point - half) * 17 / inject_Z (full - half) + 17.

(** The spec's mass of axis [i]: zero, half and full are the words at
    bytes [2i], [2i + 8] and [2i + 16] of the calibration block. *)
Definition spec_mass (cal : list byte) (i : nat) (point : Z) : Q :=
  spec_axis_mass (word_at cal (2 * i)) (word_at cal (2 * i + 8))
                 (word_at cal (2 * i + 16)) point.

(** The formula that the case analysis selects divides by zero. *)
Definition divides_by_zero (zero half full point : Z) : bool :=
  negb (point <? zero) && negb ((zero <=? point) && (point <? half))
  && (full =? half).

Definition axis_degenerate (cal : list byte) (i : nat) (point : Z) : bool :=
  divides_by_zero (word_at cal (2 * i)) (word_at cal (2 * i + 8))
                  (word_at cal (2 * i + 16)) point.

Definition Qsum (l : list Q) : Q := foldr Qplus 0%Q l.

(** The rational that a finite binary64 number denotes. *)
Definition binary64_value (x : spec_float) : option Q :=
  match x with
  | S754_zero _ => Some 0%Q
  | S754_finite sign m e =>
      let v := (inject_Z (Z.pos m) * Qpower 2 e)%Q in
      Some (if sign then Qopp v else v)
  | _ => None
  end.

(** The binary64 number [m] denotes the rational [q]. *)
Definition denotes (m : num spec_float) (q : Q) : Prop :=
  match m with
  | Int n => (inject_Z n == q)%Q
  | Float x =>
      match binary64_value x with
      | Some v => (v == q)%Q
      | None => False
      end
  end.

(** The unit roundoff of binary64, [2^-53]. *)
Definition eps : Q := 1 # 9007199254740992.

(** The binary64 number [m] is the rational [q] up to the relative
    error [r]. *)
Definition approximates (m : num spec_float) (q r : Q) : Prop :=
  exists v, denotes m v /\ (Qabs (v - q) <= r * q)%Q.

(** zero < half < full on axis [i] of the block. *)
Definition axis_ordered (cal : list byte) (i : nat) : Prop :=
  word_at cal (2 * i) < word_at cal (2 * i + 8) < word_at cal (2 * i + 16).

(** ** Vocabulary of the rounding proofs *)

(** [r] is what right shifts make of a numerator [N] counted in units
    of [W]: the quotient by [W], with the round and sticky bits locating
    the remainder with respect to half of [W]. *)
Definition shr_inv (N W : Z) (r : shr_record) : Prop :=
  exists rem,
    N = shr_m r * W + rem /\ 0 <= rem < W /\ 0 <= shr_m r /\
    match shr_r r, shr_s r with
    | false, false => rem = 0
    | false, true => 0 < 2 * rem < W
    | true, false => 2 * rem = W
    | true, true => W < 2 * rem
    end.

Definition fexp64 : Z -> Z := fexp 53 1024.

(** The value of the mantissa [m] at the exponent [e]. *)
Definition fval (m : positive) (e : Z) : Q := (inject_Z (Z.pos m) * 2 ^ e)%Q.

(** A positive binary64 number with a full 53-bit mantissa, an exponent
    within [-b, b] and the value [v]. *)
Definition normal (b : Z) (x : spec_float) (v : Q) : Prop :=
  exists m e, x = S754_finite false m e /\ 2 ^ 52 <= Z.pos m < 2 ^ 53 /\
              - b <= e <= b /\ (v == fval m e)%Q.

(** A non-negative binary64 number: +0.0 or a positive normal number. *)
Definition nonneg_float (b : Z) (x : spec_float) (v : Q) : Prop :=
  (x = S754_zero false /\ v == 0)%Q \/ normal b x v.

(** A non-negative Python number: the integer 0 or such a float. *)
Definition nonneg_num (b : Z) (m : num spec_float) (v : Q) : Prop :=
  (m = Int 0 /\ v == 0)%Q \/ exists x, m = Float x /\ nonneg_float b x v.

(** ** A concrete board

    The constants with the values of the Wii Balance Board protocol
    (calibration block of 24 bytes at register [0xa40024]), and a
    calibration block in which every axis has zero = 100, half = 200
    and full = 300. *)

Module Example.

Definition STATUS_0 : byte := Byte.x20.
Definition REPORT_CB_0 : byte := Byte.x30.
Definition READ_RTN_0 : byte := Byte.x21.
Definition REPORT_CB8E_0 : byte := Byte.x32.
Definition CALIBRATION_ADDR : list byte := [Byte.x04; Byte.xa4; Byte.x00; Byte.x24].
Definition CALIBRATION_LENGTH : nat := 24.

Definition calibration : list byte :=
  [Byte.x00; Byte.x64; Byte.x00; Byte.x64; Byte.x00; Byte.x64; Byte.x00; Byte.x64;
   Byte.x00; Byte.xc8; Byte.x00; Byte.xc8; Byte.x00; Byte.xc8; Byte.x00; Byte.xc8;
   Byte.x01; Byte.x2c; Byte.x01; Byte.x2c; Byte.x01; Byte.x2c; Byte.x01; Byte.x2c].

(** The same block with full = half = 200 on axis 1. *)
Definition flat_calibration : list byte :=
  <[19%nat := Byte.xc8]> (<[18%nat := Byte.x00]> calibration).

(** The block with zero = half = 100 on axis 0. *)
Definition low_flat_calibration : list byte :=
  <[9%nat := Byte.x64]> calibration.

(** The read-return frame carrying bytes 0..15 of the block [cal]
    (address [0x0024], length nibble 15). *)
Definition chunk_lo (cal : list byte) : list byte :=
  [Byte.xa1; Byte.x21; Byte.x00; Byte.x00; Byte.xf0; Byte.x00; Byte.x24]
  ++ take 16 cal.

(** The read-return frame carrying bytes 16..23 (address [0x0034],
    length nibble 7). *)
Definition chunk_hi (cal : list byte) : list byte :=
  [Byte.xa1; Byte.x21; Byte.x00; Byte.x00; Byte.x70; Byte.x00; Byte.x34]
  ++ drop 16 cal.

(** A read-return frame that starts inside the block (address [0x0034],
    offset 16) and carries 16 bytes, 8 more than the block has left. *)
Definition chunk_overrun : list byte :=
  [Byte.xa1; Byte.x21; Byte.x00; Byte.x00; Byte.xf0; Byte.x00; Byte.x34]
  ++ take 16 calibration.

(** A report frame with the readings 150, 250, 50 and 150. *)
Definition report_frame : list byte :=
  [Byte.xa1; Byte.x32; Byte.x00; Byte.x00;
   Byte.x00; Byte.x96; Byte.x00; Byte.xfa; Byte.x00; Byte.x32; Byte.x00; Byte.x96].

(** A button frame. *)
Definition button_frame : list byte :=
  [Byte.xa1; Byte.x30; Byte.x00; Byte.x08].

Definition step {F} `{PyFloat F} :=
  step (F:=F) STATUS_0 REPORT_CB_0 READ_RTN_0 REPORT_CB8E_0
       CALIBRATION_ADDR CALIBRATION_LENGTH.

Definition run {F} `{PyFloat F} :=
  run (F:=F) STATUS_0 REPORT_CB_0 READ_RTN_0 REPORT_CB8E_0
      CALIBRATION_ADDR CALIBRATION_LENGTH.

(** A connected session, and the same after the two chunks of the
    block [cal] arrived. *)
Definition fresh {F} `{PyFloat F} : BalanceBoard F :=
  connect CALIBRATION_LENGTH "00:1E:35:AA:BB:CC".

Definition calibrated_with {F} `{PyFloat F} (cal : list byte) : BalanceBoard F :=
  state_of (run [chunk_lo cal; chunk_hi cal] fresh).

Definition calibrated {F} `{PyFloat F} : BalanceBoard F :=
  calibrated_with calibration.

(** The block in which every axis has zero = 0, half = 17, full = 34. *)
Definition unit_calibration : list byte :=
  [Byte.x00; Byte.x00; Byte.x00; Byte.x00; Byte.x00; Byte.x00; Byte.x00; Byte.x00;
   Byte.x00; Byte.x11; Byte.x00; Byte.x11; Byte.x00; Byte.x11; Byte.x00; Byte.x11;
   Byte.x00; Byte.x22; Byte.x00; Byte.x22; Byte.x00; Byte.x22; Byte.x00; Byte.x22].

(** Report frames with the readings 150 four times, and 10, 0, 0, 0. *)
Definition report_150 : list byte :=
  [Byte.xa1; Byte.x32; Byte.x00; Byte.x00;
   Byte.x00; Byte.x96; Byte.x00; Byte.x96; Byte.x00; Byte.x96; Byte.x00; Byte.x96].

Definition report_10 : list byte :=
  [Byte.xa1; Byte.x32; Byte.x00; Byte.x00;
   Byte.x00; Byte.x0a; Byte.x00; Byte.x00; Byte.x00; Byte.x00; Byte.x00; Byte.x00].

(** The session of the board at [addr] after it received the block
    [cal] and then the report [frame]. *)
Definition board_after {F} `{PyFloat F} (addr : string) (cal frame : list byte)
  : BalanceBoard F :=
  state_of (run [chunk_lo cal; chunk_hi cal; frame]
                (connect CALIBRATION_LENGTH addr)).

(** Two boards, registered in the order "BB", "AA": "AA" weighs 34.0
    and "BB" weighs 10.0. *)
Definition two_boards {F} `{PyFloat F} : list (string * BalanceBoard F) :=
  [("BB"%string, board_after "BB" unit_calibration report_10);
   ("AA"%string, board_after "AA" calibration report_150)].

(** A session that has received the first chunk only. *)
Definition half_calibrated {F} `{PyFloat F} : BalanceBoard F :=
  state_of (run [chunk_lo calibration] fresh).

(** Calibrated sessions: one whose axis 1 has full = half, one whose
    axis 0 has half = zero. *)
Definition flat {F} `{PyFloat F} : BalanceBoard F :=
  calibrated_with flat_calibration.

Definition low_flat {F} `{PyFloat F} : BalanceBoard F :=
  calibrated_with low_flat_calibration.

End Example.

(** More boards, for the feed. *)
Module Trio.

(** A report frame with the reading [p] (below 256) on axis 0 and the
    reading 50, below zero, on the other axes. *)
Definition report_of (p : byte) : list byte :=
  [Byte.xa1; Byte.x32; Byte.x00; Byte.x00;
   Byte.x00; p; Byte.x00; Byte.x32; Byte.x00; Byte.x32; Byte.x00; Byte.x32].

(** Three boards, registered in the order "CC", "AA", "BB", with the
    readings 104, 101 and 102 on axis 0: they weigh 0.68, 0.17 and
    0.34. *)
Definition three_boards {F} `{PyFloat F} : list (string * BalanceBoard F) :=
  [("CC"%string, Example.board_after "CC" Example.calibration (report_of Byte.x68));
   ("AA"%string, Example.board_after "AA" Example.calibration (report_of Byte.x65));
   ("BB"%string, Example.board_after "BB" Example.calibration (report_of Byte.x66))].

(** One board, calibrated, before its first report and after it (four
    times the reading 150: 34.0). *)
Definition before_report {F} `{PyFloat F} : list (string * BalanceBoard F) :=
  [("AA"%string,
    state_of (Example.run [Example.chunk_lo Example.calibration;
                           Example.chunk_hi Example.calibration]
                          (connect Example.CALIBRATION_LENGTH "AA")))].

Definition after_report {F} `{PyFloat F} : list (string * BalanceBoard F) :=
  [("AA"%string,
    Example.board_after "AA" Example.calibration Example.report_150)].

End Trio.

(** ** Commands to the board *)

(** The byte with the value [n], if there is one. *)
Definition byte_of_Z (n : Z) : option byte :=
  if n <? 0 then None else Byte.of_N (Z.to_N n).

(** [struct.pack("B", n)] *)
Definition pack_B (n : Z) : result (list byte) :=
  match byte_of_Z n with
  | Some b => Ok [b]
  | None => Err StructError
  end.

(** [struct.pack(">H", n)] *)
Definition pack_H (n : Z) : result (list byte) :=
  match byte_of_Z (n / 256), byte_of_Z (n mod 256) with
  | Some hi, Some lo => Ok [hi; lo]
  | _, _ => Err StructError
  end.

(** The control socket: the messages sent on it so far, oldest first. *)
Definition wire : Type := list (list byte).

Section Commands.

(** [OUTPUT], [READ], [WRITE], [SET_REPORT_MODE] and [LIGHT] of
    [constants.py]. *)
Variables OUTPUT READ WRITE SET_REPORT_MODE LIGHT : list byte.

(** [send]: [self.controlsocket.send(data)], after the message was
    printed. *)
Definition send (data : list byte) (sent : wire) : wire := sent ++ [data].

(** [read] *)
Definition read (location : list byte) (n : Z) (sent : wire) : result wire :=
  len ← pack_H n;
  Ok (send (OUTPUT ++ READ ++ location ++ len) sent).

(** [write] *)
Definition write (location contents : list byte) (sent : wire) : result wire :=
  len ← pack_B (Z.of_nat (length contents));
  Ok (send (OUTPUT ++ WRITE ++ location ++ len ++ contents) sent).

(** [set_report_mode] *)
Definition set_report_mode (continuous : bool) (mode : list byte) (sent : wire)
  : wire :=
  let cont := if continuous then [Byte.x04] else [Byte.x00] in
  send (OUTPUT ++ SET_REPORT_MODE ++ cont ++ mode) sent.

(** [set_light] *)
Definition set_light (state : bool) (sent : wire) : wire :=
  let cont := if state then [Byte.x10] else [Byte.x00] in
  send (OUTPUT ++ LIGHT ++ cont) sent.

End Commands.

(** ** The session and its control socket *)

(** What makes [__init__] raise. *)
Inductive init_exn : Set :=
| BluetoothNotFound  (* line 31 *)
| ConnectError       (* [connect], lines 32 and 33 *)
| PackError.         (* [struct.pack] in [read], line 38 *)

Inductive built (A : Type) : Type :=
| Built (a : A)
| Failed (e : init_exn).
Arguments Built {A} a.
Arguments Failed {A} e.

Section SessionIO.
Context {F : Type} `{PyFloat F}.
Variables STATUS_0 REPORT_CB_0 READ_RTN_0 REPORT_CB8E_0 : byte.
(** [REPORT_CB8E[1:]] *)
Variable REPORT_CB8E_tail : list byte.
Variable CALIBRATION_ADDR : list byte.
Variable CALIBRATION_LENGTH : nat.
Variables OUTPUT READ SET_REPORT_MODE : list byte.

(** The world as [__init__] meets it: whether the two Bluetooth sockets
    can be created, and whether the board at an address accepts the two
    connections. *)
Variable bluetooth : bool.
Variable reachable : string -> bool.

Implicit Type s : BalanceBoard F.

Definition REPORT_CB8E : list byte := REPORT_CB8E_0 :: REPORT_CB8E_tail.

(** What one iteration of the loop of [run] sends: the status branch,
    once it has printed [data[3]] and [data[4]], sets the report mode
    again; no other branch sends. *)
Definition step_sends (data : list byte) (sent : wire) : wire :=
  match data !! 1%nat with
  | None => sent
  | Some packet_type =>
      match classify STATUS_0 REPORT_CB_0 READ_RTN_0 REPORT_CB8E_0 packet_type with
      | StatusPacket =>
          match data !! 4%nat with
          | None => sent
          | Some _ => set_report_mode OUTPUT SET_REPORT_MODE true REPORT_CB8E sent
          end
      | _ => sent
      end
  end.

(** A frame that the loop takes for a status frame. *)
Definition is_status_frame (data : list byte) : bool :=
  match data !! 1%nat with
  | Some packet_type =>
      bool_decide (classify STATUS_0 REPORT_CB_0 READ_RTN_0 REPORT_CB8E_0 packet_type
                   = StatusPacket)
  | None => false
  end.

(** [run] with the control socket: the session as [run] leaves it, and
    the messages sent. *)
Fixpoint run_io (frames : list (list byte)) s (sent : wire)
  : outcome (BalanceBoard F) * wire :=
  match status s with
  | Disconnected => (Continue s, sent)
  | Connected =>
      match frames with
      | [] => (Continue s, sent)
      | data :: rest =>
          match step STATUS_0 REPORT_CB_0 READ_RTN_0 REPORT_CB8E_0
                     CALIBRATION_ADDR CALIBRATION_LENGTH data s with
          | Continue s' => run_io rest s' (step_sends data sent)
          | Raised e s' => (Raised e s', step_sends data sent)
          end
      end
  end.

(** [__init__]: the session, connected, and what it has sent: the
    request for the calibration block and the report mode. The socket
    objects count as true in the [if] of line 34. *)
Definition init (addr : string) : built (BalanceBoard F * wire) :=
  if negb bluetooth then Failed BluetoothNotFound
  else if negb (reachable addr) then Failed ConnectError
  else
    match read OUTPUT READ CALIBRATION_ADDR (Z.of_nat CALIBRATION_LENGTH) [] with
    | Err _ => Failed PackError
    | Ok sent =>
        Built (connect CALIBRATION_LENGTH addr,
               set_report_mode OUTPUT SET_REPORT_MODE true REPORT_CB8E sent)
    end.

(** *** Discovery *)

(** [k in d.keys()] *)
Definition dict_mem (k : string) (d : registry (F:=F)) : bool :=
  bool_decide (k ∈ d.*1).

(** [d[k] = v] *)
Fixpoint dict_set (k : string) (v : BalanceBoard F) (d : registry (F:=F))
  : registry (F:=F) :=
  match d with
  | [] => [(k, v)]
  | (k', b) :: d' =>
      if String.eqb k' k then (k, v) :: d' else (k', b) :: dict_set k v d'
  end.

(** The condition of line 122 on the device [dev = (address, name)]. *)
Definition is_new_board (dev : string * string) (d : registry (F:=F)) : bool :=
  String.eqb dev.2 "Nintendo RVL-WBC-01" && negb (dict_mem dev.1 d)
  && negb (String.eqb dev.1 "").

(** A board [discovery] may register: named as a balance board, with an
    address that is not empty, and accepting the connections. *)
Definition registrable (devices : list (string * string)) (k : string) : Prop :=
  (k, "Nintendo RVL-WBC-01"%string) ∈ devices /\ k <> ""%string /\
  bluetooth = true /\ reachable k = true.

(** How far the discovery thread got: still scanning, or ended by an
    exception of [__init__]. *)
Inductive discovered : Type :=
| Scanned (d : registry (F:=F))
| Died (e : init_exn) (d : registry (F:=F)).

Definition registry_of (o : discovered) : registry (F:=F) :=
  match o with
  | Scanned d | Died _ d => d
  end.

(** The [for dev in devices] loop on one result of [discover_devices]. *)
Fixpoint scan (devices : list (string * string)) (d : registry (F:=F))
  : discovered :=
  match devices with
  | [] => Scanned d
  | dev :: rest =>
      if is_new_board dev d then
        match init dev.1 with
        | Failed e => Died e d
        | Built (new, _) => scan rest (dict_set dev.1 new d)
        end
      else scan rest d
  end.

(** [discovery] on the successive results of [discover_devices]. *)
Fixpoint discovery (scans : list (list (string * string))) (d : registry (F:=F))
  : discovered :=
  match scans with
  | [] => Scanned d
  | devices :: rest =>
      match scan devices d with
      | Scanned d' => discovery rest d'
      | Died e d' => Died e d'
      end
  end.

End SessionIO.

(** Values for the constants of the commands. *)
Module ExampleIO.

Definition OUTPUT : list byte := [Byte.xa2].
Definition READ : list byte := [Byte.x17].
Definition WRITE : list byte := [Byte.x16].
Definition SET_REPORT_MODE : list byte := [Byte.x12].
Definition LIGHT : list byte := [Byte.x11].

(** A status frame. *)
Definition status_frame : list byte :=
  [Byte.xa1; Byte.x20; Byte.x00; Byte.x00; Byte.x02; Byte.x00; Byte.x00; Byte.x55].

Definition run_io {F} `{PyFloat F} :=
  run_io (F:=F) Example.STATUS_0 Example.REPORT_CB_0 Example.READ_RTN_0
         Example.REPORT_CB8E_0 [] Example.CALIBRATION_ADDR
         Example.CALIBRATION_LENGTH OUTPUT SET_REPORT_MODE.

(** A world with Bluetooth in which every board accepts. *)
Definition discovery {F} `{PyFloat F} :=
  discovery (F:=F) Example.REPORT_CB8E_0 [] Example.CALIBRATION_ADDR
            Example.CALIBRATION_LENGTH OUTPUT READ SET_REPORT_MODE
            true (fun _ => true).

Definition devices : list (string * string) :=
  [("00:1E:35:AA:BB:CC"%string, "Nintendo RVL-WBC-01"%string);
   ("00:11:22:33:44:55"%string, "Headset"%string);
   (""%string, "Nintendo RVL-WBC-01"%string);
   ("00:1E:35:AA:BB:CC"%string, "Nintendo RVL-WBC-01"%string)].

End ExampleIO.

(** * Properties *)

(** ** The calibration mask only loses bits *)


Lemma mask_cleared_refl m : mask_cleared m m.
Proof. split; auto. Qed.

Lemma mask_cleared_trans m1 m2 m3 :
  mask_cleared m1 m2 -> mask_cleared m2 m3 -> mask_cleared m1 m3.
Proof.
  intros [L12 P12] [L23 P23]. split; [congruence|].
  intros i x Hx. destruct (P23 i x Hx) as [->|Hx2]; auto.
Qed.

Lemma mask_cleared_insert m (i : nat) : mask_cleared m (<[i := 0]> m).
Proof.
  split; [apply length_insert|].
  intros j x Hx. destruct (decide (i = j)) as [->|Hne].
  - destruct (decide (j < length m)%nat) as [Hlt|Hge].
    + rewrite list_lookup_insert_eq in Hx by done. left. congruence.
    + rewrite list_insert_ge in Hx by lia. auto.
  - rewrite list_lookup_insert_ne in Hx by done. auto.
Qed.

Lemma any_false_Forall (m : list Z) : any m = false <-> Forall (fun x => x = 0) m.
Proof.
  unfold any. induction m as [|x m IH]; simpl.
  - split; auto.
  - rewrite orb_false_iff, IH, Forall_cons, negb_false_iff, Z.eqb_eq. tauto.
Qed.

Lemma mask_cleared_any m m' :
  mask_cleared m m' -> any m = false -> any m' = false.
Proof.
  intros [_ P]. rewrite !any_false_Forall, !Forall_lookup.
  intros Hm i x Hx. destruct (P i x Hx) as [->|Hx']; eauto.
Qed.

(** ** Decoding *)

Lemma byte_val_range b : 0 <= byte_val b < 256.
Proof.
  unfold byte_val. pose proof (Byte.to_N_bounded b). lia.
Qed.

Lemma unpack_H_range bs x : unpack_H bs = Ok x -> u16 x.
Proof.
  destruct bs as [|hi [|lo [|? ?]]]; try done. intros [= <-].
  pose proof (byte_val_range hi). pose proof (byte_val_range lo).
  unfold u16. lia.
Qed.

Lemma unpack_HHHH_shape bs l :
  unpack_HHHH bs = Ok l -> length l = 4%nat /\ Forall u16 l.
Proof.
  destruct bs as [|a1 [|a0 [|b1 [|b0 [|c1 [|c0 [|d1 [|d0 [|? ?]]]]]]]]];
    try done.
  intros [= <-]. split; [done|].
  repeat constructor;
    match goal with
    | |- _ <= byte_val ?hi * 256 + byte_val ?lo =>
        pose proof (byte_val_range hi); pose proof (byte_val_range lo); lia
    | |- byte_val ?hi * 256 + byte_val ?lo < _ =>
        pose proof (byte_val_range hi); pose proof (byte_val_range lo); lia
    end.
Qed.

Lemma unpack_HHHH_slice (data : list byte) :
  (12 <= length data)%nat ->
  exists l, unpack_HHHH (slice 4 12 data) = Ok l /\
            Forall2 (fun off x => be16_at data off = Some x) [4; 6; 8; 10]%nat l.
Proof.
  intros Hlen.
  do 12 (destruct data as [|? data]; [simpl in Hlen; lia|]).
  eexists. split; [reflexivity|]. repeat constructor.
Qed.

Lemma unpack_HHHH_short (data : list byte) :
  (length data < 12)%nat -> unpack_HHHH (slice 4 12 data) = Err StructError.
Proof.
  intros Hlen.
  do 12 (destruct data as [|? data]; [reflexivity|]).
  simpl in Hlen. lia.
Qed.

(** ** Copying a chunk into a list *)


Lemma splice_nil {A} k (l : list A) : splice k [] l = l.
Proof. unfold splice. simpl. rewrite Nat.add_0_r. apply take_drop. Qed.

Lemma splice_cons {A} (k : nat) x (chunk l : list A) :
  (k < length l)%nat ->
  splice (S k) chunk (<[k := x]> l) = splice k (x :: chunk) l.
Proof.
  intros Hk. unfold splice.
  rewrite (take_S_r _ k x) by (by apply list_lookup_insert_eq).
  rewrite take_insert_ge by lia. rewrite drop_insert_lt by lia.
  rewrite <- app_assoc. simpl. do 4 f_equal. lia.
Qed.

Lemma length_splice {A} (k : nat) (chunk l : list A) :
  (k + length chunk <= length l)%nat -> length (splice k chunk l) = length l.
Proof.
  intros Hk. unfold splice.
  rewrite !length_app, length_take, length_drop. lia.
Qed.

Lemma splice_idem {A} (k : nat) (chunk l : list A) :
  (k + length chunk <= length l)%nat ->
  splice k chunk (splice k chunk l) = splice k chunk l.
Proof.
  intros Hk. unfold splice at 1 3.
  assert (length (take k l) = k) as Hlen by (rewrite length_take; lia).
  f_equal; [|f_equal].
  - unfold splice. rewrite take_app_length'; done.
  - unfold splice. rewrite app_assoc, drop_app_length'; [done|].
    rewrite length_app. lia.
Qed.

Lemma lookup_splice_chunk {A} (k j : nat) (chunk l : list A) :
  (k <= length l)%nat -> (j < length chunk)%nat ->
  splice k chunk l !! (k + j)%nat = chunk !! j.
Proof.
  intros Hk Hj. unfold splice.
  assert (length (take k l) = k) as Hlen by (rewrite length_take; lia).
  rewrite lookup_app_r by lia. rewrite Hlen.
  replace (k + j - k)%nat with j by lia. by rewrite lookup_app_l.
Qed.

Section SessionFacts.
Context {F : Type} `{PyFloat F}.
Variables STATUS_0 REPORT_CB_0 READ_RTN_0 REPORT_CB8E_0 : byte.
Variable CALIBRATION_ADDR : list byte.
Variable CALIBRATION_LENGTH : nat.
Implicit Type s : BalanceBoard F.

#[local] Abbreviation start_LSB := (start_LSB CALIBRATION_ADDR).
#[local] Abbreviation read_return := (read_return CALIBRATION_ADDR CALIBRATION_LENGTH).
#[local] Abbreviation classify :=
  (classify STATUS_0 REPORT_CB_0 READ_RTN_0 REPORT_CB8E_0).
#[local] Abbreviation step :=
  (step STATUS_0 REPORT_CB_0 READ_RTN_0 REPORT_CB8E_0
        CALIBRATION_ADDR CALIBRATION_LENGTH).
#[local] Abbreviation run :=
  (run STATUS_0 REPORT_CB_0 READ_RTN_0 REPORT_CB8E_0
       CALIBRATION_ADDR CALIBRATION_LENGTH).

Lemma run_cons data frames s :
  run (data :: frames) s
  = match status s with
    | Disconnected => Continue s
    | Connected =>
        match step data s with
        | Continue s' => run frames s'
        | Raised e s' => Raised e s'
        end
    end.
Proof. reflexivity. Qed.

(** *** What [store_chunk] leaves alone *)

Lemma store_chunk_readings data offset n : forall i s,
  let s' := state_of (store_chunk data offset i n s) in
  address s' = address s /\ status s' = status s /\
  sensor_data s' = sensor_data s /\ mass s' = mass s /\
  total_mass s' = total_mass s.
Proof.
  induction n as [|n IH]; intros i s; simpl; [tauto|].
  destruct (data !! _); simpl; [|tauto].
  repeat case_decide; simpl; try tauto.
  match goal with
  | |- context [store_chunk _ _ ?j _ ?s1] =>
      destruct (IH j s1) as (-> & -> & -> & -> & ->)
  end.
  simpl. tauto.
Qed.

Lemma store_chunk_mask data offset n : forall i s,
  mask_cleared (calibration_mask s)
    (calibration_mask (state_of (store_chunk data offset i n s))).
Proof.
  induction n as [|n IH]; intros i s; simpl; [apply mask_cleared_refl|].
  destruct (data !! _); simpl; [|apply mask_cleared_refl].
  repeat case_decide; simpl; try apply mask_cleared_refl.
  eapply mask_cleared_trans; [|apply (IH (S i))]. simpl.
  apply mask_cleared_insert.
Qed.

Lemma store_chunk_lengths data offset n : forall i s,
  length (calibration_data (state_of (store_chunk data offset i n s)))
  = length (calibration_data s).
Proof.
  induction n as [|n IH]; intros i s; simpl; [done|].
  destruct (data !! _); simpl; [|done].
  repeat case_decide; simpl; try done; try apply length_insert.
  rewrite (IH (S i)). simpl. apply length_insert.
Qed.

(** *** A chunk that lies within the block *)

Lemma board_eta s :
  mkBoard (address s) (status s) (calibration_data s) (calibration_mask s)
          (sensor_data s) (mass s) (total_mass s) = s.
Proof. by destruct s. Qed.

Lemma store_chunk_in_range data offset n : forall i s,
  (7 + i + n <= length data)%nat ->
  (offset + i + n <= length (calibration_data s))%nat ->
  (offset + i + n <= length (calibration_mask s))%nat ->
  store_chunk data offset i n s
  = Continue
      (set_calibration_mask
         (splice (offset + i) (replicate n 0) (calibration_mask s))
         (set_calibration_data
            (splice (offset + i) (take n (drop (7 + i) data)) (calibration_data s))
            s)).
Proof.
  induction n as [|n IH]; intros i s Hd Hc Hm.
  - simpl. rewrite take_0, !splice_nil.
    unfold set_calibration_mask, set_calibration_data. simpl.
    by rewrite board_eta.
  - destruct (lookup_lt_is_Some_2 data (7 + i)%nat) as [b Hb]; [lia|].
    cbn [store_chunk]. rewrite Hb. rewrite decide_True by lia. cbn zeta.
    rewrite decide_True by (simpl; lia).
    rewrite (IH (S i)); cbn [calibration_data calibration_mask set_calibration_data set_calibration_mask]; rewrite ?length_insert; try lia.
    unfold set_calibration_mask, set_calibration_data. cbn [calibration_data calibration_mask address status sensor_data mass total_mass].
    do 2 f_equal.
    + rewrite (drop_S _ _ _ Hb). cbn [take].
      replace (offset + S i)%nat with (S (offset + i)) by lia.
      replace (7 + S i)%nat with (S (7 + i)) by lia.
      apply splice_cons. lia.
    + replace (offset + S i)%nat with (S (offset + i)) by lia.
      apply (splice_cons _ 0 (replicate n 0)). lia.
Qed.

(** *** What [calculate_mass] leaves alone *)

Lemma calculate_mass_calibration s :
  let s' := state_of (calculate_mass s) in
  address s' = address s /\ status s' = status s /\
  calibration_data s' = calibration_data s /\
  calibration_mask s' = calibration_mask s /\
  sensor_data s' = sensor_data s.
Proof. unfold calculate_mass. destruct (mass_loop _ _ _ _); simpl; tauto. Qed.

Lemma mass_loop_length cal points : forall i (m : list (num F)),
  length (state_of (mass_loop cal i points m)) = length m.
Proof.
  induction points as [|p points IH]; intros i m; simpl; [done|].
  destruct (axis_calibration cal i) as [[[zero half] full]|]; simpl; [|done].
  destruct (axis_mass zero half full p); simpl; [|done].
  case_decide; simpl; [|done]. rewrite IH. apply length_insert.
Qed.

(** *** One step of the receive loop *)

Lemma read_return_mask data s :
  mask_cleared (calibration_mask s)
    (calibration_mask (state_of (read_return data s))).
Proof.
  unfold read_return.
  destruct (_ ≫= _) as [[[n addr] start]|]; simpl;
    [|apply mask_cleared_refl].
  destruct (_ && _); simpl; [apply store_chunk_mask|apply mask_cleared_refl].
Qed.

Lemma report_mask data s :
  calibration_mask (state_of (report data s)) = calibration_mask s.
Proof.
  unfold report. destruct (unpack_HHHH _); simpl; [|done].
  destruct (any _); simpl; [done|].
  apply (calculate_mass_calibration (set_sensor_data a s)).
Qed.

Lemma step_mask data s :
  mask_cleared (calibration_mask s) (calibration_mask (state_of (step data s))).
Proof.
  unfold step. destruct (data !! 1%nat); simpl; [|apply mask_cleared_refl].
  destruct (classify _); simpl;
    try (destruct (data !! _); simpl); try apply mask_cleared_refl.
  - apply read_return_mask.
  - rewrite report_mask. apply mask_cleared_refl.
Qed.

Lemma run_mask frames : forall s,
  mask_cleared (calibration_mask s) (calibration_mask (state_of (run frames s))).
Proof.
  induction frames as [|data frames IH]; intros s; simpl;
    destruct (status s); simpl; try apply mask_cleared_refl.
  pose proof (step_mask data s) as Hs.
  destruct (step data s) as [s'|e s']; simpl in *; [|done].
  eapply mask_cleared_trans; [exact Hs|apply IH].
Qed.

(** *** Chunks *)

Lemma chunk_length_pos data n : chunk_length data = Ok n -> (1 <= n)%nat.
Proof.
  unfold chunk_length. destruct (data !! 4%nat); [|done].
  intros [= <-]. lia.
Qed.

Lemma read_return_in_range data n addr start s :
  chunk_length data = Ok n -> chunk_addr data = Ok addr ->
  start_LSB = Ok start ->
  start <= addr ->
  addr + Z.of_nat n <= start + Z.of_nat CALIBRATION_LENGTH ->
  (7 + n <= length data)%nat ->
  length (calibration_data s) = CALIBRATION_LENGTH ->
  length (calibration_mask s) = CALIBRATION_LENGTH ->
  read_return data s
  = Continue
      (set_calibration_mask
         (splice (Z.to_nat (addr - start)) (replicate n 0) (calibration_mask s))
         (set_calibration_data
            (splice (Z.to_nat (addr - start)) (take n (drop 7 data))
                    (calibration_data s))
            s)).
Proof.
  intros Hn Ha Hs Hlo Hhi Hd Hc Hm.
  pose proof (chunk_length_pos _ _ Hn) as Hpos.
  unfold read_return. rewrite Hn, Ha, Hs. cbn.
  replace (start <=? addr) with true by (symmetry; apply Z.leb_le; lia).
  replace (addr <? start + Z.of_nat CALIBRATION_LENGTH) with true
    by (symmetry; apply Z.ltb_lt; lia).
  cbn. rewrite store_chunk_in_range by lia.
  by rewrite !Nat.add_0_r.
Qed.

(** C9. Applying an in-range calibration chunk twice is the same as
    applying it once: for a read-return frame whose address range
    [addr, addr + n) lies within the calibration block and that carries
    its [n] data bytes, the step completes in a state [s1] whose
    calibration data and mask are those of [s] with the chunk copied in
    and the matching mask entries cleared, and a second step on the same
    frame completes in [s1] again. *)
Theorem chunk_application_idempotent data t n addr start s :
  data !! 1%nat = Some t -> classify t = ReadReturnPacket ->
  chunk_length data = Ok n -> chunk_addr data = Ok addr ->
  start_LSB = Ok start ->
  start <= addr ->
  addr + Z.of_nat n <= start + Z.of_nat CALIBRATION_LENGTH ->
  (7 + n <= length data)%nat ->
  length (calibration_data s) = CALIBRATION_LENGTH ->
  length (calibration_mask s) = CALIBRATION_LENGTH ->
  exists s1,
    step data s = Continue s1 /\ step data s1 = Continue s1 /\
    calibration_data s1
    = splice (Z.to_nat (addr - start)) (take n (drop 7 data)) (calibration_data s) /\
    calibration_mask s1
    = splice (Z.to_nat (addr - start)) (replicate n 0) (calibration_mask s).
Proof.
  intros Ht Hk Hn Ha Hs Hlo Hhi Hd Hc Hm.
  assert (length (take n (drop 7 data)) = n) as Hchunk
    by (rewrite length_take, length_drop; lia).
  eexists. unfold step. rewrite Ht, Hk.
  split; [by apply read_return_in_range|]. split; [|done].
  rewrite (read_return_in_range _ n addr start); try done;
    cbn [calibration_data calibration_mask set_calibration_mask
         set_calibration_data];
    try (rewrite length_splice; rewrite ?length_replicate, ?Hchunk; lia).
  unfold set_calibration_mask, set_calibration_data.
  cbn [calibration_data calibration_mask address status sensor_data mass
       total_mass].
  rewrite !splice_idem by (rewrite ?length_replicate, ?Hchunk; lia).
  done.
Qed.

(** *** Reports *)

Lemma report_readings data s :
  let s' := state_of (report data s) in
  address s' = address s /\ status s' = status s /\
  calibration_data s' = calibration_data s.
Proof.
  unfold report. destruct (unpack_HHHH _) as [sensors|]; simpl; [|tauto].
  destruct (any _); simpl; [tauto|].
  destruct (calculate_mass_calibration (set_sensor_data sensors s))
    as (-> & -> & -> & _). tauto.
Qed.

(** C5. A report that arrives while some mask entry is still set leaves
    [mass] and [total_mass] as they were, whatever the outcome of the
    step; once every entry is clear, a report that decodes runs
    [calculate_mass] on the new readings. *)
Theorem report_before_calibration_keeps_mass data t s :
  data !! 1%nat = Some t -> classify t = ReportPacket ->
  (any (calibration_mask s) = true ->
   mass (state_of (step data s)) = mass s /\
   total_mass (state_of (step data s)) = total_mass s) /\
  (any (calibration_mask s) = false ->
   forall sensors, unpack_HHHH (slice 4 12 data) = Ok sensors ->
   step data s = calculate_mass (set_sensor_data sensors s)).
Proof.
  intros Ht Hk. unfold step. rewrite Ht, Hk. unfold report. split.
  - intros Hany. destruct (unpack_HHHH _); simpl; [|done]. by rewrite Hany.
  - intros Hany sensors ->. simpl. by rewrite Hany.
Qed.

(** *** The readings *)


Lemma read_return_readings data s :
  sensor_data (state_of (read_return data s)) = sensor_data s.
Proof.
  unfold read_return.
  destruct (_ ≫= _) as [[[n addr] start]|]; simpl; [|done].
  destruct (_ && _); simpl; [|done].
  apply store_chunk_readings.
Qed.

Lemma report_sensor_data data s :
  sensor_data (state_of (report data s))
  = match unpack_HHHH (slice 4 12 data) with
    | Ok sensors => sensors
    | Err _ => sensor_data s
    end.
Proof.
  unfold report. destruct (unpack_HHHH _) as [sensors|]; simpl; [|done].
  destruct (any _); simpl; [done|].
  apply (calculate_mass_calibration (set_sensor_data sensors s)).
Qed.

Lemma step_sensor_data_other data t s :
  data !! 1%nat = Some t -> classify t <> ReportPacket ->
  sensor_data (state_of (step data s)) = sensor_data s.
Proof.
  intros Ht Hk. unfold step. rewrite Ht.
  destruct (classify t); try done; try (by case_match).
  apply read_return_readings.
Qed.

Lemma step_readings_shape data s :
  readings_shape (sensor_data s) ->
  readings_shape (sensor_data (state_of (step data s))).
Proof.
  intros Hs. destruct (data !! 1%nat) as [t|] eqn:Ht.
  - destruct (decide (classify t = ReportPacket)) as [Hk|Hk].
    + unfold step. rewrite Ht, Hk, report_sensor_data.
      destruct (unpack_HHHH _) as [sensors|] eqn:Hu; [|done].
      right. by apply unpack_HHHH_shape in Hu.
    + by rewrite (step_sensor_data_other _ t).
  - unfold step. by rewrite Ht.
Qed.

Lemma run_readings_shape frames : forall s,
  readings_shape (sensor_data s) ->
  readings_shape (sensor_data (state_of (run frames s))).
Proof.
  induction frames as [|data frames IH]; intros s Hs; simpl;
    destruct (status s); simpl; try done.
  pose proof (step_readings_shape data s Hs) as Hs'.
  destruct (step data s) as [s'|e s']; simpl in *; [by apply IH|done].
Qed.

(** C8, as the code has it. [sensor_data] holds eight zeros when the
    session is created; through any sequence of frames it is either
    those eight zeros or a sequence of exactly four unsigned 16-bit
    readings; a report frame of at least 12 bytes overwrites it with the
    four big-endian 16-bit values at frame bytes 4, 6, 8 and 10; a frame
    of any other kind leaves it as it was. *)
Theorem sensors_shape_and_overwrite :
  (forall addr,
     sensor_data (connect (F:=F) CALIBRATION_LENGTH addr) = replicate 8 0) /\
  (forall frames addr,
     readings_shape
       (sensor_data (state_of (run frames (connect CALIBRATION_LENGTH addr))))) /\
  (forall data t s,
     data !! 1%nat = Some t -> classify t = ReportPacket ->
     (12 <= length data)%nat ->
     Forall2 (fun off x => be16_at data off = Some x) [4; 6; 8; 10]%nat
             (sensor_data (state_of (step data s)))) /\
  (forall data t s,
     data !! 1%nat = Some t -> classify t <> ReportPacket ->
     sensor_data (state_of (step data s)) = sensor_data s).
Proof.
  split; [done|]. split; [|split].
  - intros frames addr. apply run_readings_shape. by left.
  - intros data t s Ht Hk Hlen. unfold step. rewrite Ht, Hk, report_sensor_data.
    destruct (unpack_HHHH_slice data Hlen) as (l & -> & Hl). done.
  - apply step_sensor_data_other.
Qed.

(** *** Disconnecting *)

(** C3, on the code. [disconnect] assigns no field: the status of a
    connected session is still [Connected] afterwards, and its receive
    loop goes on with the next frame. *)
Theorem disconnect_keeps_status s :
  disconnect s = s /\
  status (disconnect (set_status Connected s)) = Connected /\
  forall data frames,
    run (data :: frames) (disconnect (set_status Connected s))
    = match step data (set_status Connected s) with
      | Continue s' => run frames s'
      | Raised e s' => Raised e s'
      end.
Proof. done. Qed.

(** C10. Calibration only progresses: a new session has every mask
    entry set to 1; one step of the receive loop, whether it completes
    or raises, keeps the mask's length and leaves each entry as it was
    or sets it to 0; hence a session whose mask is all clear keeps an
    all-clear mask through any sequence of frames. *)
Theorem calibration_progress_monotone :
  (forall addr,
     calibration_mask (new_board (F:=F) CALIBRATION_LENGTH addr)
     = replicate CALIBRATION_LENGTH 1 /\
     calibration_mask (connect (F:=F) CALIBRATION_LENGTH addr)
     = replicate CALIBRATION_LENGTH 1) /\
  (forall data s,
     mask_cleared (calibration_mask s)
                  (calibration_mask (state_of (step data s)))) /\
  (forall frames s,
     any (calibration_mask s) = false ->
     any (calibration_mask (state_of (run frames s))) = false).
Proof.
  split; [done|]. split; [apply step_mask|].
  intros frames s. apply mask_cleared_any, run_mask.
Qed.

End SessionFacts.

Lemma calibration_progress_monotone_witness :
  any (calibration_mask (Example.calibrated (F:=Q))) = false /\
  any (calibration_mask
         (state_of (Example.run [Example.report_frame;
                                 Example.chunk_lo Example.calibration]
                                (Example.calibrated (F:=Q))))) = false.
Proof.
  split; [reflexivity|].
  apply (calibration_progress_monotone
           Example.STATUS_0 Example.REPORT_CB_0 Example.READ_RTN_0
           Example.REPORT_CB8E_0 Example.CALIBRATION_ADDR
           Example.CALIBRATION_LENGTH).
  reflexivity.
Defined.

(** ** When the mass formulas raise *)

Section AxisFacts.
Context {F : Type} `{PyFloat F}.

Lemma int_truediv_ok (a b : Z) :
  b <> 0 ->
  int_truediv (F:=F) a b
  = Ok (Float (float_div (float_of_int a) (float_of_int b))).
Proof.
  intros Hb. unfold int_truediv.
  by destruct (Z.eqb_spec b 0).
Qed.

Lemma int_truediv_zero (a : Z) : int_truediv (F:=F) a 0 = Err ZeroDivisionError.
Proof. done. Qed.

Lemma divides_by_zero_spec zero half full point :
  divides_by_zero zero half full point = true <->
  full = half /\ zero <= point /\ half <= point.
Proof.
  unfold divides_by_zero.
  rewrite !andb_true_iff, !negb_true_iff, andb_false_iff, Z.eqb_eq,
    Z.leb_gt, !Z.ltb_ge. lia.
Qed.

Lemma axis_mass_raises zero half full point :
  divides_by_zero zero half full point = true ->
  axis_mass (F:=F) zero half full point = Err ZeroDivisionError.
Proof.
  intros (-> & Hz & Hh)%divides_by_zero_spec. unfold axis_mass.
  destruct (Z.ltb_spec point zero); [lia|].
  destruct (Z.ltb_spec point half); [lia|].
  rewrite andb_false_r. unfold mass_high. by rewrite Z.sub_diag.
Qed.

Lemma axis_mass_returns zero half full point :
  divides_by_zero zero half full point = false ->
  exists m, axis_mass (F:=F) zero half full point = Ok m.
Proof.
  unfold divides_by_zero, axis_mass.
  destruct (Z.ltb_spec point zero); [by eexists|].
  destruct (Z.leb_spec zero point); [|lia].
  destruct (Z.ltb_spec point half); simpl.
  - intros _. unfold mass_low. rewrite int_truediv_ok by lia. by eexists.
  - intros Hne%Z.eqb_neq. unfold mass_high.
    rewrite int_truediv_ok by lia. by eexists.
Qed.

Lemma axis_mass_Err zero half full point e :
  axis_mass (F:=F) zero half full point = Err e <->
  e = ZeroDivisionError /\ divides_by_zero zero half full point = true.
Proof.
  destruct (divides_by_zero zero half full point) eqn:Hd.
  - rewrite (axis_mass_raises _ _ _ _ Hd). split; [|intros [-> _]; done].
    intros [= <-]. done.
  - destruct (axis_mass_returns _ _ _ _ Hd) as [m ->].
    split; [done|]. intros [_ ?]. done.
Qed.

(** A block of at least 24 bytes has the three words of each axis. *)
Lemma axis_calibration_ok (cal : list byte) (i : nat) :
  (24 <= length cal)%nat -> (i < 4)%nat ->
  axis_calibration cal i
  = Ok (word_at cal (2 * i), word_at cal (2 * i + 8), word_at cal (2 * i + 16)).
Proof.
  intros Hlen Hi.
  do 24 (destruct cal as [|? cal]; [simpl in Hlen; lia|]).
  destruct i as [|[|[|[|i]]]]; try lia; reflexivity.
Qed.

(** The loop on four readings, one axis after the other. *)
Lemma mass_loop_four (cal : list byte) (p0 p1 p2 p3 : Z)
    (a0 a1 a2 a3 m0 m1 m2 m3 : num F) z0 h0 f0 z1 h1 f1 z2 h2 f2 z3 h3 f3 :
  axis_calibration cal 0 = Ok (z0, h0, f0) ->
  axis_calibration cal 1 = Ok (z1, h1, f1) ->
  axis_calibration cal 2 = Ok (z2, h2, f2) ->
  axis_calibration cal 3 = Ok (z3, h3, f3) ->
  axis_mass z0 h0 f0 p0 = Ok m0 -> axis_mass z1 h1 f1 p1 = Ok m1 ->
  axis_mass z2 h2 f2 p2 = Ok m2 -> axis_mass z3 h3 f3 p3 = Ok m3 ->
  mass_loop cal 0 [p0; p1; p2; p3] [a0; a1; a2; a3]
  = Continue [m0; m1; m2; m3].
Proof.
  intros C0 C1 C2 C3 M0 M1 M2 M3.
  cbn [mass_loop]. rewrite C0, M0. cbn.
  rewrite C1, M1. cbn. rewrite C2, M2. cbn. rewrite C3, M3. reflexivity.
Qed.

(** If some axis divides by zero, the loop raises there. *)
Lemma mass_loop_four_raises (cal : list byte) (p0 p1 p2 p3 : Z)
    (a0 a1 a2 a3 : num F) z0 h0 f0 z1 h1 f1 z2 h2 f2 z3 h3 f3 :
  axis_calibration cal 0 = Ok (z0, h0, f0) ->
  axis_calibration cal 1 = Ok (z1, h1, f1) ->
  axis_calibration cal 2 = Ok (z2, h2, f2) ->
  axis_calibration cal 3 = Ok (z3, h3, f3) ->
  divides_by_zero z0 h0 f0 p0 || divides_by_zero z1 h1 f1 p1
  || divides_by_zero z2 h2 f2 p2 || divides_by_zero z3 h3 f3 p3 = true ->
  exists m,
    mass_loop cal 0 [p0; p1; p2; p3] [a0; a1; a2; a3]
    = Raised ZeroDivisionError m.
Proof.
  intros C0 C1 C2 C3 Hd.
  cbn [mass_loop]. rewrite C0.
  destruct (divides_by_zero z0 h0 f0 p0) eqn:D0;
    [rewrite (axis_mass_raises _ _ _ _ D0); by eexists|].
  destruct (axis_mass_returns _ _ _ _ D0) as [m0 ->]. cbn. rewrite C1.
  destruct (divides_by_zero z1 h1 f1 p1) eqn:D1;
    [rewrite (axis_mass_raises _ _ _ _ D1); by eexists|].
  destruct (axis_mass_returns _ _ _ _ D1) as [m1 ->]. cbn. rewrite C2.
  destruct (divides_by_zero z2 h2 f2 p2) eqn:D2;
    [rewrite (axis_mass_raises _ _ _ _ D2); by eexists|].
  destruct (axis_mass_returns _ _ _ _ D2) as [m2 ->]. cbn. rewrite C3.
  simpl in Hd. rewrite (axis_mass_raises _ _ _ _ Hd). by eexists.
Qed.

End AxisFacts.

(** ** The formulas in exact arithmetic *)

Section Exact.
#[local] Open Scope Q_scope.

Lemma inject_Z_nonzero (d : Z) : d <> 0%Z -> ~ inject_Z d == 0.
Proof. unfold Qeq. simpl. lia. Qed.

Lemma to_float_add (a b : num Q) :
  to_float (num_add a b) == to_float a + to_float b.
Proof.
  destruct a, b; simpl; try reflexivity.
  rewrite inject_Z_plus. reflexivity.
Qed.

Lemma to_float_mul (a b : num Q) :
  to_float (num_mul a b) == to_float a * to_float b.
Proof. destruct a, b; simpl; reflexivity. Qed.

Lemma mass_low_exact (zero half point : Z) :
  (half - zero <> 0)%Z ->
  exists m, mass_low zero half point = Ok m /\
            to_float m == inject_Z (point - zero) * 17 / inject_Z (half - zero).
Proof.
  intros Hd. unfold mass_low. rewrite int_truediv_ok by done.
  eexists. split; [reflexivity|]. simpl.
  field. by apply inject_Z_nonzero.
Qed.

Lemma mass_high_exact (half full point : Z) :
  (full - half <> 0)%Z ->
  exists m, mass_high half full point = Ok m /\
            to_float m
            == inject_Z (point - half) * 17 / inject_Z (full - half) + 17.
Proof.
  intros Hd. unfold mass_high. rewrite int_truediv_ok by done.
  eexists. split; [reflexivity|]. simpl.
  field. by apply inject_Z_nonzero.
Qed.

Lemma axis_mass_exact (zero half full point : Z) :
  divides_by_zero zero half full point = false ->
  exists m, axis_mass zero half full point = Ok m /\
            to_float m == spec_axis_mass zero half full point.
Proof.
  unfold divides_by_zero, axis_mass, spec_axis_mass.
  destruct (Z.ltb_spec point zero); [intros _; by eexists|].
  destruct (Z.leb_spec zero point); [|lia].
  destruct (Z.ltb_spec point half); simpl.
  - intros _. apply mass_low_exact. lia.
  - intros Hne%Z.eqb_neq. apply mass_high_exact. lia.
Qed.

Lemma to_float_py_sum_from (l : list (num Q)) : forall acc,
  to_float (fold_left num_add l acc) == to_float acc + Qsum (to_float <$> l).
Proof.
  induction l as [|m l IH]; intros acc.
  - unfold Qsum. simpl. ring.
  - change (fold_left num_add (m :: l) acc)
      with (fold_left num_add l (num_add acc m)).
    rewrite IH, to_float_add, fmap_cons. unfold Qsum. cbn [fold_right]. ring.
Qed.

Lemma to_float_py_sum (l : list (num Q)) :
  to_float (py_sum l) == Qsum (to_float <$> l).
Proof. unfold py_sum. rewrite to_float_py_sum_from. simpl. ring. Qed.

End Exact.

(** ** The mass calculator *)

Lemma calculate_mass_four {F} `{PyFloat F} (s : BalanceBoard F)
    (p0 p1 p2 p3 : Z) (m0 m1 m2 m3 : num F) z0 h0 f0 z1 h1 f1 z2 h2 f2 z3 h3 f3 :
  sensor_data s = [p0; p1; p2; p3] -> length (mass s) = 4%nat ->
  axis_calibration (calibration_data s) 0 = Ok (z0, h0, f0) ->
  axis_calibration (calibration_data s) 1 = Ok (z1, h1, f1) ->
  axis_calibration (calibration_data s) 2 = Ok (z2, h2, f2) ->
  axis_calibration (calibration_data s) 3 = Ok (z3, h3, f3) ->
  axis_mass z0 h0 f0 p0 = Ok m0 -> axis_mass z1 h1 f1 p1 = Ok m1 ->
  axis_mass z2 h2 f2 p2 = Ok m2 -> axis_mass z3 h3 f3 p3 = Ok m3 ->
  calculate_mass s
  = Continue (set_total_mass (py_sum [m0; m1; m2; m3])
                             (set_mass [m0; m1; m2; m3] s)).
Proof.
  intros Hp Hm C0 C1 C2 C3 M0 M1 M2 M3. unfold calculate_mass. rewrite Hp.
  destruct (mass s) as [|a0 [|a1 [|a2 [|a3 [|? ?]]]]]; try done.
  by rewrite (mass_loop_four _ _ _ _ _ _ _ _ _ m0 m1 m2 m3
                _ _ _ _ _ _ _ _ _ _ _ _ C0 C1 C2 C3 M0 M1 M2 M3).
Qed.

(** ** Degenerate calibration *)

Section Degenerate.
Context {F : Type} `{PyFloat F}.
Variables STATUS_0 REPORT_CB_0 READ_RTN_0 REPORT_CB8E_0 : byte.
Variable CALIBRATION_ADDR : list byte.
Variable CALIBRATION_LENGTH : nat.
Implicit Type s : BalanceBoard F.

#[local] Abbreviation classify :=
  (classify STATUS_0 REPORT_CB_0 READ_RTN_0 REPORT_CB8E_0).
#[local] Abbreviation step :=
  (step STATUS_0 REPORT_CB_0 READ_RTN_0 REPORT_CB8E_0
        CALIBRATION_ADDR CALIBRATION_LENGTH).
#[local] Abbreviation run :=
  (run STATUS_0 REPORT_CB_0 READ_RTN_0 REPORT_CB8E_0
       CALIBRATION_ADDR CALIBRATION_LENGTH).

Lemma calculate_mass_raises s (p0 p1 p2 p3 : Z) :
  sensor_data s = [p0; p1; p2; p3] -> length (mass s) = 4%nat ->
  (24 <= length (calibration_data s))%nat ->
  axis_degenerate (calibration_data s) 0 p0
  || axis_degenerate (calibration_data s) 1 p1
  || axis_degenerate (calibration_data s) 2 p2
  || axis_degenerate (calibration_data s) 3 p3 = true ->
  exists m, calculate_mass s = Raised ZeroDivisionError (set_mass m s).
Proof.
  intros Hp Hm Hlen Hd. unfold calculate_mass. rewrite Hp.
  destruct (mass s) as [|a0 [|a1 [|a2 [|a3 [|? ?]]]]]; try done.
  destruct (mass_loop_four_raises (calibration_data s) p0 p1 p2 p3 a0 a1 a2 a3
              _ _ _ _ _ _ _ _ _ _ _ _
              (axis_calibration_ok _ 0 Hlen ltac:(lia))
              (axis_calibration_ok _ 1 Hlen ltac:(lia))
              (axis_calibration_ok _ 2 Hlen ltac:(lia))
              (axis_calibration_ok _ 3 Hlen ltac:(lia)) Hd) as [m ->].
  by exists m.
Qed.

(** C2, as the code has it. A mass formula raises [ZeroDivisionError]
    exactly when full = half and the reading is at or above both zero
    and half, and it raises nothing else. With half = zero and
    full <> half nothing is raised: the mass is the integer 0 below
    zero and the upper formula from zero on. When a report arrives at a
    calibrated session and some axis divides by zero, the exception
    leaves [calculate_mass] and the receive loop: [total_mass] keeps its
    value and no later frame is processed. *)
Theorem zero_span_behaviour :
  (forall zero half full point e,
     axis_mass (F:=F) zero half full point = Err e <->
     e = ZeroDivisionError /\ full = half /\ zero <= point /\ half <= point) /\
  (forall zero full point,
     full <> zero ->
     axis_mass (F:=F) zero zero full point
     = if point <? zero then Ok (Int 0)
       else Ok (num_add
                  (num_mul (Int (point - zero))
                     (Float (float_div (float_of_int 17)
                                       (float_of_int (full - zero)))))
                  (Int 17))) /\
  (forall data t s p0 p1 p2 p3,
     data !! 1%nat = Some t -> classify t = ReportPacket ->
     unpack_HHHH (slice 4 12 data) = Ok [p0; p1; p2; p3] ->
     any (calibration_mask s) = false ->
     (24 <= length (calibration_data s))%nat -> length (mass s) = 4%nat ->
     axis_degenerate (calibration_data s) 0 p0
     || axis_degenerate (calibration_data s) 1 p1
     || axis_degenerate (calibration_data s) 2 p2
     || axis_degenerate (calibration_data s) 3 p3 = true ->
     exists s',
       step data s = Raised ZeroDivisionError s' /\
       total_mass s' = total_mass s /\
       forall frames,
         status s = Connected ->
         run (data :: frames) s = Raised ZeroDivisionError s').
Proof.
  split; [|split].
  - intros zero half full point e.
    rewrite axis_mass_Err, divides_by_zero_spec. tauto.
  - intros zero full point Hne. unfold axis_mass.
    destruct (Z.ltb_spec point zero); [done|].
    replace (point <? zero) with false by (symmetry; apply Z.ltb_ge; lia).
    rewrite andb_false_r. unfold mass_high.
    rewrite int_truediv_ok by lia. done.
  - intros data t s p0 p1 p2 p3 Ht Hk Hu Hany Hlen Hm Hd.
    destruct (calculate_mass_raises (set_sensor_data [p0; p1; p2; p3] s)
                p0 p1 p2 p3) as [m Hc]; try done.
    assert (step data s
            = Raised ZeroDivisionError
                (set_mass m (set_sensor_data [p0; p1; p2; p3] s))) as Hstep.
    { unfold step. rewrite Ht, Hk. unfold report. rewrite Hu. simpl.
      rewrite Hany. exact Hc. }
    eexists. split; [exact Hstep|]. split; [done|].
    intros frames Hs. by rewrite run_cons, Hs, Hstep.
Qed.

End Degenerate.

(** C2 fails on the code: a calibrated session whose axis 1 has
    full = half = 200 receives a report with the reading 250 on that
    axis; the step raises [ZeroDivisionError] after the mass of axis 0
    was stored, the loop ends there and the second report is never
    processed; [total_mass] is still the initial 0. With
    zero = half = 100 on axis 0 the reading 150 is reported as 21.25,
    neither zero nor a sentinel. *)
Lemma zero_span_crashes_loop :
  word_at (calibration_data (Example.flat (F:=spec_float))) 18
  = word_at (calibration_data (Example.flat (F:=spec_float))) 10 /\
  any (calibration_mask (Example.flat (F:=spec_float))) = false /\
  (exists s' m0,
     Example.run [Example.report_frame; Example.report_frame]
                 (Example.flat (F:=spec_float))
     = Raised ZeroDivisionError s' /\
     sensor_data s' = [150; 250; 50; 150] /\
     mass s' = [m0; Int 0; Int 0; Int 0] /\ denotes m0 (17 # 2) /\
     total_mass s' = Int 0) /\
  word_at (calibration_data (Example.low_flat (F:=spec_float))) 8
  = word_at (calibration_data (Example.low_flat (F:=spec_float))) 0 /\
  (exists s' m,
     Example.step Example.report_frame (Example.low_flat (F:=spec_float))
     = Continue s' /\
     mass s' !! 0%nat = Some m /\ denotes m (85 # 4)).
Proof.
  split; [vm_compute; reflexivity|].
  split; [vm_compute; reflexivity|].
  split; [do 2 eexists; vm_compute; done|].
  split; [vm_compute; reflexivity|].
  do 2 eexists; vm_compute; done.
Qed.

Lemma zero_span_behaviour_witness :
  exists s',
    Example.step Example.report_frame (Example.flat (F:=spec_float))
    = Raised ZeroDivisionError s' /\
    total_mass s' = total_mass (Example.flat (F:=spec_float)) /\
    forall frames,
      status (Example.flat (F:=spec_float)) = Connected ->
      Example.run (Example.report_frame :: frames) (Example.flat (F:=spec_float))
      = Raised ZeroDivisionError s'.
Proof.
  apply (proj2 (proj2 (zero_span_behaviour
                         Example.STATUS_0 Example.REPORT_CB_0 Example.READ_RTN_0
                         Example.REPORT_CB8E_0 Example.CALIBRATION_ADDR
                         Example.CALIBRATION_LENGTH))
           Example.report_frame Byte.x32 Example.flat 150 250 50 150);
    reflexivity.
Defined.

(** ** The receive loop on concrete frames *)

Lemma report_before_calibration_keeps_mass_witness :
  (mass (state_of (Example.step Example.report_frame
                                (Example.half_calibrated (F:=spec_float))))
   = mass (Example.half_calibrated (F:=spec_float)) /\
   total_mass (state_of (Example.step Example.report_frame
                                      (Example.half_calibrated (F:=spec_float))))
   = total_mass (Example.half_calibrated (F:=spec_float))) /\
  Example.step Example.report_frame (Example.calibrated (F:=spec_float))
  = calculate_mass (set_sensor_data [150; 250; 50; 150] Example.calibrated).
Proof.
  split.
  - apply (report_before_calibration_keeps_mass
             Example.STATUS_0 Example.REPORT_CB_0 Example.READ_RTN_0
             Example.REPORT_CB8E_0 Example.CALIBRATION_ADDR
             Example.CALIBRATION_LENGTH
             Example.report_frame Byte.x32 Example.half_calibrated);
      reflexivity.
  - apply (report_before_calibration_keeps_mass
             Example.STATUS_0 Example.REPORT_CB_0 Example.READ_RTN_0
             Example.REPORT_CB8E_0 Example.CALIBRATION_ADDR
             Example.CALIBRATION_LENGTH
             Example.report_frame Byte.x32 Example.calibrated);
      reflexivity.
Defined.

Lemma chunk_application_idempotent_witness :
  exists s1 : BalanceBoard spec_float,
    Example.step (Example.chunk_hi Example.calibration) Example.fresh
    = Continue s1 /\
    Example.step (Example.chunk_hi Example.calibration) s1 = Continue s1 /\
    calibration_data s1
    = splice (Z.to_nat (52 - 36))
             (take 8 (drop 7 (Example.chunk_hi Example.calibration)))
             (calibration_data (Example.fresh (F:=spec_float))) /\
    calibration_mask s1
    = splice (Z.to_nat (52 - 36)) (replicate 8 0)
             (calibration_mask (Example.fresh (F:=spec_float))).
Proof.
  apply (chunk_application_idempotent
           Example.STATUS_0 Example.REPORT_CB_0 Example.READ_RTN_0
           Example.REPORT_CB8E_0 Example.CALIBRATION_ADDR
           Example.CALIBRATION_LENGTH
           (Example.chunk_hi Example.calibration) Byte.x21 8 52 36
           Example.fresh);
    first [reflexivity | vm_compute; lia | (vm_compute; discriminate)].
Defined.

(** C4 fails on the code: the guard looks at the start address only. A
    chunk at offset 16 of the 24-byte block with 16 data bytes passes
    it; the loop stores bytes 16..23, clears their mask entries and then
    raises [IndexError], which ends the receive loop. *)
Theorem chunk_overrun_raises :
  chunk_length Example.chunk_overrun = Ok 16%nat /\
  chunk_addr Example.chunk_overrun = Ok 52 /\
  start_LSB Example.CALIBRATION_ADDR = Ok 36 /\
  exists s' : BalanceBoard spec_float,
    Example.step Example.chunk_overrun Example.fresh = Raised IndexError s' /\
    calibration_data s'
    = replicate 16 Byte.x00 ++ take 8 (drop 7 Example.chunk_overrun) /\
    calibration_mask s' = replicate 16 1 ++ replicate 8 0 /\
    calibration_data s' <> calibration_data (Example.fresh (F:=spec_float)) /\
    forall frames,
      Example.run (Example.chunk_overrun :: frames) Example.fresh
      = Raised IndexError s'.
Proof.
  split; [reflexivity|]. split; [reflexivity|]. split; [reflexivity|].
  eexists. split; [vm_compute; reflexivity|].
  split; [reflexivity|]. split; [reflexivity|]. split; [discriminate|].
  intros frames. vm_compute. reflexivity.
Qed.

(** C8 fails on the code: a new session holds eight readings, not four. *)
Lemma sensors_not_four_at_creation :
  sensor_data (Example.fresh (F:=spec_float)) = [0; 0; 0; 0; 0; 0; 0; 0] /\
  length (sensor_data (Example.fresh (F:=spec_float))) <> 4%nat.
Proof. split; [reflexivity|discriminate]. Qed.

Lemma sensors_shape_and_overwrite_witness :
  Forall2 (fun off x => be16_at Example.report_frame off = Some x)
          [4; 6; 8; 10]%nat
          (sensor_data (state_of (Example.step Example.report_frame
                                               (Example.fresh (F:=spec_float)))))
  /\ sensor_data (state_of (Example.step Example.button_frame
                                         (Example.fresh (F:=spec_float))))
     = sensor_data (Example.fresh (F:=spec_float)).
Proof.
  split.
  - apply (proj1 (proj2 (proj2 (sensors_shape_and_overwrite
                                  Example.STATUS_0 Example.REPORT_CB_0
                                  Example.READ_RTN_0 Example.REPORT_CB8E_0
                                  Example.CALIBRATION_ADDR
                                  Example.CALIBRATION_LENGTH)))
             Example.report_frame Byte.x32 Example.fresh);
      first [reflexivity | vm_compute; lia].
  - apply (proj2 (proj2 (proj2 (sensors_shape_and_overwrite
                                  Example.STATUS_0 Example.REPORT_CB_0
                                  Example.READ_RTN_0 Example.REPORT_CB8E_0
                                  Example.CALIBRATION_ADDR
                                  Example.CALIBRATION_LENGTH)))
             Example.button_frame Byte.x30 Example.fresh);
      first [reflexivity | vm_compute; discriminate].
Defined.

(** ** The shape of the per-axis mass *)

Section Shape.
#[local] Open Scope Q_scope.

Lemma scaled_mono (a b d : Z) :
  (0 < d)%Z -> (a <= b)%Z ->
  inject_Z a * 17 / inject_Z d <= inject_Z b * 17 / inject_Z d.
Proof.
  intros Hd Hab. destruct d as [|d|d]; try lia.
  unfold Qle, Qdiv, Qmult, Qinv, inject_Z. simpl. nia.
Qed.

Lemma scaled_below (a d : Z) :
  (0 < d)%Z -> (a <= d)%Z -> inject_Z a * 17 / inject_Z d <= 17.
Proof.
  intros Hd Hab. destruct d as [|d|d]; try lia.
  unfold Qle, Qdiv, Qmult, Qinv, inject_Z. simpl. nia.
Qed.

Lemma scaled_nonneg (a d : Z) :
  (0 < d)%Z -> (0 <= a)%Z -> 0 <= inject_Z a * 17 / inject_Z d.
Proof.
  intros Hd Hab. destruct d as [|d|d]; try lia.
  unfold Qle, Qdiv, Qmult, Qinv, inject_Z. simpl. nia.
Qed.

Lemma scaled_diag (d : Z) : (0 < d)%Z -> inject_Z d * 17 / inject_Z d == 17.
Proof. intros Hd. field. apply inject_Z_nonzero. lia. Qed.

Lemma scaled_zero (d : Z) : inject_Z 0 * 17 / inject_Z d == 0.
Proof. unfold Qeq, Qdiv, Qmult. simpl. lia. Qed.

Lemma spec_axis_mass_mono (zero half full p q : Z) :
  (zero < half)%Z -> (half < full)%Z -> (p <= q)%Z ->
  spec_axis_mass zero half full p <= spec_axis_mass zero half full q.
Proof.
  intros Hzh Hhf Hpq. unfold spec_axis_mass.
  destruct (Z.ltb_spec p zero), (Z.ltb_spec q zero); try lia;
    destruct (Z.leb_spec zero p), (Z.leb_spec zero q); try lia;
    destruct (Z.ltb_spec p half), (Z.ltb_spec q half); try lia; simpl.
  - apply Qle_refl.
  - apply scaled_nonneg; lia.
  - pose proof (scaled_nonneg (q - half) (full - half)).
    generalize dependent (inject_Z (q - half) * 17 / inject_Z (full - half)).
    intros x Hx. assert (0 <= x) by (apply Hx; lia). lra.
  - apply scaled_mono; lia.
  - pose proof (scaled_below (p - zero) (half - zero)) as Hp.
    pose proof (scaled_nonneg (q - half) (full - half)) as Hq.
    generalize dependent (inject_Z (q - half) * 17 / inject_Z (full - half)).
    generalize dependent (inject_Z (p - zero) * 17 / inject_Z (half - zero)).
    intros x Hx y Hy.
    assert (x <= 17) by (apply Hx; lia). assert (0 <= y) by (apply Hy; lia).
    lra.
  - apply Qplus_le_compat; [|apply Qle_refl]. apply scaled_mono; lia.
Qed.

End Shape.

(** ** The feed *)

Lemma addr_le_iff (a b : string) :
  addr_le a b <-> a = b \/ String_as_OT.lt a b.
Proof.
  unfold addr_le, String.leb.
  destruct (String.compare a b) eqn:E.
  - apply String.compare_eq_iff in E. tauto.
  - apply String_as_OT.cmp_lt in E. tauto.
  - split; [done|]. intros [->|Hlt].
    + pose proof (proj2 (String_as_OT.cmp_eq b b) eq_refl) as E'.
      unfold String_as_OT.cmp in E'. congruence.
    + apply String_as_OT.cmp_lt in Hlt. unfold String_as_OT.cmp in Hlt.
      congruence.
Qed.

#[export] Instance addr_le_total : Total addr_le.
Proof. intros a b. apply String.leb_total. Qed.

#[export] Instance addr_le_trans : Transitive addr_le.
Proof.
  intros a b c. rewrite !addr_le_iff.
  intros [->|Hab] [->|Hbc]; eauto using String_as_OT.lt_trans.
Qed.

Lemma Forall2_Permutation_l {A B} (R : A -> B -> Prop) (l l' : list A) :
  l ≡ₚ l' ->
  forall k, Forall2 R l k -> exists k', Forall2 R l' k' /\ k ≡ₚ k'.
Proof.
  induction 1 as [|x l l' _ IH|x y l|l1 l2 l3 _ IH1 _ IH2]; intros k Hk.
  - apply Forall2_nil_inv_l in Hk as ->. by exists [].
  - apply Forall2_cons_inv_l in Hk as (z & k0 & Hz & Hk0 & ->).
    destruct (IH _ Hk0) as (k' & Hk' & Hp). exists (z :: k').
    split; [by constructor|by constructor].
  - apply Forall2_cons_inv_l in Hk as (a & k0 & Ha & Hk0 & ->).
    apply Forall2_cons_inv_l in Hk0 as (b & k1 & Hb & Hk1 & ->).
    exists (b :: a :: k1). split; [by repeat constructor|constructor].
  - destruct (IH1 _ Hk) as (k2 & Hk2 & Hp2).
    destruct (IH2 _ Hk2) as (k3 & Hk3 & Hp3).
    exists k3. split; [done|by etrans].
Qed.

Lemma Qsum_Permutation (l l' : list Q) : l ≡ₚ l' -> (Qsum l == Qsum l')%Q.
Proof.
  unfold Qsum.
  induction 1 as [|x l l' _ IH|x y l|l1 l2 l3 _ IH1 _ IH2]; simpl.
  - reflexivity.
  - by rewrite IH.
  - ring.
  - by rewrite IH1.
Qed.

Section FeedFacts.
Context {F : Type} `{PyFloat F}.
Implicit Type d : registry (F:=F).


Lemma dict_get_NoDup d k b :
  NoDup (d.*1) -> (k, b) ∈ d -> dict_get k d = Some b.
Proof.
  induction d as [|[k' b'] d IH]; simpl; intros Hnd Hin.
  - by apply elem_of_nil in Hin.
  - apply NoDup_cons in Hnd as [Hk' Hnd].
    apply elem_of_cons in Hin as [[= -> ->]|Hin].
    + by rewrite String.eqb_refl.
    + destruct (String.eqb_spec k' k) as [->|Hne]; [|by apply IH].
      destruct Hk'. apply (list_elem_of_fmap_2 fst) in Hin. done.
Qed.

Lemma tick_entries d :
  NoDup (d.*1) ->
  Forall2 (fun i y => (b ← dict_get i d; Some (i, total_mass b)) = Some y)
          (d.*1) (entry <$> d).
Proof.
  intros Hnd. apply Forall2_fmap, Forall_Forall2_diag, Forall_forall.
  intros [k b] Hin. simpl. by rewrite (dict_get_NoDup d k b).
Qed.

Lemma tick_keys d (ks : list string) (bm : list (string * num F)) :
  Forall2 (fun i y => (b ← dict_get i d; Some (i, total_mass b)) = Some y)
          ks bm ->
  bm.*1 = ks.
Proof.
  induction 1 as [|i y ks bm Hy _ IH]; simpl; [done|].
  destruct (dict_get i d); simplify_eq/=. by f_equal.
Qed.

Lemma tick_total d (acc : num F) :
  fold_left (fun acc kv => num_add acc (total_mass kv.2)) d acc
  = fold_left num_add ((entry <$> d).*2) acc.
Proof.
  revert acc. induction d as [|kv d IH]; intros acc; simpl; [done|].
  apply IH.
Qed.

(** What a tick produces when the registry it lists has distinct keys. *)
Lemma mass_server_tick_spec (seen_sum seen_list : registry (F:=F)) :
  NoDup (seen_list.*1) ->
  exists out,
    mass_server_tick seen_sum seen_list = Some out /\
    StronglySorted addr_le ((boards out).*1) /\
    boards out ≡ₚ entry <$> seen_list /\
    (boards out).*1 = sorted_keys seen_list /\
    total out = py_sum ((entry <$> seen_sum).*2).
Proof.
  intros Hnd. unfold mass_server_tick.
  destruct (Forall2_Permutation_l _ (seen_list.*1) (sorted_keys seen_list)
              (symmetry (merge_sort_Permutation addr_le (seen_list.*1)))
              _ (tick_entries seen_list Hnd)) as (bm & Hbm & Hperm).
  rewrite (mapM_Some_2 _ _ _ Hbm). simpl.
  eexists. split; [reflexivity|]. simpl. split; [|split; [|split]].
  - rewrite (tick_keys _ _ _ Hbm).
    apply Sorted_StronglySorted; [apply _|]. apply Sorted_merge_sort. apply _.
  - by symmetry.
  - apply (tick_keys _ _ _ Hbm).
  - apply tick_total.
Qed.

(** Entries with distinct keys are listed in the order of their keys. *)
Lemma entries_by_keys (l : list (string * num F)) (d : registry (F:=F)) :
  NoDup (d.*1) -> l ≡ₚ entry <$> d -> l.*1 = d.*1 -> l = entry <$> d.
Proof.
  revert l. induction d as [|[k b] d IH]; intros l Hnd Hp Hk.
  - apply Permutation_nil_r in Hp. done.
  - destruct l as [|[k' m] l]; [done|]. simpl in Hk. injection Hk as -> Hk.
    apply NoDup_cons in Hnd as [Hnk Hnd].
    assert ((k, m) ∈ entry <$> ((k, b) :: d)) as Hin
      by (rewrite <- Hp; apply list_elem_of_here).
    rewrite fmap_cons in Hin. apply elem_of_cons in Hin as [Heq|Hin].
    + injection Heq as ->. rewrite fmap_cons. f_equal.
      apply IH; [done| |done].
      rewrite fmap_cons in Hp. by apply Permutation_cons_inv in Hp.
    + destruct Hnk. apply (list_elem_of_fmap_2 fst) in Hin.
      rewrite <- list_fmap_compose in Hin.
      by replace (fst ∘ entry) with (@fst string (BalanceBoard F)) in Hin.
Qed.

End FeedFacts.

#[export] Instance addr_le_antisymm : AntiSymm (=) addr_le.
Proof.
  intros a b. rewrite !addr_le_iff. intros [->|Hab] [Hba|Hba]; try done.
  destruct (String_as_OT.lt_not_eq _ _ (String_as_OT.lt_trans _ _ _ Hab Hba)). done.
Qed.

(** Keys that are in ascending order already are left in place. *)
Lemma sorted_keys_sorted {F} (d : registry (F:=F)) :
  StronglySorted addr_le (d.*1) -> sorted_keys d = d.*1.
Proof.
  intros Hs. apply (StronglySorted_unique addr_le); [|done|].
  - apply StronglySorted_merge_sort; apply _.
  - apply merge_sort_Permutation.
Qed.

(** ** Rounding in binary64 *)

(** *** Mantissa lengths *)

Lemma digits2_pos_spec (m : positive) :
  2 ^ (Z.pos (digits2_pos m) - 1) <= Z.pos m < 2 ^ Z.pos (digits2_pos m).
Proof.
  induction m as [m IH|m IH|]; cbn [digits2_pos].
  - rewrite Pos2Z.inj_succ, Z.pow_succ_r by lia.
    replace (Z.succ (Z.pos (digits2_pos m)) - 1)
      with (Z.succ (Z.pos (digits2_pos m) - 1)) by lia.
    rewrite Z.pow_succ_r by lia. lia.
  - rewrite Pos2Z.inj_succ, Z.pow_succ_r by lia.
    replace (Z.succ (Z.pos (digits2_pos m)) - 1)
      with (Z.succ (Z.pos (digits2_pos m) - 1)) by lia.
    rewrite Z.pow_succ_r by lia. lia.
  - simpl. lia.
Qed.

Lemma digits2_pos_bounds (M : positive) (lo hi : Z) :
  0 <= lo -> 2 ^ lo <= Z.pos M < 2 ^ hi ->
  lo + 1 <= Z.pos (digits2_pos M) <= hi.
Proof.
  intros Hlo [H1 H2]. pose proof (digits2_pos_spec M) as [H3 H4].
  split.
  - destruct (Z.lt_ge_cases lo (Z.pos (digits2_pos M))); [lia|].
    assert (2 ^ Z.pos (digits2_pos M) <= 2 ^ lo) by (apply Z.pow_le_mono_r; lia).
    lia.
  - destruct (Z.le_gt_cases (Z.pos (digits2_pos M)) hi); [done|].
    assert (2 ^ hi <= 2 ^ (Z.pos (digits2_pos M) - 1))
      by (apply Z.pow_le_mono_r; lia).
    lia.
Qed.

(** *** Shifting and rounding *)

Lemma shr_1_inv N W r : shr_inv N W r -> shr_inv N (2 * W) (shr_1 r).
Proof.
  intros (rem & HN & Hrem & Hm & Hloc).
  destruct r as [m rb sb]. simpl in *.
  destruct m as [|[p|p|]|p]; try lia; simpl.
  - exists rem. simpl. destruct rb, sb; simpl; lia.
  - exists (W + rem). simpl. destruct rb, sb; simpl; lia.
  - exists rem. simpl. destruct rb, sb; simpl; lia.
  - exists (W + rem). simpl. destruct rb, sb; simpl; lia.
Qed.

Lemma pow2_xO (p : positive) : 2 ^ Z.pos p~0 = 2 ^ Z.pos p * 2 ^ Z.pos p.
Proof.
  replace (Z.pos p~0) with (Z.pos p + Z.pos p) by lia.
  by rewrite Z.pow_add_r by lia.
Qed.

Lemma pow2_xI (p : positive) : 2 ^ Z.pos p~1 = 2 * (2 ^ Z.pos p * 2 ^ Z.pos p).
Proof.
  replace (Z.pos p~1) with (1 + (Z.pos p + Z.pos p)) by lia.
  by rewrite !Z.pow_add_r by lia.
Qed.

Lemma iter_pos_shr_inv N (p : positive) : forall W r,
  shr_inv N W r -> shr_inv N (2 ^ Z.pos p * W) (SpecFloat.iter_pos shr_1 p r).
Proof.
  induction p as [p IH|p IH|]; intros W r Hr; cbn [SpecFloat.iter_pos].
  - replace (2 ^ Z.pos p~1 * W) with (2 ^ Z.pos p * (2 ^ Z.pos p * (2 * W)))
      by (rewrite pow2_xI; lia).
    apply IH, IH. by apply shr_1_inv.
  - replace (2 ^ Z.pos p~0 * W) with (2 ^ Z.pos p * (2 ^ Z.pos p * W))
      by (rewrite pow2_xO; lia).
    by apply IH, IH.
  - change (2 ^ 1) with 2. by apply shr_1_inv.
Qed.

Lemma rne_inv N W r :
  shr_inv N W r ->
  let m1 := round_nearest_even (shr_m r) (loc_of_shr_record r) in
  shr_m r <= m1 <= shr_m r + 1 /\ 2 * Z.abs (m1 * W - N) <= W.
Proof.
  intros (rem & HN & Hrem & Hm & Hloc).
  destruct r as [m rb sb]. simpl in *.
  destruct rb, sb; simpl; try (destruct (Z.even m)); lia.
Qed.

(** The location computed by a division. *)
Lemma new_location_inv (q nb k : Z) :
  0 <= q -> 0 <= k < nb ->
  shr_inv (q * nb + k) nb (shr_record_of_loc q (new_location nb k)).
Proof.
  intros Hq Hk. exists k. unfold new_location.
  destruct (Z.even nb) eqn:Heven.
  - unfold new_location_even. destruct (Z.eqb_spec k 0) as [->|Hne]; simpl.
    + lia.
    + destruct (Z.compare_spec (2 * k) nb); simpl; lia.
  - assert (Z.odd nb = true) as Hodd by (rewrite <- Z.negb_even, Heven; done).
    apply Z.odd_spec in Hodd as [j Hj].
    unfold new_location_odd. destruct (Z.eqb_spec k 0) as [->|Hne]; simpl.
    + lia.
    + destruct (Z.compare_spec (2 * k + 1) nb); simpl; lia.
Qed.

Lemma fexp64_normal e : -1021 <= e -> fexp64 e = e - 53.
Proof. unfold fexp64, fexp, emin. lia. Qed.

(** Rounding a mantissa of at least 53 bits, in the normal range. *)
Lemma binary_round_aux_correct (s : bool) (q : positive) (e : Z)
    (loc : location) (N U : Z) :
  0 < U -> shr_inv N U (shr_record_of_loc (Z.pos q) loc) ->
  53 <= Z.pos (digits2_pos q) ->
  -1021 <= Z.pos (digits2_pos q) + e -> Z.pos (digits2_pos q) + e <= 1000 ->
  exists m' e',
    binary_round_aux 53 1024 s (Z.pos q) e loc = S754_finite s m' e' /\
    e <= e' <= e + (Z.pos (digits2_pos q) - 52) /\
    2 ^ 52 <= Z.pos m' < 2 ^ 53 /\
    2 ^ 53 * Z.abs (Z.pos m' * 2 ^ (e' - e) * U - N) <= N.
Proof.
  intros HU Hinv0 Hdg Hlo Hhi.
  set (dg := Z.pos (digits2_pos q)) in *.
  pose proof (digits2_pos_spec q) as [Hqlo Hqhi]. fold dg in Hqlo, Hqhi.
  unfold binary_round_aux, shr_fexp.
  change (Zdigits2 (Z.pos q)) with dg.
  change (fexp 53 1024) with fexp64.
  rewrite (fexp64_normal (dg + e)) by lia.
  replace (dg + e - 53 - e) with (dg - 53) by lia.
  set (n := dg - 53) in *.
  assert (0 < 2 ^ n) as Hpn by (apply Z.pow_pos_nonneg; lia).
  assert (exists r1,
            shr (shr_record_of_loc (Z.pos q) loc) e n = (r1, e + n) /\
            shr_inv N (2 ^ n * U) r1) as (r1 & -> & Hinv).
  { destruct n as [|pn|pn] eqn:En; try lia.
    - eexists. split; [cbn [shr]; by rewrite Z.add_0_r|].
      change (2 ^ 0) with 1. by rewrite Z.mul_1_l.
    - eexists. split; [reflexivity|]. by apply iter_pos_shr_inv. }
  pose proof (rne_inv _ _ _ Hinv) as [Hm1 Herr].
  set (m1 := round_nearest_even (shr_m r1) (loc_of_shr_record r1)) in *.
  set (W := 2 ^ n * U) in *.
  assert (0 < W) as HW by (apply Z.mul_pos_pos; lia).
  assert (2 ^ dg = 2 ^ 53 * 2 ^ n) as Hdgp.
  { rewrite <- Z.pow_add_r by lia. f_equal. lia. }
  assert (2 ^ (dg - 1) = 2 ^ 52 * 2 ^ n) as Hdgp1.
  { rewrite <- Z.pow_add_r by lia. f_equal. lia. }
  assert (2 ^ 52 <= shr_m r1 < 2 ^ 53) as Hr1.
  { destruct Hinv0 as (rem0 & HN0 & Hrem0 & _).
    destruct Hinv as (rem1 & HN1 & Hrem1 & Hm1nn & _).
    cbn [shr_m] in HN0.
    assert (shr_m (shr_record_of_loc (Z.pos q) loc) = Z.pos q) as Hq0
      by (by destruct loc as [|[]]).
    rewrite Hq0 in HN0.
    assert (shr_m r1 * 2 ^ n * U <= Z.pos q * U + rem0) as H1 by (unfold W in *; lia).
    assert (Z.pos q * U < (shr_m r1 + 1) * 2 ^ n * U) as H2 by (unfold W in *; lia).
    assert (shr_m r1 * 2 ^ n < Z.pos q + 1) as H3 by nia.
    assert (Z.pos q < (shr_m r1 + 1) * 2 ^ n) as H4 by nia.
    split; nia. }
  assert (2 ^ 53 * Z.abs (m1 * W - N) <= N) as Hrel.
  { destruct Hinv as (rem1 & HN1 & Hrem1 & _). 
    change (2 ^ 53) with (2 * 2 ^ 52) at 1. nia. }
  destruct m1 as [|pm1|pm1] eqn:Em1; try lia.
  destruct (Z.eq_dec (Z.pos pm1) (2 ^ 53)) as [Heq|Hne].
  - injection Heq as ->.
    exists (2 ^ 52)%positive, (e + n + 1).
    split; [|split; [lia|split; [done|]]].
    + vm_compute Zdigits2.
      rewrite (fexp64_normal (54 + (e + n))) by lia.
      replace (54 + (e + n) - 53 - (e + n)) with 1 by lia.
      cbn -[Z.leb Z.sub Z.add].
      replace (e + n + 1 <=? 1024 - 53) with true
        by (symmetry; apply Z.leb_le; lia).
      done.
    + replace (e + n + 1 - e) with (n + 1) by lia.
      rewrite Z.pow_add_r by lia.
      change (Z.pos (2 ^ 52)) with (2 ^ 52). change (2 ^ 1) with 2.
      change (Z.pos (2 ^ 53)) with (2 * 2 ^ 52) in Hrel.
      replace (2 ^ 52 * (2 ^ n * 2) * U) with (2 * 2 ^ 52 * W)
        by (unfold W; lia).
      exact Hrel.
  - assert (Z.pos (digits2_pos pm1) = 53) as Hd1.
    { pose proof (digits2_pos_bounds pm1 52 53 ltac:(lia) ltac:(lia)). lia. }
    exists pm1, (e + n).
    split; [|split; [lia|split; [lia|]]].
    + cbn [Zdigits2]. rewrite Hd1.
      rewrite (fexp64_normal (53 + (e + n))) by lia.
      replace (53 + (e + n) - 53 - (e + n)) with 0 by lia.
      cbn -[Z.leb Z.sub Z.add].
      replace (e + n <=? 1024 - 53) with true
        by (symmetry; apply Z.leb_le; lia).
      done.
    + replace (e + n - e) with n by lia.
      replace (Z.pos pm1 * 2 ^ n * U) with (Z.pos pm1 * W) by (unfold W; lia).
      exact Hrel.
Qed.

(** *** Values *)

Lemma two_pow_pos (e : Z) : (0 < 2 ^ e)%Q.
Proof. apply Qpower_0_lt. reflexivity. Qed.

Lemma two_pow_add (a b : Z) : (2 ^ (a + b) == 2 ^ a * 2 ^ b)%Q.
Proof. apply Qpower_plus. discriminate. Qed.

Lemma fval_pos m e : (0 < fval m e)%Q.
Proof.
  unfold fval. apply Qmult_lt_0_compat; [|apply two_pow_pos].
  reflexivity.
Qed.

Lemma fval_shift m e k :
  (0 <= k)%Z -> (fval m (e + k) == inject_Z (Z.pos m * 2 ^ k) * 2 ^ e)%Q.
Proof.
  intros Hk. unfold fval.
  rewrite inject_Z_mult, Zpower_Qpower by done.
  rewrite two_pow_add. change (inject_Z 2) with 2%Q. ring.
Qed.

(** The rounded value, against the exact one [N / U * 2^e]. *)
Lemma round_loc (s : bool) (q : positive) (e : Z) (loc : location) (N U : Z) :
  0 < U -> shr_inv N U (shr_record_of_loc (Z.pos q) loc) ->
  53 <= Z.pos (digits2_pos q) ->
  -1021 <= Z.pos (digits2_pos q) + e -> Z.pos (digits2_pos q) + e <= 1000 ->
  exists m' e',
    binary_round_aux 53 1024 s (Z.pos q) e loc = S754_finite s m' e' /\
    e <= e' <= e + (Z.pos (digits2_pos q) - 52) /\
    2 ^ 52 <= Z.pos m' < 2 ^ 53 /\
    ((1 - eps) * (inject_Z N * 2 ^ e) <= fval m' e' * inject_Z U /\
     fval m' e' * inject_Z U <= (1 + eps) * (inject_Z N * 2 ^ e))%Q.
Proof.
  intros HU Hinv Hdg Hlo Hhi.
  destruct (binary_round_aux_correct s q e loc N U HU Hinv Hdg Hlo Hhi)
    as (m' & e' & Hr & He' & Hm' & Herr).
  exists m', e'. split; [done|]. split; [lia|]. split; [lia|].
  replace e' with (e + (e' - e)) by lia.
  rewrite fval_shift by lia.
  set (X := Z.pos m' * 2 ^ (e' - e)) in *.
  change (2 ^ 53) with 9007199254740992 in Herr.
  assert (9007199254740991 * N <= 9007199254740992 * (X * U)) as H3 by lia.
  assert (9007199254740992 * (X * U) <= 9007199254740993 * N) as H4 by lia.
  rewrite Zle_Qle in H3, H4. rewrite !inject_Z_mult in H3, H4.
  change (inject_Z 9007199254740991) with (9007199254740991 # 1)%Q in H3.
  change (inject_Z 9007199254740992) with (9007199254740992 # 1)%Q in H3, H4.
  change (inject_Z 9007199254740993) with (9007199254740993 # 1)%Q in H4.
  pose proof (two_pow_pos e) as Hp.
  set (P := (2 ^ e)%Q) in *.
  set (QN := inject_Z N) in *. set (QX := inject_Z X) in *.
  set (QU := inject_Z U) in *.
  unfold eps. split.
  - assert ((1 - (1 # 9007199254740992)) * QN <= QX * QU)%Q as H5 by lra.
    apply (Qmult_le_compat_r _ _ P) in H5; [|by apply Qlt_le_weak].
    lra.
  - assert (QX * QU <= (1 + (1 # 9007199254740992)) * QN)%Q as H5 by lra.
    apply (Qmult_le_compat_r _ _ P) in H5; [|by apply Qlt_le_weak].
    lra.
Qed.

Lemma shr_inv_exact (M : Z) : 0 <= M -> shr_inv M 1 (shr_record_of_loc M loc_Exact).
Proof. intros HM. exists 0. simpl. lia. Qed.

(** Rounding an exact mantissa. *)
Lemma round_val (s : bool) (M : positive) (e : Z) :
  53 <= Z.pos (digits2_pos M) ->
  -1021 <= Z.pos (digits2_pos M) + e -> Z.pos (digits2_pos M) + e <= 1000 ->
  exists m' e',
    binary_round_aux 53 1024 s (Z.pos M) e loc_Exact = S754_finite s m' e' /\
    e <= e' <= e + (Z.pos (digits2_pos M) - 52) /\
    2 ^ 52 <= Z.pos m' < 2 ^ 53 /\
    ((1 - eps) * fval M e <= fval m' e' /\ fval m' e' <= (1 + eps) * fval M e)%Q.
Proof.
  intros Hdg Hlo Hhi.
  destruct (round_loc s M e loc_Exact (Z.pos M) 1 Z.lt_0_1
              (shr_inv_exact (Z.pos M) (Pos2Z.is_nonneg M)) Hdg Hlo Hhi)
    as (m' & e' & Hr & He' & Hm' & Hv1 & Hv2).
  exists m', e'. repeat split; try done; try lia.
  - change (inject_Z 1) with 1%Q in Hv1. unfold fval at 1.
    set (V := fval m' e') in *. lra.
  - change (inject_Z 1) with 1%Q in Hv2. unfold fval at 2.
    set (V := fval m' e') in *. lra.
Qed.

(** A mantissa of exactly 53 bits is left as it is. *)
Lemma round_53 (s : bool) (M : positive) (e : Z) :
  2 ^ 52 <= Z.pos M < 2 ^ 53 -> -1074 <= e <= 947 ->
  binary_round_aux 53 1024 s (Z.pos M) e loc_Exact = S754_finite s M e.
Proof.
  intros HM He.
  pose proof (digits2_pos_bounds M 52 53 ltac:(lia) HM) as Hdg.
  destruct (binary_round_aux_correct s M e loc_Exact (Z.pos M) 1 Z.lt_0_1
              (shr_inv_exact (Z.pos M) (Pos2Z.is_nonneg M))) as (m' & e' & Hr & He' & Hm' & Herr);
    try lia.
  rewrite Hr. rewrite Z.mul_1_r in Herr.
  assert (0 < 2 ^ (e' - e)) as Hp by (apply Z.pow_pos_nonneg; lia).
  assert (Z.pos m' * 2 ^ (e' - e) = Z.pos M) as Heq.
  { change (2 ^ 53) with 9007199254740992 in *.
    change (2 ^ 52) with 4503599627370496 in *. lia. }
  destruct (Z.eq_dec e' e) as [->|Hne].
  - rewrite Z.sub_diag, Z.mul_1_r in Heq. by injection Heq as ->.
  - assert (e' - e = 1) as H1 by lia. rewrite H1 in Heq.
    change (2 ^ 1) with 2 in Heq. lia.
Qed.

(** *** Products and sums of normal numbers *)

Lemma fval_mul mx ex my ey :
  (fval (mx * my) (ex + ey) == fval mx ex * fval my ey)%Q.
Proof.
  unfold fval. rewrite Pos2Z.inj_mul, inject_Z_mult, two_pow_add. ring.
Qed.

Lemma SFmul_normal b1 b2 x y vx vy :
  0 <= b1 -> 0 <= b2 -> b1 + b2 <= 800 ->
  normal b1 x vx -> normal b2 y vy ->
  exists v, normal (b1 + b2 + 54) (SFmul 53 1024 x y) v /\
            ((1 - eps) * (vx * vy) <= v /\ v <= (1 + eps) * (vx * vy))%Q.
Proof.
  intros Hb1 Hb2 Hb (mx & ex & -> & Hmx & Hex & Hvx) (my & ey & -> & Hmy & Hey & Hvy).
  cbn [SFmul xorb].
  assert (2 ^ 104 <= Z.pos (mx * my) < 2 ^ 106) as HM.
  { rewrite Pos2Z.inj_mul.
    change (2 ^ 104) with (2 ^ 52 * 2 ^ 52). change (2 ^ 106) with (2 ^ 53 * 2 ^ 53).
    split; [apply Z.mul_le_mono_nonneg; lia|apply Z.mul_lt_mono_nonneg; lia]. }
  pose proof (digits2_pos_bounds _ 104 106 ltac:(lia) HM) as Hdg.
  destruct (round_val false (mx * my) (ex + ey)) as (m' & e' & Hr & He' & Hm' & Hv);
    try lia.
  rewrite Hr. exists (fval m' e'). split.
  - exists m', e'. repeat split; try lia.
  - rewrite Hvx, Hvy, <- fval_mul. exact Hv.
Qed.

Lemma pos_iter_xO (m d : positive) :
  Z.pos (Pos.iter xO m d) = Z.pos m * 2 ^ Z.pos d.
Proof.
  induction d as [|d IH] using Pos.peano_ind.
  - simpl. lia.
  - rewrite Pos.iter_succ, Pos2Z.inj_xO, IH, Pos2Z.inj_succ, Z.pow_succ_r by lia.
    lia.
Qed.

Lemma shl_align_spec mx ex ez :
  ez <= ex -> Z.pos (fst (shl_align mx ex ez)) = Z.pos mx * 2 ^ (ex - ez).
Proof.
  intros He. unfold shl_align.
  destruct (ez - ex) as [|d|d] eqn:E; try lia; cbn [fst].
  - replace (ex - ez) with 0 by lia. simpl. lia.
  - rewrite pos_iter_xO. f_equal. f_equal. lia.
Qed.

Lemma shl_align_exp mx ex ez : ez <= ex -> snd (shl_align mx ex ez) = ez.
Proof.
  intros He. unfold shl_align.
  destruct (ez - ex) as [|d|d] eqn:E; try lia; cbn [snd]; [lia|done].
Qed.

Lemma SFadd_normal_wide b1 b2 x y vx vy :
  0 <= b1 <= 900 -> 0 <= b2 <= 900 ->
  normal b1 x vx -> normal b2 y vy ->
  exists v, normal (Z.max b1 b2 + 2) (SFadd 53 1024 x y) v /\
            ((1 - eps) * (vx + vy) <= v /\ v <= (1 + eps) * (vx + vy))%Q.
Proof.
  intros Hb1 Hb2 (mx & ex & -> & Hmx & Hex & Hvx) (my & ey & -> & Hmy & Hey & Hvy).
  cbn [SFadd cond_Zopp].
  set (ez := Z.min ex ey).
  pose proof (shl_align_spec mx ex ez ltac:(lia)) as Hx.
  pose proof (shl_align_spec my ey ez ltac:(lia)) as Hy.
  set (ax := fst (shl_align mx ex ez)) in *.
  set (ay := fst (shl_align my ey ez)) in *.
  change (Z.pos ax + Z.pos ay) with (Z.pos (ax + ay)).
  cbn [binary_normalize]. unfold binary_round.
  assert (0 < 2 ^ (ex - ez)) as Hpx by (apply Z.pow_pos_nonneg; lia).
  assert (0 < 2 ^ (ey - ez)) as Hpy by (apply Z.pow_pos_nonneg; lia).
  set (D := Z.max ex ey - ez).
  assert (2 ^ (ex - ez) <= 2 ^ D) as Hdx by (apply Z.pow_le_mono_r; lia).
  assert (2 ^ (ey - ez) <= 2 ^ D) as Hdy by (apply Z.pow_le_mono_r; lia).
  assert (2 ^ 52 <= Z.pos (ax + ay) < 2 ^ (54 + D)) as HS.
  { rewrite Pos2Z.inj_add, Hx, Hy. split; [nia|].
    rewrite Z.pow_add_r by lia. change (2 ^ 54) with (2 * 2 ^ 53). nia. }
  pose proof (digits2_pos_bounds _ 52 (54 + D) ltac:(lia) HS) as Hdg.
  set (dg := Z.pos (digits2_pos (ax + ay))) in *.
  change (fexp 53 1024) with fexp64.
  rewrite (fexp64_normal (dg + ez)) by lia.
  assert (shl_align (ax + ay) ez (dg + ez - 53) = ((ax + ay)%positive, ez)) as ->.
  { unfold shl_align. destruct (dg + ez - 53 - ez) eqn:E; try done. lia. }
  destruct (round_val false (ax + ay) ez) as (m' & e' & Hr & He' & Hm' & Hv);
    try (fold dg; lia).
  rewrite Hr. exists (fval m' e'). split.
  - exists m', e'. repeat split; try lia.
  - assert (fval (ax + ay) ez == vx + vy)%Q as <-; [|exact Hv].
    rewrite Hvx, Hvy. unfold fval.
    rewrite Pos2Z.inj_add, Hx, Hy, inject_Z_plus, !inject_Z_mult.
    rewrite !Zpower_Qpower by lia. change (inject_Z 2) with 2%Q.
    replace ex with (ez + (ex - ez)) at 2 by lia.
    replace ey with (ez + (ey - ez)) at 2 by lia.
    rewrite !two_pow_add. ring.
Qed.

Lemma SFadd_normal b1 b2 x y vx vy :
  0 <= b1 -> 0 <= b2 -> b1 + b2 <= 400 ->
  normal b1 x vx -> normal b2 y vy ->
  exists v, normal (Z.max b1 b2 + 2) (SFadd 53 1024 x y) v /\
            ((1 - eps) * (vx + vy) <= v /\ v <= (1 + eps) * (vx + vy))%Q.
Proof. intros Hb1 Hb2 Hb. apply SFadd_normal_wide; lia. Qed.

(** *** Integers below [2^53] are represented exactly *)

Lemma b64_of_int_finite (p : positive) :
  Z.pos p < 2 ^ 53 ->
  exists m,
    b64_of_int (Z.pos p) = S754_finite false m (Z.pos (digits2_pos p) - 53) /\
    2 ^ 52 <= Z.pos m < 2 ^ 53 /\
    (inject_Z (Z.pos p) == fval m (Z.pos (digits2_pos p) - 53))%Q.
Proof.
  intros Hp.
  pose proof (digits2_pos_spec p) as [Hlo Hhi].
  set (dg := Z.pos (digits2_pos p)) in *.
  assert (1 <= dg <= 53) as Hdg.
  { split; [lia|].
    destruct (Z.le_gt_cases dg 53); [done|].
    assert (2 ^ 53 <= 2 ^ (dg - 1)) by (apply Z.pow_le_mono_r; lia). lia. }
  unfold b64_of_int. cbn [binary_normalize]. unfold binary_round.
  fold dg. change (fexp 53 1024) with fexp64.
  rewrite (fexp64_normal (dg + 0)) by lia.
  replace (dg + 0 - 53) with (dg - 53) by lia.
  pose proof (shl_align_spec p 0 (dg - 53) ltac:(lia)) as Hm.
  pose proof (shl_align_exp p 0 (dg - 53) ltac:(lia)) as He.
  destruct (shl_align p 0 (dg - 53)) as [mz ez]. cbn [fst snd] in Hm, He.
  subst ez. replace (0 - (dg - 53)) with (53 - dg) in Hm by lia.
  assert (2 ^ 52 <= Z.pos mz < 2 ^ 53) as Hmz.
  { rewrite Hm.
    assert (2 ^ 52 = 2 ^ (dg - 1) * 2 ^ (53 - dg)) as ->
      by (rewrite <- Z.pow_add_r by lia; f_equal; lia).
    assert (2 ^ 53 = 2 ^ dg * 2 ^ (53 - dg)) as ->
      by (rewrite <- Z.pow_add_r by lia; f_equal; lia).
    assert (0 < 2 ^ (53 - dg)) by (apply Z.pow_pos_nonneg; lia).
    split; [apply Z.mul_le_mono_nonneg_r; lia|apply Z.mul_lt_mono_pos_r; lia]. }
  exists mz. split; [apply round_53; [done|lia]|]. split; [done|].
  unfold fval. rewrite Hm, inject_Z_mult, Zpower_Qpower by lia.
  change (inject_Z 2) with 2%Q.
  rewrite <- Qmult_assoc, <- two_pow_add.
  replace (53 - dg + (dg - 53)) with 0 by lia. simpl. ring.
Qed.

Lemma b64_of_int_u16 (a : Z) :
  1 <= a <= 65535 ->
  exists m e,
    b64_of_int a = S754_finite false m e /\ 2 ^ 52 <= Z.pos m < 2 ^ 53 /\
    -52 <= e <= -37 /\ (inject_Z a == fval m e)%Q.
Proof.
  intros Ha. destruct a as [|p|p]; try lia.
  destruct (b64_of_int_finite p ltac:(lia)) as (m & Hm & Hr & Hv).
  pose proof (digits2_pos_spec p) as [Hlo Hhi].
  exists m, (Z.pos (digits2_pos p) - 53). repeat split; try done; try lia.
  destruct (Z.le_gt_cases (Z.pos (digits2_pos p)) 16); [lia|].
  assert (2 ^ 16 <= 2 ^ (Z.pos (digits2_pos p) - 1)) by (apply Z.pow_le_mono_r; lia).
  change (2 ^ 16) with 65536 in *. lia.
Qed.

Lemma b64_of_int_normal (a : Z) :
  1 <= a <= 65535 -> normal 52 (b64_of_int a) (inject_Z a).
Proof.
  intros Ha. destruct (b64_of_int_u16 a Ha) as (m & e & Hm & Hr & He & Hv).
  exists m, e. repeat split; try done; lia.
Qed.

(** *** Quotients of normal numbers *)

Lemma SFdiv_finite (mx my : positive) (ex ey : Z) :
  2 ^ 52 <= Z.pos mx < 2 ^ 53 -> 2 ^ 52 <= Z.pos my < 2 ^ 53 ->
  -900 <= ex - ey <= 900 ->
  exists m e,
    SFdiv 53 1024 (S754_finite false mx ex) (S754_finite false my ey)
      = S754_finite false m e /\
    2 ^ 52 <= Z.pos m < 2 ^ 53 /\
    ex - ey - 53 <= e <= ex - ey - 51 /\
    ((1 - eps) * fval mx ex <= fval m e * fval my ey /\
     fval m e * fval my ey <= (1 + eps) * fval mx ex)%Q.
Proof.
  intros Hmx Hmy He.
  pose proof (digits2_pos_bounds mx 52 53 ltac:(lia) Hmx) as Hdx.
  pose proof (digits2_pos_bounds my 52 53 ltac:(lia) Hmy) as Hdy.
  cbn [SFdiv xorb]. unfold SFdiv_core_binary.
  change (Zdigits2 (Z.pos mx)) with (Z.pos (digits2_pos mx)).
  change (Zdigits2 (Z.pos my)) with (Z.pos (digits2_pos my)).
  replace (Z.pos (digits2_pos mx)) with 53 by lia.
  replace (Z.pos (digits2_pos my)) with 53 by lia.
  change (fexp 53 1024) with fexp64.
  rewrite fexp64_normal by lia.
  replace (Z.min (53 + ex - (53 + ey) - 53) (ex - ey)) with (ex - ey - 53) by lia.
  replace (ex - ey - (ex - ey - 53)) with 53 by lia.
  rewrite Z.shiftl_mul_pow2 by lia.
  set (N := Z.pos mx * 2 ^ 53).
  pose proof (Z_div_mod N (Z.pos my) ltac:(lia)) as Hdiv.
  destruct (Z.div_eucl N (Z.pos my)) as [q r]. destruct Hdiv as [HN Hr].
  change (2 ^ 53) with 9007199254740992 in *.
  change (2 ^ 52) with 4503599627370496 in *.
  assert (4503599627370496 <= q < 4 * 4503599627370496) as Hq by (unfold N in HN; nia).
  destruct q as [|q|q]; try lia.
  pose proof (digits2_pos_bounds q 52 54 ltac:(lia) Hq) as Hdq.
  assert (shr_inv N (Z.pos my)
            (shr_record_of_loc (Z.pos q) (new_location (Z.pos my) r))) as Hinv.
  { replace N with (Z.pos q * Z.pos my + r) by lia.
    apply new_location_inv; lia. }
  destruct (round_loc false q (ex - ey - 53) _ N (Z.pos my) ltac:(lia) Hinv)
    as (m & e & Hres & He' & Hm & Hv1 & Hv2); try lia.
  exists m, e. split; [done|]. split; [done|]. split; [lia|].
  assert (inject_Z N * 2 ^ (ex - ey - 53) * 2 ^ ey == fval mx ex)%Q as HNv.
  { unfold N, fval. rewrite inject_Z_mult.
    change (inject_Z 9007199254740992) with (2 ^ 53)%Q.
    rewrite <- !Qmult_assoc, <- !two_pow_add.
    replace (53 + (ex - ey - 53 + ey)) with ex by lia. reflexivity. }
  pose proof (two_pow_pos ey) as Hp.
  assert (fval m e * fval my ey == fval m e * inject_Z (Z.pos my) * 2 ^ ey)%Q as ->
    by (unfold fval; ring).
  rewrite <- HNv.
  set (V := (fval m e * inject_Z (Z.pos my))%Q) in *.
  set (W := (inject_Z N * 2 ^ (ex - ey - 53))%Q) in *.
  set (P := (2 ^ ey)%Q) in *.
  split.
  - apply (Qmult_le_compat_r _ _ P) in Hv1; [|by apply Qlt_le_weak]. lra.
  - apply (Qmult_le_compat_r _ _ P) in Hv2; [|by apply Qlt_le_weak]. lra.
Qed.

Lemma b64_div17_normal (d : Z) :
  1 <= d <= 65535 ->
  exists v,
    normal 70 (SFdiv 53 1024 (b64_of_int 17) (b64_of_int d)) v /\
    ((1 - eps) * 17 <= v * inject_Z d /\ v * inject_Z d <= (1 + eps) * 17)%Q.
Proof.
  intros Hd.
  destruct (b64_of_int_u16 17 ltac:(lia)) as (mx & ex & -> & Hmx & Hex & Hvx).
  destruct (b64_of_int_u16 d Hd) as (my & ey & -> & Hmy & Hey & Hvy).
  destruct (SFdiv_finite mx my ex ey Hmx Hmy ltac:(lia))
    as (m & e & Hres & Hm & He & Hv).
  exists (fval m e). split.
  - exists m, e. repeat split; try done; lia.
  - change 17%Q with (inject_Z 17). by rewrite Hvx, Hvy.
Qed.

(** *** Non-negative numbers *)

Lemma normal_weaken b b' x v : b <= b' -> normal b x v -> normal b' x v.
Proof.
  intros Hb (m & e & -> & Hm & He & Hv). exists m, e. repeat split; try lia. done.
Qed.

Lemma normal_pos b x v : normal b x v -> (0 < v)%Q.
Proof. intros (m & e & -> & _ & _ & ->). apply fval_pos. Qed.

Lemma nonneg_float_weaken b b' x v :
  b <= b' -> nonneg_float b x v -> nonneg_float b' x v.
Proof. intros Hb [H|H]; [by left|right; by eapply normal_weaken]. Qed.

Lemma nonneg_num_weaken b b' m v :
  b <= b' -> nonneg_num b m v -> nonneg_num b' m v.
Proof.
  intros Hb [H|(x & -> & H)]; [by left|right].
  exists x. split; [done|]. by eapply nonneg_float_weaken.
Qed.

Lemma nonneg_float_nonneg b x v : nonneg_float b x v -> (0 <= v)%Q.
Proof.
  intros [[_ ->]|H]; [apply Qle_refl|]. apply Qlt_le_weak. by eapply normal_pos.
Qed.

Lemma nonneg_num_nonneg b m v : nonneg_num b m v -> (0 <= v)%Q.
Proof.
  intros [[_ ->]|(x & _ & H)]; [apply Qle_refl|]. by eapply nonneg_float_nonneg.
Qed.

Lemma nonneg_num_denotes b m v : nonneg_num b m v -> denotes m v.
Proof.
  intros [[-> Hv]|(x & -> & [[-> Hv]|(m' & e' & -> & _ & _ & Hv)])]; cbn.
  - by symmetry.
  - by symmetry.
  - by symmetry.
Qed.

Lemma SFadd_nonneg_wide b1 b2 x y vx vy :
  0 <= b1 <= 900 -> 0 <= b2 <= 900 ->
  nonneg_float b1 x vx -> nonneg_float b2 y vy ->
  exists v, nonneg_float (Z.max b1 b2 + 2) (SFadd 53 1024 x y) v /\
            ((1 - eps) * (vx + vy) <= v /\ v <= (1 + eps) * (vx + vy))%Q.
Proof.
  intros Hb1 Hb2 [[-> Hx]|Hx] [[-> Hy]|Hy].
  - exists 0%Q. split; [by left|]. rewrite Hx, Hy. unfold eps. split; lra.
  - exists vy. pose proof (normal_pos _ _ _ Hy) as Hpos. split.
    + right. destruct Hy as (m & e & -> & Hm & He & Hv). cbn.
      exists m, e. repeat split; try lia. done.
    + rewrite Hx. unfold eps. split; lra.
  - exists vx. pose proof (normal_pos _ _ _ Hx) as Hpos. split.
    + right. destruct Hx as (m & e & -> & Hm & He & Hv). cbn.
      exists m, e. repeat split; try lia. done.
    + rewrite Hy. unfold eps. split; lra.
  - destruct (SFadd_normal_wide b1 b2 x y vx vy) as (v & Hv & Hlo & Hhi); try done.
    exists v. split; [by right|done].
Qed.

Lemma SFadd_nonneg b1 b2 x y vx vy :
  0 <= b1 -> 0 <= b2 -> b1 + b2 <= 400 ->
  nonneg_float b1 x vx -> nonneg_float b2 y vy ->
  exists v, nonneg_float (Z.max b1 b2 + 2) (SFadd 53 1024 x y) v /\
            ((1 - eps) * (vx + vy) <= v /\ v <= (1 + eps) * (vx + vy))%Q.
Proof. intros Hb1 Hb2 Hb. apply SFadd_nonneg_wide; lia. Qed.

Lemma num_add_nonneg_wide b1 b2 (m1 m2 : num spec_float) v1 v2 :
  0 <= b1 <= 900 -> 0 <= b2 <= 900 ->
  nonneg_num b1 m1 v1 -> nonneg_num b2 m2 v2 ->
  exists v, nonneg_num (Z.max b1 b2 + 2) (num_add m1 m2) v /\
            ((1 - eps) * (v1 + v2) <= v /\ v <= (1 + eps) * (v1 + v2))%Q.
Proof.
  intros Hb1 Hb2 [[-> H1]|(x1 & -> & H1)] [[-> H2]|(x2 & -> & H2)].
  - exists 0%Q. split; [by left|]. rewrite H1, H2. unfold eps. split; lra.
  - destruct (SFadd_nonneg_wide b1 b2 (S754_zero false) x2 0 v2) as (v & Hv & Hlo & Hhi);
      try done; [by left|].
    exists v. split; [right; by eexists|]. by rewrite H1.
  - destruct (SFadd_nonneg_wide b1 b2 x1 (S754_zero false) v1 0) as (v & Hv & Hlo & Hhi);
      try done; [by left|].
    exists v. split; [right; by eexists|]. by rewrite H2.
  - destruct (SFadd_nonneg_wide b1 b2 x1 x2 v1 v2) as (v & Hv & Hlo & Hhi); try done.
    exists v. split; [right; by eexists|done].
Qed.

Lemma num_add_nonneg b1 b2 (m1 m2 : num spec_float) v1 v2 :
  0 <= b1 -> 0 <= b2 -> b1 + b2 <= 400 ->
  nonneg_num b1 m1 v1 -> nonneg_num b2 m2 v2 ->
  exists v, nonneg_num (Z.max b1 b2 + 2) (num_add m1 m2) v /\
            ((1 - eps) * (v1 + v2) <= v /\ v <= (1 + eps) * (v1 + v2))%Q.
Proof. intros Hb1 Hb2 Hb. apply num_add_nonneg_wide; lia. Qed.

Section Binary64Axis.
#[local] Open Scope Q_scope.

Lemma eps_pos : 0 < eps.
Proof. reflexivity. Qed.

(** From the bound on [17/d] to the bound on [a * (17/d)]. *)
Lemma scale_bounds (QA QD vc : Q) :
  0 < QD -> 0 <= QA ->
  (1 - eps) * 17 <= vc * QD -> vc * QD <= (1 + eps) * 17 ->
  (1 - eps) * (QA * 17 / QD) <= QA * vc /\
  QA * vc <= (1 + eps) * (QA * 17 / QD).
Proof.
  intros HD HA Hlo Hhi.
  assert (~ QD == 0) as HD0 by (intros E; rewrite E in HD; discriminate).
  assert ((1 - eps) * (17 / QD) <= vc) as H1.
  { apply (Qmult_le_r _ _ QD HD).
    assert ((1 - eps) * (17 / QD) * QD == (1 - eps) * 17) as -> by (field; done).
    done. }
  assert (vc <= (1 + eps) * (17 / QD)) as H2.
  { apply (Qmult_le_r _ _ QD HD).
    assert ((1 + eps) * (17 / QD) * QD == (1 + eps) * 17) as -> by (field; done).
    done. }
  apply (Qmult_le_compat_r _ _ QA) in H1; [|done].
  apply (Qmult_le_compat_r _ _ QA) in H2; [|done].
  assert ((1 - eps) * (QA * 17 / QD) == (1 - eps) * (17 / QD) * QA) as ->
    by (field; done).
  assert ((1 + eps) * (QA * 17 / QD) == (1 + eps) * (17 / QD) * QA) as ->
    by (field; done).
  assert (QA * vc == vc * QA) as -> by ring.
  done.
Qed.

Lemma inject_Z_pos (a : Z) : (0 < a)%Z -> 0 < inject_Z a.
Proof. intros Ha. change 0 with (inject_Z 0). by rewrite <- Zlt_Qlt. Qed.

Lemma inject_Z_nonneg (a : Z) : (0 <= a)%Z -> 0 <= inject_Z a.
Proof. intros Ha. change 0 with (inject_Z 0). by rewrite <- Zle_Qle. Qed.

(** The lower formula in binary64: within two roundings of the exact
    value. *)
Lemma mass_low_binary64 (zero half point : Z) :
  (0 <= zero)%Z -> (zero <= point)%Z -> (point < half)%Z -> (half <= 65535)%Z ->
  exists (m : num spec_float) (v : Q),
    mass_low zero half point = Ok m /\ nonneg_num 176 m v /\
    (1 - eps) * (1 - eps) * (inject_Z (point - zero) * 17 / inject_Z (half - zero))
    <= v /\
    v <= (1 + eps) * (1 + eps)
         * (inject_Z (point - zero) * 17 / inject_Z (half - zero)).
Proof.
  intros Hz Hp Hh Hmax. unfold mass_low.
  rewrite int_truediv_ok by lia. cbn [mbind result_bind num_mul to_float].
  change (float_of_int (point - zero)) with (b64_of_int (point - zero)).
  change (float_div (float_of_int 17) (float_of_int (half - zero)))
    with (SFdiv 53 1024 (b64_of_int 17) (b64_of_int (half - zero))).
  change (@float_mul spec_float binary64) with (SFmul 53 1024).
  destruct (b64_div17_normal (half - zero)) as (vc & Hc & Hclo & Hchi); [lia|].
  set (c := SFdiv 53 1024 _ _) in *.
  destruct (Z.eq_dec point zero) as [->|Hne].
  - (* a = 0 *)
    rewrite Z.sub_diag. destruct Hc as (mc & ec & -> & _).
    eexists _, 0. split; [reflexivity|].
    split; [right; eexists; split; [reflexivity|by left]|].
    assert (inject_Z 0 * 17 / inject_Z (half - zero) == 0) as ->
      by (unfold Qeq, Qdiv, Qmult; simpl; lia).
    split; lra.
  - destruct (SFmul_normal 52 70 (b64_of_int (point - zero)) c
                (inject_Z (point - zero)) vc) as (v & Hv & Hvlo & Hvhi);
      try lia; [apply b64_of_int_normal; lia|done|].
    destruct (scale_bounds (inject_Z (point - zero)) (inject_Z (half - zero)) vc)
      as [Hy1 Hy2]; try done.
    { apply inject_Z_pos. lia. }
    { apply inject_Z_nonneg. lia. }
    exists (Float (SFmul 53 1024 (b64_of_int (point - zero)) c)), v.
    split; [reflexivity|]. split.
    { right. eexists. split; [reflexivity|]. right. exact Hv. }
    set (A := inject_Z (point - zero) * 17 / inject_Z (half - zero)) in *.
    set (Y := inject_Z (point - zero) * vc) in *.
    pose proof eps_pos. unfold eps in *. split; lra.
Qed.

(** The upper formula in binary64: three roundings. *)
Lemma mass_high_binary64 (half full point : Z) :
  (0 <= half)%Z -> (half <= point)%Z -> (point <= 65535)%Z ->
  (half < full)%Z -> (full <= 65535)%Z ->
  exists (m : num spec_float) (v : Q),
    mass_high half full point = Ok m /\ nonneg_num 178 m v /\
    (1 - eps) * ((1 - eps) * (1 - eps)
                 * (inject_Z (point - half) * 17 / inject_Z (full - half)) + 17)
    <= v /\
    v <= (1 + eps) * ((1 + eps) * (1 + eps)
                      * (inject_Z (point - half) * 17 / inject_Z (full - half)) + 17) /\
    (point = half -> m = Float (b64_of_int 17)).
Proof.
  intros Hh Hp Hmax Hf Hfmax. unfold mass_high.
  rewrite int_truediv_ok by lia. cbn [mbind result_bind num_mul num_add to_float].
  change (float_of_int (point - half)) with (b64_of_int (point - half)).
  change (float_of_int 17) with (b64_of_int 17).
  change (float_div (b64_of_int 17) (float_of_int (full - half)))
    with (SFdiv 53 1024 (b64_of_int 17) (b64_of_int (full - half))).
  change (@float_mul spec_float binary64) with (SFmul 53 1024).
  change (@float_add spec_float binary64) with (SFadd 53 1024).
  destruct (b64_div17_normal (full - half)) as (vc & Hc & Hclo & Hchi); [lia|].
  set (c := SFdiv 53 1024 _ _) in *.
  destruct (Z.eq_dec point half) as [->|Hne].
  - (* a = 0 *)
    rewrite Z.sub_diag. destruct Hc as (mc & ec & -> & _).
    eexists _, 17. split; [reflexivity|]. split.
    { right. eexists. split; [reflexivity|]. right. cbn [SFmul SFadd].
      eapply normal_weaken; [|apply (b64_of_int_normal 17); lia]. lia. }
    assert (inject_Z 0 * 17 / inject_Z (full - half) == 0) as ->
      by (unfold Qeq, Qdiv, Qmult; simpl; lia).
    pose proof eps_pos. unfold eps in *. repeat split; try lra.
  - destruct (SFmul_normal 52 70 (b64_of_int (point - half)) c
                (inject_Z (point - half)) vc) as (vy & Hy & Hylo & Hyhi);
      try lia; [apply b64_of_int_normal; lia|done|].
    destruct (scale_bounds (inject_Z (point - half)) (inject_Z (full - half)) vc)
      as [Hy1 Hy2]; try done.
    { apply inject_Z_pos. lia. }
    { apply inject_Z_nonneg. lia. }
    destruct (SFadd_normal 176 52 (SFmul 53 1024 (b64_of_int (point - half)) c)
                (b64_of_int 17) vy 17) as (v & Hv & Hvlo & Hvhi);
      try lia; [done|apply (b64_of_int_normal 17); lia|].
    eexists _, v. split; [reflexivity|]. split.
    { right. eexists. split; [reflexivity|]. right. exact Hv. }
    set (A := inject_Z (point - half) * 17 / inject_Z (full - half)) in *.
    set (Y := inject_Z (point - half) * vc) in *.
    pose proof eps_pos. unfold eps in *. repeat split; try lra. done.
Qed.

(** Facts about the exact scaled values. *)
Lemma exact_step (a b d : Z) :
  (0 < d)%Z -> (a < b)%Z ->
  inject_Z a * 17 / inject_Z d + 17 / inject_Z d <= inject_Z b * 17 / inject_Z d.
Proof.
  intros Hd Hab. destruct d as [|d|d]; try lia.
  unfold Qle, Qdiv, Qmult, Qplus, Qinv, inject_Z. simpl. nia.
Qed.

Lemma exact_below (a d : Z) :
  (0 < d)%Z -> (a < d)%Z ->
  inject_Z a * 17 / inject_Z d + 17 / inject_Z d <= 17.
Proof.
  intros Hd Hab. destruct d as [|d|d]; try lia.
  unfold Qle, Qdiv, Qmult, Qplus, Qinv, inject_Z. simpl. nia.
Qed.

Lemma exact_slope_min (d : Z) :
  (0 < d)%Z -> (d <= 65535)%Z -> 17 # 65535 <= 17 / inject_Z d.
Proof.
  intros Hd Hmax. destruct d as [|d|d]; try lia.
  unfold Qle, Qdiv, Qmult, Qinv, inject_Z. simpl. nia.
Qed.

Lemma exact_at_most (a d : Z) :
  (0 < d)%Z -> (0 <= a)%Z -> (a <= 65535)%Z ->
  inject_Z a * 17 / inject_Z d <= 65535 * (17 / inject_Z d).
Proof.
  intros Hd Ha Hmax. destruct d as [|d|d]; try lia.
  unfold Qle, Qdiv, Qmult, Qinv, inject_Z. simpl. nia.
Qed.

(** What [axis_mass] returns in binary64, with the rounding bounds of
    the branch taken. *)
Lemma axis_mass_binary64 (zero half full point : Z) :
  (0 <= zero)%Z -> (zero < half)%Z -> (half < full)%Z -> (full <= 65535)%Z ->
  (0 <= point)%Z -> (point <= 65535)%Z ->
  exists (m : num spec_float) (v : Q),
    axis_mass zero half full point = Ok m /\ nonneg_num 178 m v /\
    (((point < zero)%Z /\ m = Int 0 /\ v == 0) \/
     ((zero <= point)%Z /\ (point < half)%Z /\
      (1 - eps) * (1 - eps)
      * (inject_Z (point - zero) * 17 / inject_Z (half - zero)) <= v /\
      v <= (1 + eps) * (1 + eps)
           * (inject_Z (point - zero) * 17 / inject_Z (half - zero))) \/
     ((half <= point)%Z /\
      (1 - eps) * ((1 - eps) * (1 - eps)
                   * (inject_Z (point - half) * 17 / inject_Z (full - half)) + 17)
      <= v /\
      v <= (1 + eps) * ((1 + eps) * (1 + eps)
                        * (inject_Z (point - half) * 17 / inject_Z (full - half))
                        + 17))).
Proof.
  intros Hz Hzh Hhf Hf Hp Hpmax. unfold axis_mass.
  destruct (Z.ltb_spec point zero).
  - exists (Int 0), 0. split; [done|]. split; [by left|]. left. done.
  - destruct (Z.leb_spec zero point); [|lia].
    destruct (Z.ltb_spec point half); cbn [andb].
    + destruct (mass_low_binary64 zero half point) as (m & v & Hm & Hd & Hlo & Hhi);
        try lia.
      exists m, v. split; [done|].
      split; [by apply (nonneg_num_weaken 176)|]. right. left. done.
    + destruct (mass_high_binary64 half full point)
        as (m & v & Hm & Hd & Hlo & Hhi & _); try lia.
      exists m, v. split; [done|]. split; [done|]. right. right. done.
Qed.

Lemma spec_axis_mass_nonneg (zero half full point : Z) :
  (zero < half)%Z -> (half < full)%Z -> 0 <= spec_axis_mass zero half full point.
Proof.
  intros Hzh Hhf. unfold spec_axis_mass.
  destruct (Z.ltb_spec point zero); [apply Qle_refl|].
  destruct (Z.leb_spec zero point); [|lia].
  destruct (Z.ltb_spec point half); cbn [andb].
  - apply scaled_nonneg; lia.
  - pose proof (scaled_nonneg (point - half) (full - half)) as Hs.
    generalize dependent (inject_Z (point - half) * 17 / inject_Z (full - half)).
    intros x Hx. assert (0 <= x) by (apply Hx; lia). lra.
Qed.

(** In binary64 each axis mass is the spec's value up to a relative
    error of [4 * eps] (three roundings at most). *)
Lemma axis_mass_binary64_accurate (zero half full point : Z) :
  (0 <= zero)%Z -> (zero < half)%Z -> (half < full)%Z -> (full <= 65535)%Z ->
  (0 <= point)%Z -> (point <= 65535)%Z ->
  exists (m : num spec_float) (v : Q),
    axis_mass zero half full point = Ok m /\ nonneg_num 178 m v /\
    Qabs (v - spec_axis_mass zero half full point)
    <= 4 * eps * spec_axis_mass zero half full point.
Proof.
  intros Hz Hzh Hhf Hf Hp Hpmax.
  destruct (axis_mass_binary64 zero half full point)
    as (m & v & Hm & Hd & Hcase); try done.
  exists m, v. split; [done|]. split; [done|].
  apply Qabs_Qle_condition.
  pose proof (spec_axis_mass_nonneg zero half full point Hzh Hhf) as Hnn.
  unfold spec_axis_mass in *.
  destruct Hcase as [(H1 & _ & Hv)|[(H1 & H2 & Hlo & Hhi)|(H1 & Hlo & Hhi)]].
  - destruct (Z.ltb_spec point zero); [|lia]. rewrite Hv. unfold eps. split; lra.
  - destruct (Z.ltb_spec point zero); [lia|].
    destruct (Z.leb_spec zero point); [|lia].
    destruct (Z.ltb_spec point half); [|lia]. cbn [andb] in *.
    set (A := inject_Z (point - zero) * 17 / inject_Z (half - zero)) in *.
    unfold eps in *. split; lra.
  - destruct (Z.ltb_spec point zero); [lia|].
    destruct (Z.ltb_spec point half); [lia|]. rewrite andb_false_r in *.
    pose proof (scaled_nonneg (point - half) (full - half) ltac:(lia) ltac:(lia)).
    set (A := inject_Z (point - half) * 17 / inject_Z (full - half)) in *.
    unfold eps in *. split; lra.
Qed.

(** In binary64 the mass is exactly 17.0 at [half] and exactly 0.0 at
    [zero]. *)
Lemma axis_mass_binary64_breakpoints (zero half full : Z) :
  (0 <= zero)%Z -> (zero < half)%Z -> (half < full)%Z -> (full <= 65535)%Z ->
  axis_mass zero half full half = Ok (Float (b64_of_int 17)) /\
  axis_mass zero half full zero = Ok (Float (S754_zero false)).
Proof.
  intros Hz Hzh Hhf Hf. unfold axis_mass. split.
  - destruct (Z.ltb_spec half zero); [lia|].
    destruct (Z.ltb_spec half half); [lia|]. rewrite andb_false_r.
    destruct (mass_high_binary64 half full half)
      as (m & v & Hm & _ & _ & _ & Heq); try lia.
    by rewrite Hm, Heq.
  - destruct (Z.ltb_spec zero zero); [lia|].
    destruct (Z.leb_spec zero zero); [|lia].
    destruct (Z.ltb_spec zero half); [|lia]. cbn [andb].
    unfold mass_low. rewrite int_truediv_ok by lia.
    cbn [mbind result_bind num_mul to_float]. rewrite Z.sub_diag.
    destruct (b64_div17_normal (half - zero)) as (vc & Hc & _); [lia|].
    change (float_div (float_of_int 17) (float_of_int (half - zero)))
      with (SFdiv 53 1024 (b64_of_int 17) (b64_of_int (half - zero))).
    destruct Hc as (mc & ec & -> & _). reflexivity.
Qed.

(** In binary64 the mass never decreases when the reading grows. *)
Lemma axis_mass_binary64_monotone (zero half full p q : Z) :
  (0 <= zero)%Z -> (zero < half)%Z -> (half < full)%Z -> (full <= 65535)%Z ->
  (0 <= p)%Z -> (p <= q)%Z -> (q <= 65535)%Z ->
  exists (mp mq : num spec_float) (vp vq : Q),
    axis_mass zero half full p = Ok mp /\ axis_mass zero half full q = Ok mq /\
    denotes mp vp /\ denotes mq vq /\ vp <= vq.
Proof.
  intros Hz Hzh Hhf Hf Hp Hpq Hq.
  destruct (Z.eq_dec p q) as [->|Hne].
  { destruct (axis_mass_binary64 zero half full q) as (m & v & Hm & Hd & _);
      try lia.
    exists m, m, v, v. repeat split; try done;
      try (by eapply nonneg_num_denotes). apply Qle_refl. }
  destruct (axis_mass_binary64 zero half full p) as (mp & vp & Hmp & Hdp & Hcp);
    try lia.
  destruct (axis_mass_binary64 zero half full q) as (mq & vq & Hmq & Hdq & Hcq);
    try lia.
  exists mp, mq, vp, vq. repeat split; try done;
    try (by eapply nonneg_num_denotes).
  pose proof eps_pos as Heps.
  destruct Hcp as [(P1 & _ & Pv)|[(P1 & P2 & Plo & Phi)|(P1 & Plo & Phi)]];
    destruct Hcq as [(Q1 & _ & Qv)|[(Q1 & Q2 & Qlo & Qhi)|(Q1 & Qlo & Qhi)]];
    try lia.
  - (* both below zero *) rewrite Pv, Qv. apply Qle_refl.
  - (* below zero, then lower branch *)
    pose proof (scaled_nonneg (q - zero) (half - zero) ltac:(lia) ltac:(lia)).
    set (B := inject_Z (q - zero) * 17 / inject_Z (half - zero)) in *.
    rewrite Pv. unfold eps in *. lra.
  - (* below zero, then upper branch *)
    pose proof (scaled_nonneg (q - half) (full - half) ltac:(lia) ltac:(lia)).
    set (B := inject_Z (q - half) * 17 / inject_Z (full - half)) in *.
    rewrite Pv. unfold eps in *. lra.
  - (* both in the lower branch *)
    pose proof (exact_step (p - zero) (q - zero) (half - zero) ltac:(lia) ltac:(lia)).
    pose proof (exact_at_most (p - zero) (half - zero) ltac:(lia) ltac:(lia) ltac:(lia)).
    pose proof (exact_slope_min (half - zero) ltac:(lia) ltac:(lia)).
    set (A := inject_Z (p - zero) * 17 / inject_Z (half - zero)) in *.
    set (B := inject_Z (q - zero) * 17 / inject_Z (half - zero)) in *.
    set (t := 17 / inject_Z (half - zero)) in *.
    unfold eps in *. lra.
  - (* lower branch, then upper branch *)
    pose proof (exact_below (p - zero) (half - zero) ltac:(lia) ltac:(lia)).
    pose proof (exact_slope_min (half - zero) ltac:(lia) ltac:(lia)).
    pose proof (scaled_nonneg (q - half) (full - half) ltac:(lia) ltac:(lia)).
    set (A := inject_Z (p - zero) * 17 / inject_Z (half - zero)) in *.
    set (B := inject_Z (q - half) * 17 / inject_Z (full - half)) in *.
    set (t := 17 / inject_Z (half - zero)) in *.
    unfold eps in *. lra.
  - (* both in the upper branch *)
    pose proof (exact_step (p - half) (q - half) (full - half) ltac:(lia) ltac:(lia)).
    pose proof (exact_at_most (p - half) (full - half) ltac:(lia) ltac:(lia) ltac:(lia)).
    pose proof (exact_slope_min (full - half) ltac:(lia) ltac:(lia)).
    set (A := inject_Z (p - half) * 17 / inject_Z (full - half)) in *.
    set (B := inject_Z (q - half) * 17 / inject_Z (full - half)) in *.
    set (t := 17 / inject_Z (full - half)) in *.
    unfold eps in *. lra.
Qed.
(** The lower formula itself, evaluated at point = half, is 17 up to
    one rounding only: with the span 543 it gives [17 + 2^-48].
    [axis_mass] takes the upper formula at point = half. *)
Lemma mass_low_at_half_rounds :
  exists x : spec_float,
    mass_low 0 543 543 = Ok (Float x) /\
    denotes (Float x) (17 + (1 # 281474976710656)).
Proof. eexists. split; [vm_compute; reflexivity|vm_compute; done]. Qed.

End Binary64Axis.

Lemma word_at_range (cal : list byte) (off : nat) : 0 <= word_at cal off <= 65535.
Proof.
  unfold word_at, be16_at.
  destruct (cal !! off) as [hi|]; cbn; [|lia].
  destruct (cal !! S off) as [lo|]; cbn; [|lia].
  pose proof (byte_val_range hi). pose proof (byte_val_range lo). lia.
Qed.

Section Binary64Session.
#[local] Open Scope Q_scope.

Lemma calculate_mass_binary64 (cal : list byte) (p0 p1 p2 p3 : Z) :
  (24 <= length cal)%nat ->
  axis_ordered cal 0 -> axis_ordered cal 1 ->
  axis_ordered cal 2 -> axis_ordered cal 3 ->
  u16 p0 -> u16 p1 -> u16 p2 -> u16 p3 ->
  exists m0 m1 m2 m3 : num spec_float,
    (forall s : BalanceBoard spec_float,
       calibration_data s = cal -> sensor_data s = [p0; p1; p2; p3] ->
       length (mass s) = 4%nat ->
       calculate_mass s
       = Continue (set_total_mass (py_sum [m0; m1; m2; m3])
                                  (set_mass [m0; m1; m2; m3] s))) /\
    approximates m0 (spec_mass cal 0 p0) (4 * eps) /\
    approximates m1 (spec_mass cal 1 p1) (4 * eps) /\
    approximates m2 (spec_mass cal 2 p2) (4 * eps) /\
    approximates m3 (spec_mass cal 3 p3) (4 * eps) /\
    approximates (py_sum [m0; m1; m2; m3])
      (spec_mass cal 0 p0 + spec_mass cal 1 p1
       + spec_mass cal 2 p2 + spec_mass cal 3 p3) (16 * eps).
Proof.
  intros Hlen O0 O1 O2 O3 U0 U1 U2 U3. unfold axis_ordered, u16 in *.
  pose proof (word_at_range cal (2 * 0)). pose proof (word_at_range cal (2 * 0 + 16)).
  pose proof (word_at_range cal (2 * 1)). pose proof (word_at_range cal (2 * 1 + 16)).
  pose proof (word_at_range cal (2 * 2)). pose proof (word_at_range cal (2 * 2 + 16)).
  pose proof (word_at_range cal (2 * 3)). pose proof (word_at_range cal (2 * 3 + 16)).
  destruct (axis_mass_binary64_accurate
              (word_at cal (2 * 0)) (word_at cal (2 * 0 + 8))
              (word_at cal (2 * 0 + 16)) p0) as (m0 & v0 & M0 & N0 & A0); try lia.
  destruct (axis_mass_binary64_accurate
              (word_at cal (2 * 1)) (word_at cal (2 * 1 + 8))
              (word_at cal (2 * 1 + 16)) p1) as (m1 & v1 & M1 & N1 & A1); try lia.
  destruct (axis_mass_binary64_accurate
              (word_at cal (2 * 2)) (word_at cal (2 * 2 + 8))
              (word_at cal (2 * 2 + 16)) p2) as (m2 & v2 & M2 & N2 & A2); try lia.
  destruct (axis_mass_binary64_accurate
              (word_at cal (2 * 3)) (word_at cal (2 * 3 + 8))
              (word_at cal (2 * 3 + 16)) p3) as (m3 & v3 & M3 & N3 & A3); try lia.
  exists m0, m1, m2, m3.
  split; [|split; [|split; [|split; [|split]]]].
  - intros s <- Hp Hm.
    eapply calculate_mass_four; try done;
      by apply axis_calibration_ok; [|lia].
  - exists v0. split; [by eapply nonneg_num_denotes|done].
  - exists v1. split; [by eapply nonneg_num_denotes|done].
  - exists v2. split; [by eapply nonneg_num_denotes|done].
  - exists v3. split; [by eapply nonneg_num_denotes|done].
  - unfold py_sum. cbn [fold_left].
    destruct (num_add_nonneg 0 178 (Int 0) m0 0 v0) as (s0 & S0 & Lo0 & Hi0);
      try lia; [by left|done|].
    apply (nonneg_num_weaken _ 180) in S0; [|lia].
    destruct (num_add_nonneg 180 178 _ m1 s0 v1 ltac:(lia) ltac:(lia) ltac:(lia) S0 N1)
      as (s1 & S1 & Lo1 & Hi1).
    apply (nonneg_num_weaken _ 182) in S1; [|lia].
    destruct (num_add_nonneg 182 178 _ m2 s1 v2 ltac:(lia) ltac:(lia) ltac:(lia) S1 N2)
      as (s2 & S2 & Lo2 & Hi2).
    apply (nonneg_num_weaken _ 184) in S2; [|lia].
    destruct (num_add_nonneg 184 178 _ m3 s2 v3 ltac:(lia) ltac:(lia) ltac:(lia) S2 N3)
      as (s3 & S3 & Lo3 & Hi3).
    exists s3. split; [by eapply nonneg_num_denotes|].
    apply Qabs_Qle_condition in A0, A1, A2, A3. apply Qabs_Qle_condition.
    unfold spec_mass in *.
    pose proof (spec_axis_mass_nonneg (word_at cal (2 * 0)) (word_at cal (2 * 0 + 8))
                  (word_at cal (2 * 0 + 16)) p0 ltac:(lia) ltac:(lia)).
    pose proof (spec_axis_mass_nonneg (word_at cal (2 * 1)) (word_at cal (2 * 1 + 8))
                  (word_at cal (2 * 1 + 16)) p1 ltac:(lia) ltac:(lia)).
    pose proof (spec_axis_mass_nonneg (word_at cal (2 * 2)) (word_at cal (2 * 2 + 8))
                  (word_at cal (2 * 2 + 16)) p2 ltac:(lia) ltac:(lia)).
    pose proof (spec_axis_mass_nonneg (word_at cal (2 * 3)) (word_at cal (2 * 3 + 8))
                  (word_at cal (2 * 3 + 16)) p3 ltac:(lia) ltac:(lia)).
    set (q0 := spec_axis_mass _ _ _ p0) in *.
    set (q1 := spec_axis_mass _ _ _ p1) in *.
    set (q2 := spec_axis_mass _ _ _ p2) in *.
    set (q3 := spec_axis_mass _ _ _ p3) in *.
    unfold eps in *. split; lra.
Qed.

End Binary64Session.

(** ** The mass calculator against the specification *)

Section MassTheorems.
#[local] Open Scope Q_scope.

(** C1, as the code has it. With a complete calibration block [cal]
    and four readings, none of which selects a formula with a zero
    divisor, [calculate_mass] completes, and what it stores depends on
    the readings and the block only: the masses [m0..m3] and their
    left-to-right sum.

    In exact arithmetic [mi] is the spec's formula on the big-endian
    words at bytes [2i], [2i + 8] and [2i + 16] of the block and the
    total is the sum of the four. In binary64, for 16-bit readings and
    zero < half < full on every axis, each mass is the spec's formula
    within the relative error [4 * eps] and the total is the sum of the
    four within [16 * eps]. With zero = 100, half = 200, full = 300 the
    readings 150, 250 and 50 give 8.5, 25.5 and 0, in exact arithmetic
    and in binary64, and a session calibrated so turns the readings
    150, 250, 50, 150 into the masses 8.5, 25.5, 0, 8.5 with total 42.5.

    In any arithmetic, binary64 included, [mi] is what the code's
    expression gives on these words: the integer 0 below zero,
    [(point - zero) * (17 / (half - zero))] from zero up to half and
    [(point - half) * (17 / (full - half)) + 17] from there on, the
    quotient taken first and every operation rounded. *)
Theorem calculate_mass_spec :
  (forall (cal : list byte) (p0 p1 p2 p3 : Z),
     (24 <= length cal)%nat ->
     axis_degenerate cal 0 p0 = false -> axis_degenerate cal 1 p1 = false ->
     axis_degenerate cal 2 p2 = false -> axis_degenerate cal 3 p3 = false ->
     exists m0 m1 m2 m3 : num Q,
       (forall s : BalanceBoard Q,
          calibration_data s = cal -> sensor_data s = [p0; p1; p2; p3] ->
          length (mass s) = 4%nat ->
          calculate_mass s
          = Continue (set_total_mass (py_sum [m0; m1; m2; m3])
                                     (set_mass [m0; m1; m2; m3] s))) /\
       (to_float m0 == spec_mass cal 0 p0 /\ to_float m1 == spec_mass cal 1 p1 /\
        to_float m2 == spec_mass cal 2 p2 /\ to_float m3 == spec_mass cal 3 p3) /\
       to_float (py_sum [m0; m1; m2; m3])
       == spec_mass cal 0 p0 + spec_mass cal 1 p1
          + spec_mass cal 2 p2 + spec_mass cal 3 p3) /\
  (forall (cal : list byte) (p0 p1 p2 p3 : Z),
     (24 <= length cal)%nat ->
     axis_ordered cal 0 -> axis_ordered cal 1 ->
     axis_ordered cal 2 -> axis_ordered cal 3 ->
     u16 p0 -> u16 p1 -> u16 p2 -> u16 p3 ->
     exists m0 m1 m2 m3 : num spec_float,
       (forall s : BalanceBoard spec_float,
          calibration_data s = cal -> sensor_data s = [p0; p1; p2; p3] ->
          length (mass s) = 4%nat ->
          calculate_mass s
          = Continue (set_total_mass (py_sum [m0; m1; m2; m3])
                                     (set_mass [m0; m1; m2; m3] s))) /\
       approximates m0 (spec_mass cal 0 p0) (4 * eps) /\
       approximates m1 (spec_mass cal 1 p1) (4 * eps) /\
       approximates m2 (spec_mass cal 2 p2) (4 * eps) /\
       approximates m3 (spec_mass cal 3 p3) (4 * eps) /\
       approximates (py_sum [m0; m1; m2; m3])
         (spec_mass cal 0 p0 + spec_mass cal 1 p1
          + spec_mass cal 2 p2 + spec_mass cal 3 p3) (16 * eps)) /\
  (spec_axis_mass 100 200 300 150 == 17 # 2 /\
   spec_axis_mass 100 200 300 250 == 51 # 2 /\
   spec_axis_mass 100 200 300 50 == 0) /\
  (exists a b : num spec_float,
     axis_mass 100 200 300 150 = Ok a /\ denotes a (17 # 2) /\
     axis_mass 100 200 300 250 = Ok b /\ denotes b (51 # 2) /\
     axis_mass (F:=spec_float) 100 200 300 50 = Ok (Int 0)) /\
  (exists (s' : BalanceBoard spec_float) m0 m1 m3,
     Example.step Example.report_frame Example.calibrated = Continue s' /\
     mass s' = [m0; m1; Int 0; m3] /\
     denotes m0 (17 # 2) /\ denotes m1 (51 # 2) /\ denotes m3 (17 # 2) /\
     denotes (total_mass s') (85 # 2)) /\
  (forall (F : Type) (PF : PyFloat F) (cal : list byte) (p0 p1 p2 p3 : Z),
     (24 <= length cal)%nat ->
     axis_degenerate cal 0 p0 = false -> axis_degenerate cal 1 p1 = false ->
     axis_degenerate cal 2 p2 = false -> axis_degenerate cal 3 p3 = false ->
     exists m0 m1 m2 m3 : num F,
       axis_mass (word_at cal 0) (word_at cal 8) (word_at cal 16) p0 = Ok m0 /\
       axis_mass (word_at cal 2) (word_at cal 10) (word_at cal 18) p1 = Ok m1 /\
       axis_mass (word_at cal 4) (word_at cal 12) (word_at cal 20) p2 = Ok m2 /\
       axis_mass (word_at cal 6) (word_at cal 14) (word_at cal 22) p3 = Ok m3 /\
       forall s : BalanceBoard F,
         calibration_data s = cal -> sensor_data s = [p0; p1; p2; p3] ->
         length (mass s) = 4%nat ->
         calculate_mass s
         = Continue (set_total_mass (py_sum [m0; m1; m2; m3])
                                    (set_mass [m0; m1; m2; m3] s))) /\
  (forall (F : Type) (PF : PyFloat F) (zero half full point : Z),
     divides_by_zero zero half full point = false ->
     axis_mass zero half full point
     = Ok (if (point <? zero)%Z then Int 0
           else if ((zero <=? point) && (point <? half))%Z then
             Float (float_mul (float_of_int (point - zero))
                      (float_div (float_of_int 17) (float_of_int (half - zero))))
           else
             Float (float_add
                      (float_mul (float_of_int (point - half))
                         (float_div (float_of_int 17)
                                    (float_of_int (full - half))))
                      (float_of_int 17)))).
Proof.
  split; [|split; [|split; [|split; [|split; [|split]]]]].
  - intros cal p0 p1 p2 p3 Hlen D0 D1 D2 D3.
    destruct (axis_mass_exact _ _ _ _ D0) as (m0 & M0 & V0).
    destruct (axis_mass_exact _ _ _ _ D1) as (m1 & M1 & V1).
    destruct (axis_mass_exact _ _ _ _ D2) as (m2 & M2 & V2).
    destruct (axis_mass_exact _ _ _ _ D3) as (m3 & M3 & V3).
    exists m0, m1, m2, m3. split; [|split; [done|]].
    + intros s <- Hp Hm.
      eapply calculate_mass_four; try done;
        by apply axis_calibration_ok; [|lia].
    + rewrite to_float_py_sum. unfold Qsum. simpl.
      unfold spec_mass. rewrite V0, V1, V2, V3. ring.
  - apply calculate_mass_binary64.
  - vm_compute. done.
  - do 2 eexists. vm_compute. done.
  - do 4 eexists. vm_compute. done.
  - intros F PF cal p0 p1 p2 p3 Hlen D0 D1 D2 D3.
    destruct (axis_mass_returns (F:=F) _ _ _ _ D0) as [m0 M0].
    destruct (axis_mass_returns (F:=F) _ _ _ _ D1) as [m1 M1].
    destruct (axis_mass_returns (F:=F) _ _ _ _ D2) as [m2 M2].
    destruct (axis_mass_returns (F:=F) _ _ _ _ D3) as [m3 M3].
    exists m0, m1, m2, m3. do 4 (split; [done|]).
    intros s <- Hp Hm.
    eapply calculate_mass_four; try done;
      by apply axis_calibration_ok; [|lia].
  - intros F PF zero half full point Hd.
    unfold divides_by_zero in Hd. unfold axis_mass.
    destruct (Z.ltb_spec point zero); [done|].
    destruct (Z.leb_spec zero point); [|lia].
    destruct (Z.ltb_spec point half); simpl in *.
    + unfold mass_low. by rewrite int_truediv_ok by lia.
    + apply Z.eqb_neq in Hd. unfold mass_high.
      by rewrite int_truediv_ok by lia.
Qed.

Lemma calculate_mass_spec_witness :
  ((24 <= length Example.calibration)%nat /\
   axis_degenerate Example.calibration 0 150 = false /\
   axis_degenerate Example.calibration 1 250 = false /\
   axis_degenerate Example.calibration 2 50 = false /\
   axis_degenerate Example.calibration 3 150 = false /\
   exists m0 m1 m2 m3 : num Q,
     (forall s : BalanceBoard Q,
        calibration_data s = Example.calibration ->
        sensor_data s = [150; 250; 50; 150]%Z ->
        length (mass s) = 4%nat ->
        calculate_mass s
        = Continue (set_total_mass (py_sum [m0; m1; m2; m3])
                                   (set_mass [m0; m1; m2; m3] s))) /\
     (to_float m0 == spec_mass Example.calibration 0 150 /\
      to_float m1 == spec_mass Example.calibration 1 250 /\
      to_float m2 == spec_mass Example.calibration 2 50 /\
      to_float m3 == spec_mass Example.calibration 3 150) /\
     to_float (py_sum [m0; m1; m2; m3])
     == spec_mass Example.calibration 0 150 + spec_mass Example.calibration 1 250
        + spec_mass Example.calibration 2 50
        + spec_mass Example.calibration 3 150) /\
  (axis_ordered Example.calibration 0 /\ axis_ordered Example.calibration 1 /\
   axis_ordered Example.calibration 2 /\ axis_ordered Example.calibration 3 /\
   u16 150 /\ u16 250 /\ u16 50 /\
   exists m0 m1 m2 m3 : num spec_float,
     (forall s : BalanceBoard spec_float,
        calibration_data s = Example.calibration ->
        sensor_data s = [150; 250; 50; 150]%Z ->
        length (mass s) = 4%nat ->
        calculate_mass s
        = Continue (set_total_mass (py_sum [m0; m1; m2; m3])
                                   (set_mass [m0; m1; m2; m3] s))) /\
     approximates m0 (spec_mass Example.calibration 0 150) (4 * eps) /\
     approximates m1 (spec_mass Example.calibration 1 250) (4 * eps) /\
     approximates m2 (spec_mass Example.calibration 2 50) (4 * eps) /\
     approximates m3 (spec_mass Example.calibration 3 150) (4 * eps) /\
     approximates (py_sum [m0; m1; m2; m3])
       (spec_mass Example.calibration 0 150 + spec_mass Example.calibration 1 250
        + spec_mass Example.calibration 2 50
        + spec_mass Example.calibration 3 150) (16 * eps)) /\
  (exists m0 m1 m2 m3 : num spec_float,
     axis_mass 100 200 300 150 = Ok m0 /\ axis_mass 100 200 300 250 = Ok m1 /\
     axis_mass 100 200 300 50 = Ok m2 /\ axis_mass 100 200 300 150 = Ok m3 /\
     forall s : BalanceBoard spec_float,
       calibration_data s = Example.calibration ->
       sensor_data s = [150; 250; 50; 150]%Z ->
       length (mass s) = 4%nat ->
       calculate_mass s
       = Continue (set_total_mass (py_sum [m0; m1; m2; m3])
                                  (set_mass [m0; m1; m2; m3] s))) /\
  (divides_by_zero 100 200 300 105 = false /\
   axis_mass (F:=spec_float) 100 200 300 105
   = Ok (Float (float_mul (float_of_int (105 - 100))
                  (float_div (float_of_int 17) (float_of_int (200 - 100)))))).
Proof.
  assert (24 <= length Example.calibration)%nat as Hlen by (simpl; lia).
  assert (forall i, (i < 4)%nat -> axis_ordered Example.calibration i) as Hord.
  { intros [|[|[|[|i]]]] Hi; try lia; vm_compute; split; reflexivity. }
  assert (u16 150 /\ u16 250 /\ u16 50) as (U1 & U2 & U3)
    by (unfold u16; lia).
  split; [|split; [|split]].
  - repeat (split; [first [exact Hlen | reflexivity]|]).
    apply (proj1 calculate_mass_spec Example.calibration 150 250 50 150 Hlen)%Z;
      reflexivity.
  - repeat (split; [first [apply Hord; lia | assumption]|]).
    apply (proj1 (proj2 calculate_mass_spec)
             Example.calibration 150 250 50 150 Hlen)%Z;
      first [apply Hord; lia | assumption].
  - apply (proj1 (proj2 (proj2 (proj2 (proj2 (proj2 calculate_mass_spec)))))
             spec_float binary64 Example.calibration 150 250 50 150 Hlen)%Z;
      reflexivity.
  - split; [reflexivity|].
    apply (proj2 (proj2 (proj2 (proj2 (proj2 (proj2 calculate_mass_spec)))))
             spec_float binary64 100 200 300 105)%Z.
    reflexivity.
Defined.

(** C1 fails on the code in binary64: the code divides first and
    multiplies then, and both operations round. With zero = 100,
    half = 200, full = 300 the reading 105 gives 0.8500000000000001,
    which is neither the formula [(point - zero) * 17 / (half - zero)]
    as Python evaluates it (85 / 100, that is 0.85) nor its exact
    value; a calibrated session stores this mass for axis 0. *)
Lemma mass_differs_from_formula_binary64 :
  exists x : spec_float,
    axis_mass (F:=spec_float) 100 200 300 105 = Ok (Float x) /\
    denotes (Float x) (1914029841632461 # 2251799813685248) /\
    int_truediv (F:=spec_float) ((105 - 100) * 17) (200 - 100) <> Ok (Float x) /\
    ~ 1914029841632461 # 2251799813685248 == spec_axis_mass 100 200 300 105 /\
    exists s' : BalanceBoard spec_float,
      Example.step (Trio.report_of Byte.x69) Example.calibrated = Continue s' /\
      mass s' !! 0%nat = Some (Float x).
Proof.
  eexists. split; [vm_compute; reflexivity|].
  split; [vm_compute; reflexivity|].
  split; [vm_compute; discriminate|].
  split; [vm_compute; discriminate|].
  eexists. split; [vm_compute; reflexivity|]. reflexivity.
Qed.

(** C7. For zero < half < full. In exact arithmetic: at point = half
    the lower formula, the upper formula and the mass all are 17; at
    point = zero the lower formula and the mass are 0, the value below
    zero; and the mass never decreases when the reading grows. In
    binary64, for 16-bit calibration points and readings: the mass is
    exactly 17.0 at point = half and exactly 0.0 at point = zero, and
    the mass never decreases when the reading grows. *)
Theorem axis_mass_continuous_monotone :
  (forall zero half full : Z,
     (zero < half)%Z -> (half < full)%Z ->
     (exists lo hi m : num Q,
        mass_low zero half half = Ok lo /\ mass_high half full half = Ok hi /\
        axis_mass zero half full half = Ok m /\
        to_float lo == 17 /\ to_float hi == 17 /\ to_float m == 17) /\
     (exists lo m : num Q,
        mass_low zero half zero = Ok lo /\ axis_mass zero half full zero = Ok m /\
        to_float lo == 0 /\ to_float m == 0 /\
        forall p, (p < zero)%Z -> axis_mass (F:=Q) zero half full p = Ok (Int 0)) /\
     (forall p q : Z,
        (p <= q)%Z ->
        exists mp mq : num Q,
          axis_mass zero half full p = Ok mp /\
          axis_mass zero half full q = Ok mq /\
          to_float mp <= to_float mq)) /\
  (forall zero half full : Z,
     (0 <= zero)%Z -> (zero < half)%Z -> (half < full)%Z -> (full <= 65535)%Z ->
     axis_mass zero half full half = Ok (Float (b64_of_int 17)) /\
     denotes (Float (b64_of_int 17)) 17 /\
     axis_mass zero half full zero = Ok (Float (S754_zero false)) /\
     (forall p q : Z,
        (0 <= p)%Z -> (p <= q)%Z -> (q <= 65535)%Z ->
        exists (mp mq : num spec_float) (vp vq : Q),
          axis_mass zero half full p = Ok mp /\
          axis_mass zero half full q = Ok mq /\
          denotes mp vp /\ denotes mq vq /\ vp <= vq)).
Proof.
  split.
  - intros zero half full Hzh Hhf. split; [|split].
    + destruct (mass_low_exact zero half half) as (lo & Hlo & Vlo); [lia|].
      destruct (mass_high_exact half full half) as (hi & Hhi & Vhi); [lia|].
      exists lo, hi, hi. repeat split; try done.
      * unfold axis_mass.
        destruct (Z.ltb_spec half zero); [lia|].
        destruct (Z.ltb_spec half half); [lia|]. by rewrite andb_false_r.
      * rewrite Vlo. apply scaled_diag. lia.
      * rewrite Vhi, Z.sub_diag, scaled_zero. reflexivity.
      * rewrite Vhi, Z.sub_diag, scaled_zero. reflexivity.
    + destruct (mass_low_exact zero half zero) as (lo & Hlo & Vlo); [lia|].
      exists lo, lo. repeat split; try done.
      * unfold axis_mass.
        destruct (Z.ltb_spec zero zero); [lia|].
        destruct (Z.leb_spec zero zero); [|lia].
        by destruct (Z.ltb_spec zero half); [|lia].
      * rewrite Vlo, Z.sub_diag. apply scaled_zero.
      * rewrite Vlo, Z.sub_diag. apply scaled_zero.
      * intros p Hp. unfold axis_mass. by destruct (Z.ltb_spec p zero); [|lia].
    + intros p q Hpq.
      destruct (axis_mass_exact zero half full p) as (mp & Hmp & Vp).
      { apply not_true_is_false. rewrite divides_by_zero_spec. lia. }
      destruct (axis_mass_exact zero half full q) as (mq & Hmq & Vq).
      { apply not_true_is_false. rewrite divides_by_zero_spec. lia. }
      exists mp, mq. repeat split; try done.
      rewrite Vp, Vq. by apply spec_axis_mass_mono.
  - intros zero half full Hz Hzh Hhf Hf.
    destruct (axis_mass_binary64_breakpoints zero half full) as [Hh H0]; try done.
    split; [done|]. split; [vm_compute; reflexivity|]. split; [done|].
    intros p q Hp Hpq Hq. by apply axis_mass_binary64_monotone.
Qed.

Lemma axis_mass_continuous_monotone_witness :
  ((exists lo hi m : num Q,
      mass_low 100 200 200 = Ok lo /\ mass_high 200 300 200 = Ok hi /\
      axis_mass 100 200 300 200 = Ok m /\
      to_float lo == 17 /\ to_float hi == 17 /\ to_float m == 17) /\
   (exists lo m : num Q,
      mass_low 100 200 100 = Ok lo /\ axis_mass 100 200 300 100 = Ok m /\
      to_float lo == 0 /\ to_float m == 0 /\
      forall p, (p < 100)%Z -> axis_mass (F:=Q) 100 200 300 p = Ok (Int 0)) /\
   (forall p q : Z,
      (p <= q)%Z ->
      exists mp mq : num Q,
        axis_mass 100 200 300 p = Ok mp /\ axis_mass 100 200 300 q = Ok mq /\
        to_float mp <= to_float mq)) /\
  (axis_mass 100 200 300 200 = Ok (Float (b64_of_int 17)) /\
   denotes (Float (b64_of_int 17)) 17 /\
   axis_mass 100 200 300 100 = Ok (Float (S754_zero false)) /\
   (forall p q : Z,
      (0 <= p)%Z -> (p <= q)%Z -> (q <= 65535)%Z ->
      exists (mp mq : num spec_float) (vp vq : Q),
        axis_mass 100 200 300 p = Ok mp /\ axis_mass 100 200 300 q = Ok mq /\
        denotes mp vp /\ denotes mq vq /\ vp <= vq)).
Proof.
  split.
  - apply (proj1 axis_mass_continuous_monotone 100 200 300)%Z; lia.
  - apply (proj2 axis_mass_continuous_monotone 100 200 300)%Z; lia.
Defined.

End MassTheorems.

(** ** The feed against the specification *)

Section FeedTheorems.
#[local] Open Scope Q_scope.

Lemma Qsum_nonneg (vs : list Q) : Forall (fun v => 0 <= v) vs -> 0 <= Qsum vs.
Proof.
  unfold Qsum. induction 1 as [|v vs Hv _ IH]; simpl; [apply Qle_refl|lra].
Qed.

(** Adding [ms] to [acc] from the left, in binary64: every addition
    rounds once. [K] counts the additions made so far. *)
Lemma fold_add_binary64 (ms : list (num spec_float)) (vs : list Q) :
  Forall2 (nonneg_num 300) ms vs ->
  forall (k : nat) (acc : num spec_float) (va A : Q),
    (k + length ms <= 300)%nat ->
    nonneg_num (300 + 2 * Z.of_nat k) acc va -> 0 <= A ->
    (1 - inject_Z (Z.of_nat k) * eps) * A <= va ->
    va <= (1 + 2 * inject_Z (Z.of_nat k) * eps) * A ->
    exists v,
      nonneg_num (300 + 2 * Z.of_nat (k + length ms)) (fold_left num_add ms acc) v /\
      (1 - inject_Z (Z.of_nat (k + length ms)) * eps) * (A + Qsum vs) <= v /\
      v <= (1 + 2 * inject_Z (Z.of_nat (k + length ms)) * eps) * (A + Qsum vs).
Proof.
  induction 1 as [|m v ms vs Hm _ IH]; intros k acc va A Hk Hacc HA Hlo Hhi.
  - exists va. rewrite Nat.add_0_r. unfold Qsum. simpl.
    split; [done|]. split; [by rewrite Qplus_0_r|by rewrite Qplus_0_r].
  - cbn [fold_left length] in *.
    destruct (num_add_nonneg_wide (300 + 2 * Z.of_nat k) 300 acc m va v)
      as (v' & Hv' & Hlo' & Hhi'); try done; try lia.
    pose proof (nonneg_num_nonneg _ _ _ Hm) as Hv0.
    pose proof (nonneg_num_nonneg _ _ _ Hacc) as Hva0.
    destruct (IH (S k) (num_add acc m) v' (A + v)) as (w & Hw & Hwlo & Hwhi).
    + lia.
    + eapply nonneg_num_weaken; [|exact Hv']. lia.
    + lra.
    + rewrite Nat2Z.inj_succ. unfold Z.succ. rewrite inject_Z_plus.
      change (inject_Z 1) with 1.
      assert (0 <= inject_Z (Z.of_nat k))
        by (change 0 with (inject_Z 0); rewrite <- Zle_Qle; lia).
      assert (inject_Z (Z.of_nat k) <= 300)
        by (change 300 with (inject_Z 300); rewrite <- Zle_Qle; lia).
      set (K := inject_Z (Z.of_nat k)) in *. unfold eps in *. nra.
    + rewrite Nat2Z.inj_succ. unfold Z.succ. rewrite inject_Z_plus.
      change (inject_Z 1) with 1.
      assert (0 <= inject_Z (Z.of_nat k))
        by (change 0 with (inject_Z 0); rewrite <- Zle_Qle; lia).
      assert (inject_Z (Z.of_nat k) <= 300)
        by (change 300 with (inject_Z 300); rewrite <- Zle_Qle; lia).
      set (K := inject_Z (Z.of_nat k)) in *. unfold eps in *. nra.
    + exists w. replace (k + S (length ms))%nat with (S k + length ms)%nat by lia.
      split; [done|].
      assert (A + Qsum (v :: vs) == A + v + Qsum vs) as ->
        by (unfold Qsum; simpl; ring).
      done.
Qed.

Lemma nonneg_totals (d : registry (F:=spec_float)) (vs : list Q) :
  Forall2 (fun kv v => nonneg_num 300 (total_mass kv.2) v) d vs ->
  Forall2 (nonneg_num 300) ((entry <$> d).*2) vs.
Proof.
  induction 1 as [|kv v d vs Hkv _ IH]; simpl; [constructor|].
  by constructor.
Qed.

(** C6, as the code has it. One tick reads every session twice, and
    nothing keeps the receive threads from writing in between.

    In any arithmetic: if the registry that the second loop reads has
    distinct addresses, the tick completes; its boards are in ascending
    address order, one entry (address, total mass) per session of that
    registry, and its total is Python's left-to-right sum, in
    registration order, of the totals that the first loop read. If both
    loops read the same and the sessions were registered in ascending
    address order, the total is exactly the left-to-right sum of the
    listed masses.

    If both loops read the same: in exact arithmetic the total is the
    sum of the listed masses; in binary64, for at most 300 sessions
    whose totals are 0 or positive normal numbers, it is that sum within
    the relative error [2 * n * eps] for [n] sessions.

    Two boards registered as "BB" (10.0) and "AA" (34.0) give, in
    binary64, the boards "AA": 34.0, "BB": 10.0 and the total 44.0. *)
Theorem feed_sorted_and_total :
  (forall (F : Type) (PF : PyFloat F) (seen_sum seen_list : registry (F:=F)),
     NoDup (seen_list.*1) ->
     exists out,
       mass_server_tick seen_sum seen_list = Some out /\
       StronglySorted addr_le ((boards out).*1) /\
       boards out ≡ₚ entry <$> seen_list /\
       total out = py_sum ((entry <$> seen_sum).*2) /\
       (seen_sum = seen_list -> StronglySorted addr_le (seen_list.*1) ->
        boards out = entry <$> seen_list /\
        total out = py_sum ((boards out).*2))) /\
  (forall d : registry (F:=Q),
     NoDup (d.*1) ->
     exists out,
       mass_server_tick d d = Some out /\
       to_float (total out) == Qsum (to_float <$> (boards out).*2)) /\
  (forall (d : registry (F:=spec_float)) (vs : list Q),
     NoDup (d.*1) -> (length d <= 300)%nat ->
     Forall2 (fun kv v => nonneg_num 300 (total_mass kv.2) v) d vs ->
     exists out ws,
       mass_server_tick d d = Some out /\
       Forall2 denotes ((boards out).*2) ws /\
       approximates (total out) (Qsum ws)
         (2 * inject_Z (Z.of_nat (length d)) * eps)) /\
  (exists (out : feed spec_float) (a b : num spec_float),
     mass_server_tick Example.two_boards Example.two_boards = Some out /\
     boards out = [("AA"%string, a); ("BB"%string, b)] /\
     denotes a 34 /\ denotes b 10 /\ denotes (total out) 44).
Proof.
  split; [|split; [|split]].
  - intros F PF seen_sum seen_list Hnd.
    destruct (mass_server_tick_spec seen_sum seen_list Hnd)
      as (out & Hout & Hs & Hp & Hk & Ht).
    exists out. do 4 (split; [done|]).
    intros -> Hsorted.
    assert (boards out = entry <$> seen_list) as Heq.
    { eapply entries_by_keys; [done|done|].
      by rewrite Hk, sorted_keys_sorted. }
    split; [done|]. by rewrite Ht, Heq.
  - intros d Hnd.
    destruct (mass_server_tick_spec d d Hnd) as (out & Hout & Hs & Hp & _ & Ht).
    exists out. split; [done|].
    rewrite Ht, to_float_py_sum. apply Qsum_Permutation.
    by rewrite Hp.
  - intros d vs Hnd Hlen Hvs.
    destruct (mass_server_tick_spec d d Hnd) as (out & Hout & Hs & Hp & _ & Ht).
    pose proof (nonneg_totals d vs Hvs) as Hms.
    assert (Forall2 denotes ((entry <$> d).*2) vs) as Hden.
    { eapply Forall2_impl; [exact Hms|]. intros m v. apply nonneg_num_denotes. }
    assert ((entry <$> d).*2 ≡ₚ (boards out).*2) as Hp2 by (by rewrite Hp).
    destruct (Forall2_Permutation_l _ _ _ Hp2 _ Hden) as (ws & Hws & Hperm).
    exists out, ws. split; [done|]. split; [done|].
    destruct (fold_add_binary64 _ _ Hms 0 (Int 0) 0 0) as (v & Hv & Hlo & Hhi);
      try (simpl; lra).
    { rewrite length_fmap, length_fmap. simpl. lia. }
    { by left. }
    rewrite !length_fmap in Hv, Hlo, Hhi. cbn [Nat.add] in Hv, Hlo, Hhi.
    rewrite Ht. exists v. split; [by eapply nonneg_num_denotes|].
    rewrite <- (Qsum_Permutation _ _ Hperm).
    assert (0 <= Qsum vs) as HS.
    { apply Qsum_nonneg. eapply Forall2_Forall_r; [exact Hms|].
      apply Forall_forall. intros m _ w. apply nonneg_num_nonneg. }
    assert (0 <= inject_Z (Z.of_nat (length d)))
      by (change 0 with (inject_Z 0); rewrite <- Zle_Qle; lia).
    set (N := inject_Z (Z.of_nat (length d))) in *. set (S := Qsum vs) in *.
    apply Qabs_Qle_condition. unfold eps in *. split; nra.
  - do 3 eexists. vm_compute. done.
Qed.

(** The totals of the three boards are positive normal numbers. *)
Lemma three_boards_nonneg :
  exists vs,
    Forall2 (fun kv v => nonneg_num 300 (total_mass kv.2) v)
            (Trio.three_boards (F:=spec_float)) vs.
Proof.
  assert (forall b : BalanceBoard spec_float,
            (exists m e, total_mass b = Float (S754_finite false m e) /\
                         (2 ^ 52 <=? Z.pos m)%Z && (Z.pos m <? 2 ^ 53)%Z
                         && (-300 <=? e)%Z && (e <=? 300)%Z = true) ->
            exists v, nonneg_num 300 (total_mass b) v) as Hone.
  { intros b (m & e & -> & Hc).
    rewrite !andb_true_iff in Hc. destruct Hc as (((H1 & H2) & H3) & H4).
    apply Z.leb_le in H1, H3, H4. apply Z.ltb_lt in H2.
    exists (fval m e). right. eexists. split; [reflexivity|]. right.
    exists m, e. repeat split; try done. }
  destruct (Hone (Example.board_after "CC" Example.calibration
                    (Trio.report_of Byte.x68))) as [v1 H1];
    [do 2 eexists; split; [vm_compute; reflexivity|vm_compute; reflexivity]|].
  destruct (Hone (Example.board_after "AA" Example.calibration
                    (Trio.report_of Byte.x65))) as [v2 H2];
    [do 2 eexists; split; [vm_compute; reflexivity|vm_compute; reflexivity]|].
  destruct (Hone (Example.board_after "BB" Example.calibration
                    (Trio.report_of Byte.x66))) as [v3 H3];
    [do 2 eexists; split; [vm_compute; reflexivity|vm_compute; reflexivity]|].
  exists [v1; v2; v3]. unfold Trio.three_boards.
  apply Forall2_cons. split; [exact H1|].
  apply Forall2_cons. split; [exact H2|].
  apply Forall2_cons. split; [exact H3|]. constructor.
Qed.

Lemma feed_sorted_and_total_witness :
  (NoDup ((Trio.after_report (F:=spec_float)).*1) /\
   StronglySorted addr_le ((Trio.after_report (F:=spec_float)).*1) /\
   exists out,
     mass_server_tick Trio.after_report Trio.after_report = Some out /\
     StronglySorted addr_le ((boards out).*1) /\
     boards out ≡ₚ entry <$> Trio.after_report (F:=spec_float) /\
     total out = py_sum ((entry <$> Trio.after_report (F:=spec_float)).*2) /\
     boards out = entry <$> Trio.after_report /\
     total out = py_sum ((boards out).*2)) /\
  (NoDup ((Example.two_boards (F:=Q)).*1) /\
   exists out,
     mass_server_tick (Example.two_boards (F:=Q)) Example.two_boards = Some out /\
     to_float (total out) == Qsum (to_float <$> (boards out).*2)) /\
  (NoDup ((Trio.three_boards (F:=spec_float)).*1) /\
   (length (Trio.three_boards (F:=spec_float)) <= 300)%nat /\
   exists vs,
     Forall2 (fun kv v => nonneg_num 300 (total_mass kv.2) v)
             (Trio.three_boards (F:=spec_float)) vs /\
     exists out ws,
       mass_server_tick Trio.three_boards Trio.three_boards = Some out /\
       Forall2 denotes ((boards out).*2) ws /\
       approximates (total out) (Qsum ws)
         (2 * inject_Z (Z.of_nat (length (Trio.three_boards (F:=spec_float))))
          * eps)).
Proof.
  assert (forall l : list string, bool_decide (NoDup l) = true -> NoDup l) as Hdec
    by (intros l Hl; by apply bool_decide_eq_true in Hl).
  assert (NoDup ((Trio.after_report (F:=spec_float)).*1)) as N1
    by (apply Hdec; vm_compute; reflexivity).
  assert (StronglySorted addr_le ((Trio.after_report (F:=spec_float)).*1)) as S1
    by (repeat constructor).
  assert (NoDup ((Example.two_boards (F:=Q)).*1)) as N2
    by (apply Hdec; vm_compute; reflexivity).
  assert (NoDup ((Trio.three_boards (F:=spec_float)).*1)) as N3
    by (apply Hdec; vm_compute; reflexivity).
  split; [|split].
  - split; [exact N1|]. split; [exact S1|].
    destruct (proj1 feed_sorted_and_total spec_float binary64
                Trio.after_report Trio.after_report N1)
      as (out & Hout & Hs & Hp & Ht & Hsame).
    exists out. do 4 (split; [assumption|]).
    apply Hsame; [reflexivity|exact S1].
  - split; [exact N2|].
    apply (proj1 (proj2 feed_sorted_and_total) _ N2).
  - split; [exact N3|]. split; [simpl; lia|].
    destruct three_boards_nonneg as [vs Hvs].
    exists vs. split; [exact Hvs|].
    apply (proj1 (proj2 (proj2 feed_sorted_and_total)) _ vs N3); [simpl; lia|exact Hvs].
Defined.

(** C6 fails on the code in two ways. In binary64 the total follows the
    order of registration and the list the order of the addresses: for
    the boards "CC" (0.68), "AA" (0.17) and "BB" (0.34), registered in
    this order, the total is 1.1900000000000002 and Python's sum of the
    listed masses is 1.19. And
    a report that a receive thread handles between the two reads leaves
    a total (0) that belongs to no listed mass (34.0). *)
Lemma feed_total_not_sum_of_listed :
  (exists (out : feed spec_float) (a b c : num spec_float),
     mass_server_tick Trio.three_boards Trio.three_boards = Some out /\
     boards out = [("AA"%string, a); ("BB"%string, b); ("CC"%string, c)] /\
     total out <> py_sum [a; b; c] /\
     denotes (total out) (5359283556570891 # 4503599627370496) /\
     denotes (py_sum [a; b; c]) (5359283556570890 # 4503599627370496)) /\
  (exists (out : feed spec_float) (a : num spec_float),
     mass_server_tick Trio.before_report Trio.after_report = Some out /\
     boards out = [("AA"%string, a)] /\ denotes a 34 /\ total out = Int 0).
Proof.
  split.
  - do 4 eexists. split; [vm_compute; reflexivity|]. split; [reflexivity|].
    split; [vm_compute; discriminate|].
    split; vm_compute; reflexivity.
  - do 2 eexists. split; [vm_compute; reflexivity|]. split; [reflexivity|].
    split; [vm_compute; reflexivity|]. reflexivity.
Qed.

End FeedTheorems.

(** * Further properties of the code *)

(** ** The receive loop *)

Section RunFacts.
Context {F : Type} `{PyFloat F}.
Variables STATUS_0 REPORT_CB_0 READ_RTN_0 REPORT_CB8E_0 : byte.
Variable CALIBRATION_ADDR : list byte.
Variable CALIBRATION_LENGTH : nat.
Implicit Type s : BalanceBoard F.

#[local] Abbreviation start_LSB := (start_LSB CALIBRATION_ADDR).
#[local] Abbreviation read_return := (read_return CALIBRATION_ADDR CALIBRATION_LENGTH).
#[local] Abbreviation classify :=
  (classify STATUS_0 REPORT_CB_0 READ_RTN_0 REPORT_CB8E_0).
#[local] Abbreviation step :=
  (step STATUS_0 REPORT_CB_0 READ_RTN_0 REPORT_CB8E_0
        CALIBRATION_ADDR CALIBRATION_LENGTH).
#[local] Abbreviation run :=
  (run STATUS_0 REPORT_CB_0 READ_RTN_0 REPORT_CB8E_0
       CALIBRATION_ADDR CALIBRATION_LENGTH).

Lemma run_nil s : run [] s = Continue s.
Proof. simpl. by destruct (status s). Qed.

Lemma run_disconnected frames s :
  status s = Disconnected -> run frames s = Continue s.
Proof. intros Hs. destruct frames; simpl; by rewrite Hs. Qed.

Lemma run_app_gen fs1 fs2 s :
  run (fs1 ++ fs2) s
  = match run fs1 s with
    | Continue s' => run fs2 s'
    | Raised e s' => Raised e s'
    end.
Proof.
  revert s. induction fs1 as [|data fs1 IH]; intros s.
  - by rewrite run_nil.
  - rewrite <- app_comm_cons, !run_cons.
    destruct (status s) eqn:Hs.
    + destruct (step data s) as [s'|e s']; [apply IH|done].
    + by rewrite run_disconnected.
Qed.

(** Frames handled in two batches are handled as in one: the loop on
    [fs1 ++ fs2] is the loop on [fs1] followed, if that completes, by
    the loop on [fs2] from the state reached; an exception raised in
    the first batch is the outcome of the whole, and the second batch
    is not looked at. *)
Theorem run_app fs1 fs2 s :
  run (fs1 ++ fs2) s
  = match run fs1 s with
    | Continue s' => run fs2 s'
    | Raised e s' => Raised e s'
    end.
Proof. apply run_app_gen. Qed.

(** *** What the loop never changes *)

Lemma read_return_lengths data s :
  length (calibration_data (state_of (read_return data s)))
  = length (calibration_data s).
Proof.
  unfold read_return.
  destruct (_ ≫= _) as [[[n addr] start]|]; simpl; [|done].
  destruct (_ && _); simpl; [|done].
  apply store_chunk_lengths.
Qed.

Lemma read_return_frame data s :
  let s' := state_of (read_return data s) in
  address s' = address s /\ status s' = status s /\
  sensor_data s' = sensor_data s /\ mass s' = mass s /\
  total_mass s' = total_mass s.
Proof.
  unfold read_return.
  destruct (_ ≫= _) as [[[n addr] start]|]; simpl; [|tauto].
  destruct (_ && _); simpl; [|tauto].
  apply store_chunk_readings.
Qed.

Lemma calculate_mass_length s :
  length (mass (state_of (calculate_mass s))) = length (mass s).
Proof.
  unfold calculate_mass.
  pose proof (mass_loop_length (calibration_data s) (sensor_data s) 0 (mass s)) as Hl.
  destruct (mass_loop _ _ _ _); simpl in *; done.
Qed.

Lemma report_frame_conditions data s :
  let s' := state_of (report data s) in
  address s' = address s /\ status s' = status s /\
  calibration_data s' = calibration_data s /\
  calibration_mask s' = calibration_mask s /\
  length (mass s') = length (mass s).
Proof.
  unfold report. destruct (unpack_HHHH _) as [sensors|]; simpl; [|tauto].
  destruct (any _); simpl; [tauto|].
  destruct (calculate_mass_calibration (set_sensor_data sensors s))
    as (-> & -> & -> & -> & _).
  rewrite calculate_mass_length. tauto.
Qed.

Lemma step_invariants data s :
  let s' := state_of (step data s) in
  address s' = address s /\ status s' = status s /\
  length (calibration_data s') = length (calibration_data s) /\
  length (calibration_mask s') = length (calibration_mask s) /\
  length (mass s') = length (mass s).
Proof.
  cbn zeta. unfold step. destruct (data !! 1%nat) as [t|]; simpl; [|tauto].
  destruct (classify t); simpl; try tauto;
    try (destruct (data !! _); simpl; tauto).
  - destruct (read_return_frame data s) as (-> & -> & _ & -> & _).
    rewrite read_return_lengths.
    by destruct (read_return_mask CALIBRATION_ADDR CALIBRATION_LENGTH data s)
      as [-> _].
  - by destruct (report_frame_conditions data s) as (-> & -> & -> & -> & ->).
Qed.

(** The loop never assigns [address] or [status], and never changes the
    number of entries of [calibration_data], [calibration_mask] and
    [mass], whether it completes or ends in an exception. A connected
    session therefore stays connected through any frames: nothing in
    the loop ends it but an exception. *)
Theorem run_invariants frames s :
  address (state_of (run frames s)) = address s /\
  status (state_of (run frames s)) = status s /\
  length (calibration_data (state_of (run frames s)))
  = length (calibration_data s) /\
  length (calibration_mask (state_of (run frames s)))
  = length (calibration_mask s) /\
  length (mass (state_of (run frames s))) = length (mass s).
Proof.
  revert s. induction frames as [|data frames IH]; intros s.
  - by rewrite run_nil.
  - rewrite run_cons.
    pose proof (step_invariants data s) as Hs. cbn zeta in Hs.
    destruct (status s) eqn:Hst; [|simpl; by rewrite Hst].
    destruct (step data s) as [s'|e s']; simpl in Hs; [|exact Hs].
    destruct (IH s') as (-> & -> & -> & -> & ->). exact Hs.
Qed.

(** *** Frames that are too short *)

(** The loop checks no length. At a connected session a frame with
    fewer than two bytes (an empty one, say) raises [IndexError], and so
    do a status frame with fewer than five bytes, a button frame with
    fewer than four and a read-return frame with fewer than five; a
    read-return frame of five or six bytes and a report frame with
    fewer than twelve raise [struct.error]. In every case the session is
    as it was and the loop has ended: the frames behind are not
    handled. *)
Theorem short_frame_ends_loop data frames s :
  status s = Connected ->
  ((length data < 2)%nat -> run (data :: frames) s = Raised IndexError s) /\
  (forall t,
     data !! 1%nat = Some t ->
     (classify t = StatusPacket -> (length data < 5)%nat ->
      run (data :: frames) s = Raised IndexError s) /\
     (classify t = ButtonPacket -> (length data < 4)%nat ->
      run (data :: frames) s = Raised IndexError s) /\
     (classify t = ReadReturnPacket -> (length data < 5)%nat ->
      run (data :: frames) s = Raised IndexError s) /\
     (classify t = ReadReturnPacket -> (5 <= length data < 7)%nat ->
      run (data :: frames) s = Raised StructError s) /\
     (classify t = ReportPacket -> (length data < 12)%nat ->
      run (data :: frames) s = Raised StructError s)).
Proof.
  intros Hs. rewrite run_cons, Hs. unfold step. split.
  - intros Hlen. by rewrite lookup_ge_None_2 by lia.
  - intros t ->. repeat split; intros ->.
    + intros Hlen. by rewrite lookup_ge_None_2 by lia.
    + intros Hlen. by rewrite lookup_ge_None_2 by lia.
    + intros Hlen. unfold read_return, chunk_length.
      by rewrite lookup_ge_None_2 by lia.
    + intros Hlen. unfold read_return, chunk_length, chunk_addr.
      destruct (lookup_lt_is_Some_2 data 4%nat) as [b ->]; [lia|].
      assert (length (slice 5 7 data) < 2)%nat as Hl
        by (unfold slice; rewrite length_take, length_drop; lia).
      destruct (slice 5 7 data) as [|? [|? [|? ?]]]; simpl in Hl; try lia; done.
    + intros Hlen. unfold report.
      by rewrite unpack_HHHH_short by lia.
Qed.

(** *** Which frame changes which field *)

(** Only read-return frames change the calibration data and mask; only
    report frames change the readings, the masses and the total; status
    and button frames that are long enough, and frames of an unknown
    kind, change nothing and raise nothing. *)
Theorem step_frame_conditions data t s :
  data !! 1%nat = Some t ->
  (classify t <> ReadReturnPacket ->
   calibration_data (state_of (step data s)) = calibration_data s /\
   calibration_mask (state_of (step data s)) = calibration_mask s) /\
  (classify t <> ReportPacket ->
   sensor_data (state_of (step data s)) = sensor_data s /\
   mass (state_of (step data s)) = mass s /\
   total_mass (state_of (step data s)) = total_mass s) /\
  (classify t = StatusPacket -> (5 <= length data)%nat ->
   step data s = Continue s) /\
  (classify t = ButtonPacket -> (4 <= length data)%nat ->
   step data s = Continue s) /\
  (classify t = UnknownPacket -> step data s = Continue s).
Proof.
  intros Ht. unfold step. rewrite Ht. split; [|split; [|split; [|split]]].
  - intros Hk. destruct (classify t); try done; try (by case_match).
    by destruct (report_frame_conditions data s) as (_ & _ & -> & -> & _).
  - intros Hk. destruct (classify t); try done; try (by case_match).
    by destruct (read_return_frame data s) as (_ & _ & -> & -> & ->).
  - intros -> Hlen. by destruct (lookup_lt_is_Some_2 data 4%nat) as [b ->]; [lia|].
  - intros -> Hlen. by destruct (lookup_lt_is_Some_2 data 3%nat) as [b ->]; [lia|].
  - by intros ->.
Qed.

(** *** Chunks *)

(** A read-return frame whose start address lies outside the
    calibration block is ignored: the session is as it was and the loop
    goes on, whatever the length nibble says and whether or not the
    frame carries data bytes. *)
Theorem chunk_outside_block_ignored data t n addr start s :
  data !! 1%nat = Some t -> classify t = ReadReturnPacket ->
  chunk_length data = Ok n -> chunk_addr data = Ok addr ->
  start_LSB = Ok start ->
  addr < start \/ start + Z.of_nat CALIBRATION_LENGTH <= addr ->
  step data s = Continue s.
Proof.
  intros Ht Hk Hn Ha Hs Hout. unfold step. rewrite Ht, Hk.
  unfold read_return. rewrite Hn, Ha, Hs. cbn.
  destruct (Z.leb_spec start addr); [|done].
  destruct (Z.ltb_spec addr (start + Z.of_nat CALIBRATION_LENGTH)); [lia|done].
Qed.

(** The copy loop, in full: it copies the longest prefix of the chunk
    that fits both the block and the frame. *)
Lemma store_chunk_prefix data offset n : forall i s,
  length (calibration_mask s) = length (calibration_data s) ->
  (offset + i <= length (calibration_data s))%nat ->
  let k := Nat.min n (Nat.min (length (calibration_data s) - (offset + i))
                             (length data - (7 + i))) in
  let s' :=
    set_calibration_mask
      (splice (offset + i) (replicate k 0) (calibration_mask s))
      (set_calibration_data
         (splice (offset + i) (take k (drop (7 + i) data)) (calibration_data s))
         s) in
  store_chunk data offset i n s
  = if decide (k = n) then Continue s' else Raised IndexError s'.
Proof.
  induction n as [|n IH]; intros i s Hm Hc; cbn zeta.
  - rewrite Nat.min_0_l. simpl. rewrite take_0, !splice_nil.
    unfold set_calibration_mask, set_calibration_data. simpl.
    by rewrite board_eta.
  - cbn [store_chunk].
    destruct (data !! (7 + i)%nat) as [b|] eqn:Hb.
    + apply lookup_lt_Some in Hb as Hlt.
      destruct (decide (offset + i < length (calibration_data s))%nat) as [Hin|Hout].
      * cbn zeta. rewrite decide_True by (simpl; lia).
        rewrite (IH (S i));
          cbn [calibration_data calibration_mask set_calibration_data
               set_calibration_mask];
          rewrite ?length_insert; try lia.
        set (L := length (calibration_data s)) in *.
        replace (Nat.min (S n) (Nat.min (L - (offset + i)) (length data - (7 + i))))
          with (S (Nat.min n (Nat.min (L - (offset + S i))
                                      (length data - (7 + S i)))))
          by lia.
        set (k := Nat.min n (Nat.min (L - (offset + S i)) (length data - (7 + S i)))).
        assert (forall x y : BalanceBoard F, x = y ->
                  (if decide (k = n) then Continue x else Raised IndexError x)
                  = if decide (S k = S n) then Continue y else Raised IndexError y)
          as Hif.
        { intros x y ->. destruct (decide (k = n)), (decide (S k = S n)); try done; lia. }
        apply Hif.
        unfold set_calibration_mask, set_calibration_data.
        cbn [calibration_data calibration_mask address status sensor_data mass
             total_mass].
        f_equal.
        -- rewrite (drop_S _ _ _ Hb). cbn [take].
           replace (offset + S i)%nat with (S (offset + i)) by lia.
           replace (7 + S i)%nat with (S (7 + i)) by lia.
           apply splice_cons. lia.
        -- replace (offset + S i)%nat with (S (offset + i)) by lia.
           apply (splice_cons _ 0 (replicate k 0)). lia.
      * assert (Nat.min (S n) (Nat.min (length (calibration_data s) - (offset + i))
                                       (length data - (7 + i))) = 0%nat) as -> by lia.
        rewrite decide_False by lia.
        simpl. rewrite take_0, !splice_nil.
        unfold set_calibration_mask, set_calibration_data. simpl.
        by rewrite board_eta.
    + apply lookup_ge_None_1 in Hb.
      assert (Nat.min (S n) (Nat.min (length (calibration_data s) - (offset + i))
                                     (length data - (7 + i))) = 0%nat) as -> by lia.
      rewrite decide_False by lia.
      simpl. rewrite take_0, !splice_nil.
      unfold set_calibration_mask, set_calibration_data. simpl.
      by rewrite board_eta.
Qed.

(** A read-return frame that starts inside the block copies as much of
    its chunk as both the block and the frame hold: with [n] the length
    it announces, [offset] its start in the block and [k] the least of
    [n], the bytes the block has from [offset] on and the data bytes
    the frame carries, the first [k] data bytes are stored at [offset]
    and their mask entries cleared. The step completes if [k = n];
    otherwise it raises [IndexError] with these [k] bytes stored. *)
Theorem chunk_copies_what_fits data t n addr start s :
  data !! 1%nat = Some t -> classify t = ReadReturnPacket ->
  chunk_length data = Ok n -> chunk_addr data = Ok addr ->
  start_LSB = Ok start ->
  start <= addr < start + Z.of_nat CALIBRATION_LENGTH ->
  length (calibration_data s) = CALIBRATION_LENGTH ->
  length (calibration_mask s) = CALIBRATION_LENGTH ->
  let offset := Z.to_nat (addr - start) in
  let k := Nat.min n (Nat.min (CALIBRATION_LENGTH - offset) (length data - 7)) in
  let s' :=
    set_calibration_mask
      (splice offset (replicate k 0) (calibration_mask s))
      (set_calibration_data
         (splice offset (take k (drop 7 data)) (calibration_data s)) s) in
  step data s = if decide (k = n) then Continue s' else Raised IndexError s'.
Proof.
  intros Ht Hk Hn Ha Hs Hin Hc Hm. cbn zeta. unfold step. rewrite Ht, Hk.
  unfold read_return. rewrite Hn, Ha, Hs. cbn.
  replace (start <=? addr) with true by (symmetry; apply Z.leb_le; lia).
  replace (addr <? start + Z.of_nat CALIBRATION_LENGTH) with true
    by (symmetry; apply Z.ltb_lt; lia).
  cbn. rewrite store_chunk_prefix by lia. cbn zeta.
  by rewrite !Nat.add_0_r, Hc.
Qed.

End RunFacts.

Lemma short_frame_ends_loop_witness :
  Example.run ([] :: [Example.report_frame]) (Example.fresh (F:=spec_float))
  = Raised IndexError Example.fresh /\
  Example.run (take 11 Example.report_frame :: [Example.report_frame])
              (Example.fresh (F:=spec_float))
  = Raised StructError Example.fresh.
Proof.
  split.
  - apply (proj1 (short_frame_ends_loop
                    Example.STATUS_0 Example.REPORT_CB_0 Example.READ_RTN_0
                    Example.REPORT_CB8E_0 Example.CALIBRATION_ADDR
                    Example.CALIBRATION_LENGTH
                    [] [Example.report_frame] Example.fresh eq_refl)).
    simpl. lia.
  - apply (proj2 (proj2 (proj2 (proj2
             (proj2 (short_frame_ends_loop
                       Example.STATUS_0 Example.REPORT_CB_0 Example.READ_RTN_0
                       Example.REPORT_CB8E_0 Example.CALIBRATION_ADDR
                       Example.CALIBRATION_LENGTH
                       (take 11 Example.report_frame) [Example.report_frame]
                       Example.fresh eq_refl)
                Byte.x32 eq_refl))))).
    + reflexivity.
    + simpl. lia.
Defined.

Lemma step_frame_conditions_witness :
  (calibration_data (state_of (Example.step Example.report_frame
                                            (Example.fresh (F:=spec_float))))
   = calibration_data (Example.fresh (F:=spec_float)) /\
   calibration_mask (state_of (Example.step Example.report_frame
                                            (Example.fresh (F:=spec_float))))
   = calibration_mask (Example.fresh (F:=spec_float))) /\
  Example.step Example.button_frame (Example.fresh (F:=spec_float))
  = Continue Example.fresh.
Proof.
  split.
  - apply (proj1 (step_frame_conditions
                    Example.STATUS_0 Example.REPORT_CB_0 Example.READ_RTN_0
                    Example.REPORT_CB8E_0 Example.CALIBRATION_ADDR
                    Example.CALIBRATION_LENGTH
                    Example.report_frame Byte.x32 Example.fresh eq_refl)).
    vm_compute. discriminate.
  - apply (proj1 (proj2 (proj2 (proj2 (step_frame_conditions
                    Example.STATUS_0 Example.REPORT_CB_0 Example.READ_RTN_0
                    Example.REPORT_CB8E_0 Example.CALIBRATION_ADDR
                    Example.CALIBRATION_LENGTH
                    Example.button_frame Byte.x30 Example.fresh eq_refl))))).
    + reflexivity.
    + simpl. lia.
Defined.

Lemma chunk_outside_block_ignored_witness :
  Example.step
    ([Byte.xa1; Byte.x21; Byte.x00; Byte.x00; Byte.xf0; Byte.x00; Byte.x10]
     ++ take 16 Example.calibration)
    (Example.fresh (F:=spec_float))
  = Continue Example.fresh.
Proof.
  apply (chunk_outside_block_ignored
           Example.STATUS_0 Example.REPORT_CB_0 Example.READ_RTN_0
           Example.REPORT_CB8E_0 Example.CALIBRATION_ADDR
           Example.CALIBRATION_LENGTH
           ([Byte.xa1; Byte.x21; Byte.x00; Byte.x00; Byte.xf0; Byte.x00; Byte.x10]
            ++ take 16 Example.calibration)
           Byte.x21 16 16 36 Example.fresh);
    first [reflexivity | (left; lia)].
Defined.

Lemma chunk_copies_what_fits_witness :
  Example.step Example.chunk_overrun (Example.fresh (F:=spec_float))
  = Raised IndexError
      (set_calibration_mask
         (splice 16 (replicate 8 0) (calibration_mask (Example.fresh (F:=spec_float))))
         (set_calibration_data
            (splice 16 (take 8 (drop 7 Example.chunk_overrun))
                    (calibration_data (Example.fresh (F:=spec_float))))
            Example.fresh)).
Proof.
  apply (chunk_copies_what_fits
           Example.STATUS_0 Example.REPORT_CB_0 Example.READ_RTN_0
           Example.REPORT_CB8E_0 Example.CALIBRATION_ADDR
           Example.CALIBRATION_LENGTH
           Example.chunk_overrun Byte.x21 16 52 36 Example.fresh);
    first [reflexivity | (vm_compute; split; [discriminate|reflexivity])].
Defined.

(** ** From the wire to the masses *)

Section Calibrating.
Context {F : Type} `{PyFloat F}.

Lemma calibrated_with_spec (cal : list byte) :
  length cal = 24%nat ->
  Example.run [Example.chunk_lo cal; Example.chunk_hi cal] (Example.fresh (F:=F))
  = Continue (set_calibration_mask (replicate 24 0)
                (set_calibration_data cal Example.fresh)).
Proof.
  intros Hlen.
  do 24 (destruct cal as [|? cal]; [done|]). destruct cal; [|done].
  vm_compute. reflexivity.
Qed.

(** With the constants of the Wii protocol, the two replies to the
    calibration request (16 bytes at offset 0, 8 bytes at offset 16)
    complete the calibration of a new session, in either order: the
    session then holds the 24-byte block [cal] as sent, its mask is all
    clear and nothing else has changed. *)
Theorem calibration_completes (cal : list byte) :
  length cal = 24%nat ->
  Example.run [Example.chunk_lo cal; Example.chunk_hi cal] (Example.fresh (F:=F))
  = Continue (set_calibration_mask (replicate 24 0)
                (set_calibration_data cal Example.fresh)) /\
  Example.run [Example.chunk_hi cal; Example.chunk_lo cal] (Example.fresh (F:=F))
  = Continue (set_calibration_mask (replicate 24 0)
                (set_calibration_data cal Example.fresh)).
Proof.
  intros Hlen.
  do 24 (destruct cal as [|? cal]; [done|]). destruct cal; [|done].
  split; vm_compute; reflexivity.
Qed.

End Calibrating.

Lemma calibration_completes_witness :
  length Example.calibration = 24%nat /\
  Example.run [Example.chunk_lo Example.calibration;
               Example.chunk_hi Example.calibration] (Example.fresh (F:=spec_float))
  = Continue (set_calibration_mask (replicate 24 0)
                (set_calibration_data Example.calibration Example.fresh)) /\
  Example.run [Example.chunk_hi Example.calibration;
               Example.chunk_lo Example.calibration] (Example.fresh (F:=spec_float))
  = Continue (set_calibration_mask (replicate 24 0)
                (set_calibration_data Example.calibration Example.fresh)).
Proof.
  split; [reflexivity|].
  apply (calibration_completes Example.calibration). reflexivity.
Defined.

Section Pipeline.
#[local] Open Scope Q_scope.

(** End to end, in binary64 and with the constants of the Wii protocol:
    a new session that receives the two calibration replies for a block
    [cal] with zero < half < full on every axis, and then a report
    frame with the readings [p0..p3], completes all three steps; it
    then holds the block, the four readings, four masses that are the
    spec's formulas on these readings within the relative error
    [4 * eps], and their total within [16 * eps]. *)
Theorem calibrated_report_binary64 (cal data : list byte) (p0 p1 p2 p3 : Z) :
  length cal = 24%nat ->
  axis_ordered cal 0 -> axis_ordered cal 1 ->
  axis_ordered cal 2 -> axis_ordered cal 3 ->
  data !! 1%nat = Some Byte.x32 ->
  be16_at data 4 = Some p0 -> be16_at data 6 = Some p1 ->
  be16_at data 8 = Some p2 -> be16_at data 10 = Some p3 ->
  exists (s' : BalanceBoard spec_float) (m0 m1 m2 m3 : num spec_float),
    Example.run [Example.chunk_lo cal; Example.chunk_hi cal; data] Example.fresh
    = Continue s' /\
    calibration_data s' = cal /\
    sensor_data s' = [p0; p1; p2; p3] /\
    mass s' = [m0; m1; m2; m3] /\
    total_mass s' = py_sum [m0; m1; m2; m3] /\
    approximates m0 (spec_mass cal 0 p0) (4 * eps) /\
    approximates m1 (spec_mass cal 1 p1) (4 * eps) /\
    approximates m2 (spec_mass cal 2 p2) (4 * eps) /\
    approximates m3 (spec_mass cal 3 p3) (4 * eps) /\
    approximates (total_mass s')
      (spec_mass cal 0 p0 + spec_mass cal 1 p1
       + spec_mass cal 2 p2 + spec_mass cal 3 p3) (16 * eps).
Proof.
  intros Hlen O0 O1 O2 O3 Ht B0 B1 B2 B3.
  assert (12 <= length data)%nat as Hdata.
  { unfold be16_at in B3.
    destruct (data !! 11%nat) eqn:E; [|by destruct (data !! 10%nat)].
    apply lookup_lt_Some in E. lia. }
  destruct (unpack_HHHH_slice data Hdata) as (l & Hu & Hl).
  assert (l = [p0; p1; p2; p3]) as ->.
  { apply Forall2_cons_inv_l in Hl as (x0 & l0 & H0 & Hl & ->).
    apply Forall2_cons_inv_l in Hl as (x1 & l1 & H1 & Hl & ->).
    apply Forall2_cons_inv_l in Hl as (x2 & l2 & H2 & Hl & ->).
    apply Forall2_cons_inv_l in Hl as (x3 & l3 & H3 & Hl & ->).
    apply Forall2_nil_inv_l in Hl as ->. congruence. }
  destruct (unpack_HHHH_shape _ _ Hu) as [_ Hu16].
  apply Forall_cons in Hu16 as [U0 Hu16]. apply Forall_cons in Hu16 as [U1 Hu16].
  apply Forall_cons in Hu16 as [U2 Hu16]. apply Forall_cons in Hu16 as [U3 _].
  destruct (calculate_mass_binary64 cal p0 p1 p2 p3)
    as (m0 & m1 & m2 & m3 & Hcalc & A0 & A1 & A2 & A3 & At); try done; [lia|].
  pose proof (calibrated_with_spec (F:=spec_float) cal Hlen) as Hcal.
  set (s2 := set_calibration_mask (replicate 24 0%Z)
               (set_calibration_data cal (Example.fresh (F:=spec_float)))) in *.
  exists (set_total_mass (py_sum [m0; m1; m2; m3])
            (set_mass [m0; m1; m2; m3]
               (set_sensor_data [p0; p1; p2; p3] s2))), m0, m1, m2, m3.
  split; [|by repeat split].
  change [Example.chunk_lo cal; Example.chunk_hi cal; data]
    with ([Example.chunk_lo cal; Example.chunk_hi cal] ++ [data]).
  unfold Example.run in *. rewrite run_app_gen, Hcal, run_cons.
  change (status s2) with Connected. cbv iota.
  assert (step Example.STATUS_0 Example.REPORT_CB_0 Example.READ_RTN_0
               Example.REPORT_CB8E_0 Example.CALIBRATION_ADDR
               Example.CALIBRATION_LENGTH data s2
          = calculate_mass (set_sensor_data [p0; p1; p2; p3] s2)) as ->.
  { unfold step. rewrite Ht.
    change (classify _ _ _ _ Byte.x32) with ReportPacket. cbv iota.
    unfold report. rewrite Hu. reflexivity. }
  rewrite Hcalc by done. apply run_nil.
Qed.

Lemma calibrated_report_binary64_witness :
  exists (s' : BalanceBoard spec_float) (m0 m1 m2 m3 : num spec_float),
    Example.run [Example.chunk_lo Example.calibration;
                 Example.chunk_hi Example.calibration; Example.report_frame]
                Example.fresh
    = Continue s' /\
    calibration_data s' = Example.calibration /\
    sensor_data s' = [150; 250; 50; 150]%Z /\
    mass s' = [m0; m1; m2; m3] /\
    total_mass s' = py_sum [m0; m1; m2; m3] /\
    approximates m0 (spec_mass Example.calibration 0 150) (4 * eps) /\
    approximates m1 (spec_mass Example.calibration 1 250) (4 * eps) /\
    approximates m2 (spec_mass Example.calibration 2 50) (4 * eps) /\
    approximates m3 (spec_mass Example.calibration 3 150) (4 * eps) /\
    approximates (total_mass s')
      (spec_mass Example.calibration 0 150 + spec_mass Example.calibration 1 250
       + spec_mass Example.calibration 2 50
       + spec_mass Example.calibration 3 150) (16 * eps).
Proof.
  apply (calibrated_report_binary64 Example.calibration Example.report_frame
           150 250 50 150);
    first [reflexivity | (vm_compute; split; reflexivity)].
Defined.

End Pipeline.

(** ** Commands *)

Lemma byte_of_Z_Some (n : Z) (b : byte) : byte_of_Z n = Some b <-> byte_val b = n.
Proof.
  unfold byte_of_Z, byte_val. split.
  - destruct (Z.ltb_spec n 0); [done|]. intros Hb.
    apply Byte.to_of_N in Hb. rewrite Hb. lia.
  - intros <-. destruct (Z.ltb_spec (Z.of_N (Byte.to_N b)) 0); [lia|].
    rewrite N2Z.id. apply Byte.of_to_N.
Qed.

Lemma byte_of_Z_range (n : Z) : 0 <= n < 256 -> is_Some (byte_of_Z n).
Proof.
  intros Hn. unfold byte_of_Z. destruct (Z.ltb_spec n 0); [lia|].
  destruct (Byte.of_N (Z.to_N n)) eqn:E; [done|].
  apply Byte.of_N_None_iff in E. lia.
Qed.

Lemma pack_H_Ok (n : Z) (bs : list byte) : pack_H n = Ok bs <-> unpack_H bs = Ok n.
Proof.
  unfold pack_H, unpack_H. split.
  - destruct (byte_of_Z (n / 256)) as [hi|] eqn:Hhi; [|done].
    destruct (byte_of_Z (n mod 256)) as [lo|] eqn:Hlo; [|done].
    intros [= <-]. apply byte_of_Z_Some in Hhi, Hlo. rewrite Hhi, Hlo.
    f_equal. pose proof (Z.div_mod n 256). lia.
  - destruct bs as [|hi [|lo [|? ?]]]; try done. intros [= <-].
    pose proof (byte_val_range hi). pose proof (byte_val_range lo).
    replace ((byte_val hi * 256 + byte_val lo) / 256) with (byte_val hi)
      by (apply Z.div_unique with (byte_val lo); lia).
    replace ((byte_val hi * 256 + byte_val lo) mod 256) with (byte_val lo)
      by (apply Z.mod_unique with (byte_val hi); lia).
    by rewrite (proj2 (byte_of_Z_Some _ hi) eq_refl),
               (proj2 (byte_of_Z_Some _ lo) eq_refl).
Qed.

Lemma pack_H_range (n : Z) : 0 <= n < 65536 <-> exists bs, pack_H n = Ok bs.
Proof.
  split.
  - intros Hn. unfold pack_H.
    destruct (byte_of_Z_range (n / 256)) as [hi ->].
    { split; [apply Z.div_pos; lia|apply Z.div_lt_upper_bound; lia]. }
    destruct (byte_of_Z_range (n mod 256)) as [lo ->];
      [apply Z.mod_pos_bound; lia|].
    by eexists.
  - intros [bs Hbs]. apply pack_H_Ok in Hbs.
    by apply unpack_H_range in Hbs.
Qed.

(** [struct.pack(">H", n)] and [struct.unpack(">H", bs)] are inverse to
    each other: packing [n] gives [bs] exactly when unpacking [bs] gives
    [n]; packing succeeds exactly for [0 <= n <= 65535] and raises
    [struct.error] otherwise. *)
Theorem pack_unpack_H (n : Z) (bs : list byte) :
  (pack_H n = Ok bs <-> unpack_H bs = Ok n) /\
  (0 <= n < 65536 <-> exists bs', pack_H n = Ok bs') /\
  (pack_H n = Err StructError <-> ~ 0 <= n < 65536).
Proof.
  split; [apply pack_H_Ok|]. split; [apply pack_H_range|].
  rewrite pack_H_range. unfold pack_H.
  destruct (byte_of_Z (n / 256)), (byte_of_Z (n mod 256)); split;
    try done; try (intros []; by eexists); try (by intros _; intros [? ?]).
Qed.

Lemma pack_unpack_H_witness : pack_H 24 = Ok [Byte.x00; Byte.x18].
Proof. apply (proj1 (pack_unpack_H 24 [Byte.x00; Byte.x18])). reflexivity. Defined.

Section CommandFacts.
Variables OUTPUT READ WRITE SET_REPORT_MODE LIGHT : list byte.

(** [read] sends one message, the header, the location and the length
    in two bytes, big-endian, if the length is within 0..65535; if not,
    [struct.pack] raises and nothing is sent. *)
Theorem read_request (location : list byte) (n : Z) (sent : wire) :
  (0 <= n < 65536 ->
   exists len,
     read OUTPUT READ location n sent
     = Ok (sent ++ [OUTPUT ++ READ ++ location ++ len]) /\
     unpack_H len = Ok n) /\
  (~ 0 <= n < 65536 -> read OUTPUT READ location n sent = Err StructError).
Proof.
  unfold read, send. split.
  - intros Hn. destruct (proj1 (pack_H_range n) Hn) as [len Hlen].
    exists len. rewrite Hlen. split; [done|]. by apply pack_H_Ok.
  - intros Hn. destruct (pack_H n) as [len|e] eqn:E.
    + destruct Hn. apply pack_H_range. by eexists.
    + unfold pack_H in E.
      by destruct (byte_of_Z (n / 256)), (byte_of_Z (n mod 256));
        simplify_eq.
Qed.

(** [write] sends one message, the header, the location, one byte with
    the number of content bytes and the contents, if there are at most
    255 of them; with more, [struct.pack] raises and nothing is sent. *)
Theorem write_request (location contents : list byte) (sent : wire) :
  ((length contents <= 255)%nat ->
   exists b,
     write OUTPUT WRITE location contents sent
     = Ok (sent ++ [OUTPUT ++ WRITE ++ location ++ [b] ++ contents]) /\
     byte_val b = Z.of_nat (length contents)) /\
  ((255 < length contents)%nat ->
   write OUTPUT WRITE location contents sent = Err StructError).
Proof.
  unfold write, send, pack_B. split.
  - intros Hn.
    destruct (byte_of_Z_range (Z.of_nat (length contents))) as [b Hb]; [lia|].
    exists b. rewrite Hb. split; [done|]. by apply byte_of_Z_Some.
  - intros Hn. destruct (byte_of_Z _) as [b|] eqn:Hb; [|done].
    apply byte_of_Z_Some in Hb. pose proof (byte_val_range b). lia.
Qed.

End CommandFacts.

Lemma read_request_witness :
  exists len,
    read ExampleIO.OUTPUT ExampleIO.READ Example.CALIBRATION_ADDR 24 []
    = Ok ([] ++ [ExampleIO.OUTPUT ++ ExampleIO.READ ++ Example.CALIBRATION_ADDR
                 ++ len]) /\
    unpack_H len = Ok 24.
Proof.
  apply (proj1 (read_request ExampleIO.OUTPUT ExampleIO.READ
                  Example.CALIBRATION_ADDR 24 [])).
  lia.
Defined.

Lemma write_request_witness :
  exists b,
    write ExampleIO.OUTPUT ExampleIO.WRITE Example.CALIBRATION_ADDR
          [Byte.x01; Byte.x02] []
    = Ok ([] ++ [ExampleIO.OUTPUT ++ ExampleIO.WRITE ++ Example.CALIBRATION_ADDR
                 ++ [b] ++ [Byte.x01; Byte.x02]]) /\
    byte_val b = 2.
Proof.
  apply (proj1 (write_request ExampleIO.OUTPUT ExampleIO.WRITE
                  Example.CALIBRATION_ADDR [Byte.x01; Byte.x02] [])).
  simpl. lia.
Defined.

(** ** The session and its control socket *)

Section SessionIOFacts.
Context {F : Type} `{PyFloat F}.
Variables STATUS_0 REPORT_CB_0 READ_RTN_0 REPORT_CB8E_0 : byte.
Variable REPORT_CB8E_tail : list byte.
Variable CALIBRATION_ADDR : list byte.
Variable CALIBRATION_LENGTH : nat.
Variables OUTPUT READ SET_REPORT_MODE : list byte.
Variable bluetooth : bool.
Variable reachable : string -> bool.
Implicit Type s : BalanceBoard F.

#[local] Abbreviation REPORT_CB8E := (REPORT_CB8E REPORT_CB8E_0 REPORT_CB8E_tail).
#[local] Abbreviation classify :=
  (classify STATUS_0 REPORT_CB_0 READ_RTN_0 REPORT_CB8E_0).
#[local] Abbreviation step :=
  (step STATUS_0 REPORT_CB_0 READ_RTN_0 REPORT_CB8E_0
        CALIBRATION_ADDR CALIBRATION_LENGTH).
#[local] Abbreviation run :=
  (run STATUS_0 REPORT_CB_0 READ_RTN_0 REPORT_CB8E_0
       CALIBRATION_ADDR CALIBRATION_LENGTH).
#[local] Abbreviation step_sends :=
  (step_sends STATUS_0 REPORT_CB_0 READ_RTN_0 REPORT_CB8E_0 REPORT_CB8E_tail
              OUTPUT SET_REPORT_MODE).
#[local] Abbreviation run_io :=
  (run_io STATUS_0 REPORT_CB_0 READ_RTN_0 REPORT_CB8E_0 REPORT_CB8E_tail
          CALIBRATION_ADDR CALIBRATION_LENGTH OUTPUT SET_REPORT_MODE).
#[local] Abbreviation is_status_frame :=
  (is_status_frame STATUS_0 REPORT_CB_0 READ_RTN_0 REPORT_CB8E_0).
#[local] Abbreviation init :=
  (init (F:=F) REPORT_CB8E_0 REPORT_CB8E_tail CALIBRATION_ADDR CALIBRATION_LENGTH
        OUTPUT READ SET_REPORT_MODE bluetooth reachable).

(** The command that sets the continuous report mode. *)
#[local] Abbreviation report_mode_command :=
  (OUTPUT ++ SET_REPORT_MODE ++ [Byte.x04] ++ REPORT_CB8E).

Lemma step_sends_spec data s (sent : wire) :
  step_sends data sent = sent \/
  (step_sends data sent = sent ++ [report_mode_command] /\
   is_status_frame data = true).
Proof.
  unfold step_sends, is_status_frame. destruct (data !! 1%nat) as [t|]; [|by left].
  destruct (classify t) eqn:E; try (by left).
  destruct (data !! 4%nat); [|by left]. right. split; [done|].
  by apply bool_decide_eq_true.
Qed.

Lemma step_sends_completed data s s' (sent : wire) :
  step data s = Continue s' ->
  step_sends data sent
  = if is_status_frame data then sent ++ [report_mode_command] else sent.
Proof.
  unfold step, step_sends, is_status_frame.
  destruct (data !! 1%nat) as [t|]; [|done].
  destruct (classify t) eqn:E; try done.
  rewrite bool_decide_eq_true_2 by done. by destruct (data !! 4%nat).
Qed.



End SessionIOFacts.



(** ** Discovery *)

Section DiscoveryFacts.
Context {F : Type} `{PyFloat F}.
Variable REPORT_CB8E_0 : byte.
Variable REPORT_CB8E_tail : list byte.
Variable CALIBRATION_ADDR : list byte.
Variable CALIBRATION_LENGTH : nat.
Variables OUTPUT READ SET_REPORT_MODE : list byte.
Variable bluetooth : bool.
Variable reachable : string -> bool.
Implicit Type d : registry (F:=F).

#[local] Abbreviation init :=
  (init (F:=F) REPORT_CB8E_0 REPORT_CB8E_tail CALIBRATION_ADDR CALIBRATION_LENGTH
        OUTPUT READ SET_REPORT_MODE bluetooth reachable).
#[local] Abbreviation scan :=
  (scan (F:=F) REPORT_CB8E_0 REPORT_CB8E_tail CALIBRATION_ADDR CALIBRATION_LENGTH
        OUTPUT READ SET_REPORT_MODE bluetooth reachable).
#[local] Abbreviation discovery :=
  (discovery (F:=F) REPORT_CB8E_0 REPORT_CB8E_tail CALIBRATION_ADDR
             CALIBRATION_LENGTH OUTPUT READ SET_REPORT_MODE bluetooth reachable).

#[local] Abbreviation registrable := (registrable bluetooth reachable).

Lemma dict_mem_spec (k : string) d : dict_mem k d = true <-> k ∈ d.*1.
Proof. unfold dict_mem. apply bool_decide_eq_true. Qed.

Lemma dict_set_new (k : string) (v : BalanceBoard F) d :
  k ∉ (d.*1) -> dict_set k v d = d ++ [(k, v)].
Proof.
  induction d as [|[k' b] d IH]; simpl; intros Hk; [done|].
  apply not_elem_of_cons in Hk as [Hne Hk].
  destruct (String.eqb_spec k' k) as [->|_]; [done|]. by rewrite IH.
Qed.

Lemma is_new_board_spec (dev : string * string) d :
  is_new_board dev d = true <->
  dev.2 = "Nintendo RVL-WBC-01"%string /\ (dev.1 ∉ d.*1) /\ dev.1 <> ""%string.
Proof.
  unfold is_new_board.
  rewrite !andb_true_iff, !negb_true_iff, String.eqb_eq, String.eqb_neq.
  rewrite <- not_true_iff_false, dict_mem_spec. tauto.
Qed.

Lemma init_Built (k : string) (b : BalanceBoard F) (sent : wire) :
  init k = Built (b, sent) ->
  b = connect CALIBRATION_LENGTH k /\ bluetooth = true /\ reachable k = true.
Proof.
  unfold init. destruct bluetooth; [|done]. destruct (reachable k); [|done].
  simpl. destruct (read _ _ _ _ _); [|done]. by intros [= <- _].
Qed.

(** One scan: the registry grows at its end, by boards that may be
    registered. *)
Lemma scan_spec (devices : list (string * string)) : forall d,
  NoDup (d.*1) ->
  exists added,
    registry_of (scan devices d) = d ++ added /\
    NoDup ((d ++ added).*1) /\
    Forall (fun kv => registrable devices kv.1 /\
                      kv.2 = connect CALIBRATION_LENGTH kv.1) added /\
    (forall d', scan devices d = Scanned d' ->
                forall k, (k, "Nintendo RVL-WBC-01"%string) ∈ devices ->
                          k <> ""%string -> k ∈ d'.*1).
Proof.
  induction devices as [|dev devices IH]; intros d Hnd.
  - exists []. rewrite app_nil_r. repeat split; try done.
    intros d' _ k Hk. by apply elem_of_nil in Hk.
  - cbn [scan]. destruct (is_new_board dev d) eqn:Hnew.
    + apply is_new_board_spec in Hnew as (Hname & Hfresh & Hne).
      destruct dev as [k name]. simpl in *. subst name.
      destruct (init k) as [[b sent]|e] eqn:Hinit.
      * apply init_Built in Hinit as (-> & Hbt & Hre).
        rewrite dict_set_new by done.
        destruct (IH (d ++ [(k, connect CALIBRATION_LENGTH k)]))
          as (added & Hreg & Hnd' & Hadd & Hall).
        { rewrite fmap_app. apply NoDup_app. split; [done|].
          split; [|apply NoDup_singleton].
          intros x Hx Hx'. apply list_elem_of_singleton in Hx'. by subst. }
        exists ((k, connect CALIBRATION_LENGTH k) :: added).
        rewrite <- app_assoc in Hreg, Hnd'. simpl in Hreg, Hnd'.
        split; [done|]. split; [done|]. split.
        -- constructor.
           ++ split; [|done]. repeat split; try done. apply list_elem_of_here.
           ++ eapply Forall_impl; [exact Hadd|].
              intros [k' b'] [(Hin & ? & ? & ?) ?]. split; [|done].
              repeat split; try done. by apply list_elem_of_further.
        -- intros d' Hd' k' Hk' Hne'.
           apply elem_of_cons in Hk' as [[= ->]|Hk']; [|by eapply Hall].
           rewrite Hd' in Hreg. simpl in Hreg. rewrite Hreg, fmap_app.
           apply elem_of_app. right. apply list_elem_of_here.
      * exists []. rewrite app_nil_r. simpl. repeat split; try done.
    + destruct (IH d Hnd) as (added & Hreg & Hnd' & Hadd & Hall).
      exists added. split; [done|]. split; [done|]. split.
      * eapply Forall_impl; [exact Hadd|].
        intros [k' b'] [(Hin & ? & ? & ?) ?]. split; [|done].
        repeat split; try done. by apply list_elem_of_further.
      * intros d' Hd' k Hk Hne.
        apply elem_of_cons in Hk as [<-|Hk]; [|by eapply Hall].
        assert (k ∈ d.*1) as Hin.
        { destruct (decide (k ∈ d.*1)) as [|Hn]; [done|].
          assert (is_new_board (k, "Nintendo RVL-WBC-01"%string) d = true)
            by (by apply is_new_board_spec).
          congruence. }
        rewrite Hd' in Hreg. simpl in Hreg. rewrite Hreg, fmap_app.
        apply elem_of_app. by left.
Qed.

(** A scan that finds nothing new leaves the registry alone. *)
Lemma scan_nothing_new (devices : list (string * string)) d :
  (forall k, (k, "Nintendo RVL-WBC-01"%string) ∈ devices ->
             k <> ""%string -> k ∈ d.*1) ->
  scan devices d = Scanned d.
Proof.
  induction devices as [|dev devices IH]; intros Hall; [done|].
  cbn [scan]. destruct (is_new_board dev d) eqn:Hnew.
  - apply is_new_board_spec in Hnew as (Hname & Hfresh & Hne).
    destruct dev as [k name]. simpl in *. subst name.
    destruct Hfresh. apply Hall; [apply list_elem_of_here|done].
  - apply IH. intros k Hk. apply Hall. by apply list_elem_of_further.
Qed.

Lemma discovery_spec (scans : list (list (string * string))) : forall d,
  NoDup (d.*1) ->
  exists added,
    registry_of (discovery scans d) = d ++ added /\
    NoDup ((d ++ added).*1) /\
    Forall (fun kv => (exists devices, devices ∈ scans /\ registrable devices kv.1) /\
                      kv.2 = connect CALIBRATION_LENGTH kv.1) added /\
    (forall d', discovery scans d = Scanned d' ->
                forall devices k,
                  devices ∈ scans ->
                  (k, "Nintendo RVL-WBC-01"%string) ∈ devices ->
                  k <> ""%string -> k ∈ d'.*1).
Proof.
  induction scans as [|devices scans IH]; intros d Hnd.
  - exists []. rewrite app_nil_r. repeat split; try done.
    intros d' _ devices k Hin. by apply elem_of_nil in Hin.
  - cbn [discovery].
    destruct (scan_spec devices d Hnd) as (a1 & Hreg1 & Hnd1 & Hadd1 & Hall1).
    destruct (scan devices d) as [d1|e d1] eqn:Hscan; simpl in Hreg1; subst d1.
    + destruct (IH (d ++ a1) Hnd1) as (a2 & Hreg2 & Hnd2 & Hadd2 & Hall2).
      exists (a1 ++ a2). rewrite app_assoc. split; [done|]. split; [done|].
      split.
      * apply Forall_app. split.
        -- eapply Forall_impl; [exact Hadd1|]. intros kv [Hr ?]. split; [|done].
           exists devices. split; [apply list_elem_of_here|done].
        -- eapply Forall_impl; [exact Hadd2|].
           intros kv [(devs & Hin & Hr) ?]. split; [|done].
           exists devs. split; [by apply list_elem_of_further|done].
      * intros d' Hd' devs k Hin Hk Hne.
        apply elem_of_cons in Hin as [->|Hin]; [|by eapply Hall2].
        rewrite Hd' in Hreg2. simpl in Hreg2. rewrite Hreg2, fmap_app.
        apply elem_of_app. left. by apply (Hall1 _ eq_refl).
    + exists a1. split; [done|]. split; [done|]. split; [|done].
      eapply Forall_impl; [exact Hadd1|]. intros kv [Hr ?]. split; [|done].
      exists devices. split; [apply list_elem_of_here|done].
Qed.

(** [discovery] registers every address once and never touches a board
    that is registered: whatever the scans find, and whether or not the
    thread ends in an exception, the registry keeps distinct addresses
    and the sessions it had, in their places; new ones come behind. *)
Theorem discovery_registers_once (scans : list (list (string * string))) d :
  NoDup (d.*1) ->
  NoDup ((registry_of (discovery scans d)).*1) /\
  d `prefix_of` registry_of (discovery scans d).
Proof.
  intros Hnd. destruct (discovery_spec scans d Hnd) as (added & -> & Hnd' & _).
  split; [done|]. by exists added.
Qed.


(** If the scans complete, every device found under the name
    "Nintendo RVL-WBC-01" with an address that is not empty is
    registered; and finding the same devices again changes nothing: no
    session is created a second time. *)
Theorem discovery_complete_idempotent
    (scans : list (list (string * string))) d d' :
  NoDup (d.*1) ->
  discovery scans d = Scanned d' ->
  (forall devices k,
     devices ∈ scans -> (k, "Nintendo RVL-WBC-01"%string) ∈ devices ->
     k <> ""%string -> k ∈ d'.*1) /\
  discovery scans d' = Scanned d'.
Proof.
  intros Hnd Hd'.
  destruct (discovery_spec scans d Hnd) as (added & _ & _ & _ & Hall).
  specialize (Hall d' Hd'). split; [exact Hall|].
  clear Hd' Hnd d. induction scans as [|devices scans IH]; [done|].
  cbn [discovery]. rewrite scan_nothing_new.
  - apply IH. intros devs k Hin. apply Hall. by apply list_elem_of_further.
  - intros k. apply Hall. apply list_elem_of_here.
Qed.


End DiscoveryFacts.

Lemma discovery_registers_once_witness :
  NoDup ((registry_of (ExampleIO.discovery (F:=spec_float)
                         [ExampleIO.devices; ExampleIO.devices] [])).*1) /\
  [] `prefix_of` registry_of (ExampleIO.discovery (F:=spec_float)
                                [ExampleIO.devices; ExampleIO.devices] []).
Proof.
  apply (discovery_registers_once
           (F:=spec_float) Example.REPORT_CB8E_0 [] Example.CALIBRATION_ADDR
           Example.CALIBRATION_LENGTH ExampleIO.OUTPUT ExampleIO.READ
           ExampleIO.SET_REPORT_MODE true (fun _ => true)
           [ExampleIO.devices; ExampleIO.devices] []).
  constructor.
Defined.


Lemma discovery_complete_idempotent_witness :
  (forall devices k,
     devices ∈ [ExampleIO.devices] ->
     (k, "Nintendo RVL-WBC-01"%string) ∈ devices -> k <> ""%string ->
     k ∈ [("00:1E:35:AA:BB:CC"%string,
           connect (F:=spec_float) Example.CALIBRATION_LENGTH
                   "00:1E:35:AA:BB:CC")].*1) /\
  ExampleIO.discovery (F:=spec_float) [ExampleIO.devices]
    [("00:1E:35:AA:BB:CC"%string,
      connect Example.CALIBRATION_LENGTH "00:1E:35:AA:BB:CC")]
  = Scanned [("00:1E:35:AA:BB:CC"%string,
              connect Example.CALIBRATION_LENGTH "00:1E:35:AA:BB:CC")].
Proof.
  apply (discovery_complete_idempotent
           (F:=spec_float) Example.REPORT_CB8E_0 [] Example.CALIBRATION_ADDR
           Example.CALIBRATION_LENGTH ExampleIO.OUTPUT ExampleIO.READ
           ExampleIO.SET_REPORT_MODE true (fun _ => true)
           [ExampleIO.devices] []).
  - constructor.
  - vm_compute. reflexivity.
Defined.


(** ** The calibration block as [calculate_mass] reads it *)

Section BlockFacts.
Context {F : Type} `{PyFloat F}.
Implicit Type s : BalanceBoard F.

Lemma slice_take {A} (a b n : nat) (l : list A) :
  (a <= b)%nat -> (b <= n)%nat -> slice a b (take n l) = slice a b l.
Proof.
  intros Hab Hbn. unfold slice.
  rewrite !take_drop_commute, take_take.
  by replace (Nat.min (a + (b - a)) n) with (a + (b - a))%nat by lia.
Qed.

Lemma axis_calibration_take (cal : list byte) (i : nat) :
  (i < 4)%nat -> axis_calibration (take 24 cal) i = axis_calibration cal i.
Proof.
  intros Hi. unfold axis_calibration. by rewrite !slice_take by lia.
Qed.

Lemma mass_loop_take (cal : list byte) (points : list Z) : forall i (m : list (num F)),
  (i + length points <= 4)%nat ->
  mass_loop (take 24 cal) i points m = mass_loop cal i points m.
Proof.
  induction points as [|p points IH]; intros i m Hi; [done|].
  simpl in Hi. cbn [mass_loop]. rewrite axis_calibration_take by lia.
  destruct (axis_calibration cal i) as [[[zero half] full]|]; [|done].
  destruct (axis_mass zero half full p); [|done].
  case_decide; [|done]. apply IH. lia.
Qed.

Lemma axis_calibration_short (cal : list byte) :
  (length cal < 24)%nat -> axis_calibration cal 3 = Err StructError.
Proof.
  intros Hlen. unfold axis_calibration.
  assert (unpack_H (slice (3 * 2 + 16) (3 * 2 + 18) cal) = Err StructError) as Hfull.
  { assert (length (slice (3 * 2 + 16) (3 * 2 + 18) cal) < 2)%nat as Hl
      by (unfold slice; rewrite length_take, length_drop; lia).
    destruct (slice _ _ cal) as [|? [|? [|? ?]]]; simpl in Hl; try lia; done. }
  rewrite Hfull.
  assert (forall bs, unpack_H bs = Err StructError \/ exists x, unpack_H bs = Ok x)
    as Hcases.
  { intros bs. destruct bs as [|? [|? [|? ?]]]; simpl; eauto. }
  destruct (Hcases (slice (3 * 2) (3 * 2 + 2) cal)) as [->|[x ->]]; [done|].
  destruct (Hcases (slice (3 * 2 + 8) (3 * 2 + 10) cal)) as [->|[y ->]]; done.
Qed.

Lemma mass_loop_raises_at (cal : list byte) (k : nat) (points : list Z) :
  forall i (m : list (num F)),
    (i <= k)%nat -> (k < i + length points)%nat ->
    (exists e, axis_calibration cal k = Err e) ->
    exists e m', mass_loop cal i points m = Raised e m'.
Proof.
  induction points as [|p points IH]; intros i m Hik Hk [e He];
    [simpl in Hk; lia|].
  cbn [mass_loop]. simpl in Hk.
  destruct (decide (i = k)) as [->|Hne].
  - rewrite He. by eexists _, _.
  - destruct (axis_calibration cal i) as [[[zero half] full]|]; [|by eexists _, _].
    destruct (axis_mass zero half full p); [|by eexists _, _].
    case_decide; [|by eexists _, _].
    apply IH; [lia|lia|by eexists].
Qed.

(** With four readings, [calculate_mass] reads the first 24 bytes of
    the calibration block and nothing behind them: a block with fewer
    bytes makes it raise, with [total_mass] left as it was; bytes from
    index 24 on change nothing of what it computes. *)
Theorem calculate_mass_reads_24_bytes s :
  length (sensor_data s) = 4%nat ->
  ((length (calibration_data s) < 24)%nat ->
   exists e s', calculate_mass s = Raised e s' /\ total_mass s' = total_mass s) /\
  (forall cal',
     take 24 cal' = take 24 (calibration_data s) ->
     calculate_mass (set_calibration_data cal' s)
     = match calculate_mass s with
       | Continue s' => Continue (set_calibration_data cal' s')
       | Raised e s' => Raised e (set_calibration_data cal' s')
       end).
Proof.
  intros Hp. split.
  - intros Hlen. unfold calculate_mass.
    destruct (mass_loop_raises_at (calibration_data s) 3 (sensor_data s) 0 (mass s))
      as (e & m' & ->); [lia|lia|..].
    + eexists. by apply axis_calibration_short.
    + by eexists _, _.
  - intros cal' Hcal. unfold calculate_mass.
    cbn [calibration_data sensor_data mass set_calibration_data].
    rewrite <- (mass_loop_take cal') by lia.
    rewrite Hcal, mass_loop_take by lia.
    by destruct (mass_loop _ _ _ _).
Qed.

End BlockFacts.

Lemma calculate_mass_reads_24_bytes_witness :
  (exists e (s' : BalanceBoard spec_float),
     calculate_mass (set_calibration_data (take 23 Example.calibration)
                       (set_sensor_data [150; 250; 50; 150] Example.calibrated))
     = Raised e s' /\
     total_mass s'
     = total_mass (set_calibration_data (take 23 Example.calibration)
                     (set_sensor_data [150; 250; 50; 150]
                        (Example.calibrated (F:=spec_float))))) /\
  calculate_mass (set_calibration_data (Example.calibration ++ [Byte.xff])
                    (set_sensor_data [150; 250; 50; 150]
                       (Example.calibrated (F:=spec_float))))
  = match calculate_mass (set_sensor_data [150; 250; 50; 150]
                            (Example.calibrated (F:=spec_float))) with
    | Continue s' => Continue (set_calibration_data (Example.calibration ++ [Byte.xff]) s')
    | Raised e s' => Raised e (set_calibration_data (Example.calibration ++ [Byte.xff]) s')
    end.
Proof.
  split.
  - apply (proj1 (calculate_mass_reads_24_bytes
                    (set_calibration_data (take 23 Example.calibration)
                       (set_sensor_data [150; 250; 50; 150] Example.calibrated))
                    eq_refl)).
    simpl. lia.
  - apply (proj2 (calculate_mass_reads_24_bytes
                    (set_sensor_data [150; 250; 50; 150] Example.calibrated)
                    eq_refl)).
    reflexivity.
Defined.
